(** * A fixed-spread market-making loop: quoting cycle and request signing

    Shallow embedding of the two variants of [mmbot.py]:

    - [src/mmbot.py]: requests authenticated by an HMAC over the sorted
      query parameters (module [MEXC] below);
    - [src/GCBMMbot-MEXC-GCBEX/mmbot.py]: requests authenticated by an HMAC
      over timestamp, method, path and body, sent in headers (module
      [GCBEX] below).

    Python floats are IEEE binary64 numbers and are modelled by Rocq's
    primitive floats; Python [str] values are modelled by byte strings
    (their UTF-8 encoding); JSON documents and dictionaries by [pyval].
    The network, the clock and the log are external: every computation
    runs against an environment that answers each request and is recorded
    as the list of events the program emits. *)

From Stdlib Require Import ZArith List String Ascii Bool Lia Floats.
From Stdlib Require Import DecimalString Sorted Permutation.
From Stdlib Require OrderedTypeEx.
Import ListNotations.

Set Warnings "-inexact-float,-register-all".
Local Open Scope string_scope.
Local Open Scope list_scope.

(** ** Python floats *)

Module PyFloat.

(** [a > b], [a >= b] on floats: false as soon as one side is NaN. *)
Definition gt (a b : float) : bool := PrimFloat.ltb b a.
Definition ge (a b : float) : bool := PrimFloat.leb b a.
Definition le (a b : float) : bool := PrimFloat.leb a b.

(** The builtins [max(a, b)] and [min(a, b)]: the first argument is kept
    unless the second one is strictly greater (resp. smaller). *)
Definition py_max (a b : float) : float := if gt b a then b else a.
Definition py_min (a b : float) : float := if PrimFloat.ltb b a then b else a.

Definition is_nan (a : float) : bool := negb (PrimFloat.leb a a).

End PyFloat.

(** ** Python strings

    A string is held as the bytes of its UTF-8 encoding. A character is a
    byte that continues no other, with the continuation bytes that follow
    it. *)

Module PyStr.

Definition upper_ascii (c : ascii) : ascii :=
  let n := nat_of_ascii c in
  if (97 <=? n)%nat && (n <=? 122)%nat then ascii_of_nat (n - 32) else c.

(** [s.isascii()] *)
Definition is_ascii (s : string) : bool :=
  forallb (fun c => (nat_of_ascii c <? 128)%nat) (list_ascii_of_string s).

(** [s.upper()] on the letters of ASCII, which is [s.upper()] for every
    [s] with [s.isascii()]. Python also maps the letters outside ASCII,
    which are left as they are here; the program passes the methods
    ["GET"] and ["POST"]. *)
Fixpoint upper (s : string) : string :=
  match s with
  | EmptyString => EmptyString
  | String c r => String (upper_ascii c) (upper r)
  end.

Definition is_byte (c : ascii) (n : nat) : bool := (nat_of_ascii c =? n)%nat.

(** The white space of [str.strip()] and [str.isspace()]: in one byte,
    U+0009 to U+000D and U+001C to U+0020; *)
Definition is_space (c : ascii) : bool :=
  let n := nat_of_ascii c in
  ((9 <=? n)%nat && (n <=? 13)%nat) || ((28 <=? n)%nat && (n <=? 32)%nat).

(** in two bytes, U+0085 and U+00A0; *)
Definition is_space2 (c1 c2 : ascii) : bool :=
  is_byte c1 194 && (is_byte c2 133 || is_byte c2 160).

(** in three bytes, U+1680, U+2000 to U+200A, U+2028, U+2029, U+202F,
    U+205F and U+3000. *)
Definition is_space3 (c1 c2 c3 : ascii) : bool :=
  let n3 := nat_of_ascii c3 in
  (is_byte c1 225 && is_byte c2 154 && is_byte c3 128)
  || (is_byte c1 226 && is_byte c2 128
      && (((128 <=? n3)%nat && (n3 <=? 138)%nat)
          || is_byte c3 168 || is_byte c3 169 || is_byte c3 175))
  || (is_byte c1 226 && is_byte c2 129 && is_byte c3 159)
  || (is_byte c1 227 && is_byte c2 128 && is_byte c3 128).

(** [s.lstrip()] *)
Fixpoint lstrip (s : string) : string :=
  match s with
  | EmptyString => EmptyString
  | String c1 r1 =>
      if is_space c1 then lstrip r1
      else
        match r1 with
        | String c2 r2 =>
            if is_space2 c1 c2 then lstrip r2
            else
              match r2 with
              | String c3 r3 => if is_space3 c1 c2 c3 then lstrip r3 else s
              | EmptyString => s
              end
        | EmptyString => s
        end
  end.

(** [s.rstrip()]: what is before the longest suffix of white space. *)
Fixpoint rstrip (s : string) : string :=
  match s with
  | EmptyString => EmptyString
  | String c r =>
      match lstrip s with
      | EmptyString => EmptyString
      | _ => String c (rstrip r)
      end
  end.

(** [s.strip()] *)
Definition strip (s : string) : string := lstrip (rstrip s).

(** A byte that continues a character: [10xxxxxx]. *)
Definition is_cont (c : ascii) : bool :=
  let n := nat_of_ascii c in (128 <=? n)%nat && (n <? 192)%nat.

(** The characters of a string are counted, taken and skipped from the
    left; [inside] tells that the bytes read so far end in a character,
    which the continuation bytes that come next belong to. *)
Fixpoint len_from (inside : bool) (s : string) : nat :=
  match s with
  | EmptyString => 0
  | String c r => if inside && is_cont c then len_from true r else S (len_from true r)
  end.

Fixpoint take_from (inside : bool) (k : nat) (s : string) : string :=
  match s with
  | EmptyString => EmptyString
  | String c r =>
      if inside && is_cont c then String c (take_from true k r)
      else
        match k with
        | O => EmptyString
        | S k' => String c (take_from true k' r)
        end
  end.

Fixpoint skip_from (inside : bool) (k : nat) (s : string) : string :=
  match s with
  | EmptyString => EmptyString
  | String c r =>
      if inside && is_cont c then skip_from true k r
      else
        match k with
        | O => s
        | S k' => skip_from true k' r
        end
  end.

(** [len(s)], [s[:k]] and [s[k:]] for [k >= 0], in characters *)
Definition len (s : string) : nat := len_from false s.
Definition take (k : nat) (s : string) : string := take_from false k s.
Definition skip (k : nat) (s : string) : string := skip_from false k s.

(** [s[:-n]] and [s[-n:]] for [n > 0], in characters *)
Definition drop_last (n : nat) (s : string) : string := take (len s - n) s.
Definition take_last (n : nat) (s : string) : string := skip (len s - n) s.

(** [list(s)]: the characters of [s], each as a string *)
Fixpoint chars (s : string) : list string :=
  match s with
  | EmptyString => []
  | String c r =>
      match r with
      | EmptyString => [String c EmptyString]
      | String c' _ =>
          if is_cont c' then
            match chars r with
            | x :: xs => String c x :: xs
            | [] => [String c EmptyString]
            end
          else String c EmptyString :: chars r
      end
  end.

(** [needle in hay] on two strings *)
Fixpoint contains (needle hay : string) : bool :=
  prefix needle hay ||
  match hay with
  | EmptyString => false
  | String _ r => contains needle r
  end.

(** [sep.join(l)] *)
Definition join (sep : string) (l : list string) : string := String.concat sep l.

(** [str(n)] for an integer *)
Definition of_Z (z : Z) : string := NilZero.string_of_int (Z.to_int z).

(** [f"{x}"] for a value read with [os.getenv] *)
Definition of_env (x : option string) : string :=
  match x with Some s => s | None => "None" end.

Definition hex_digit (n : nat) : ascii :=
  match n with
  | 0 => "0" | 1 => "1" | 2 => "2" | 3 => "3" | 4 => "4" | 5 => "5" | 6 => "6"
  | 7 => "7" | 8 => "8" | 9 => "9" | 10 => "a" | 11 => "b" | 12 => "c"
  | 13 => "d" | 14 => "e" | _ => "f"
  end%char.

(** [bytes.hex()]: two lower-case hexadecimal digits per byte *)
Fixpoint hex (s : string) : string :=
  match s with
  | EmptyString => EmptyString
  | String c r =>
      let n := nat_of_ascii c in
      String (hex_digit (n / 16)) (String (hex_digit (n mod 16)) (hex r))
  end.

End PyStr.

(** ** Python values, exceptions and fallible builtins *)

Inductive pyval : Type :=
| PNone
| PBool (b : bool)
| PInt (z : Z)
| PFloat (f : float)
| PStr (s : string)
| PList (l : list pyval)
| PDict (d : list (string * pyval)).

(** Instances of [Exception]. [RequestError] stands for whatever the HTTP
    library raises (connection error, timeout, invalid URL or header,
    undecodable body), with its class name. *)
Inductive exn : Type :=
| TypeError (msg : string)
| KeyError (key : string)
| ValueError (msg : string)
| OverflowError (msg : string)
| AttributeError (msg : string)
| RequestError (cls msg : string).

(** [str(e)]. A [KeyError] shows the [repr] of its key; the keys the program
    looks up are names in ASCII, shown between single quotes. *)
Definition exn_str (e : exn) : string :=
  match e with
  | KeyError k => "'" ++ k ++ "'"
  | TypeError m | ValueError m | OverflowError m | AttributeError m => m
  | RequestError _ m => m
  end.

Inductive result (A : Type) : Type :=
| Ok (a : A)
| Raise (e : exn).
Arguments Ok {A} a.
Arguments Raise {A} e.

Definition rbind {A B} (r : result A) (k : A -> result B) : result B :=
  match r with
  | Ok a => k a
  | Raise e => Raise e
  end.

(** Dictionaries keep their keys unique and in insertion order. *)
Module PyDict.

Definition dict := list (string * pyval).

Fixpoint get (d : dict) (k : string) : option pyval :=
  match d with
  | [] => None
  | (k', v) :: r => if String.eqb k' k then Some v else get r k
  end.

Definition mem (d : dict) (k : string) : bool :=
  match get d k with Some _ => true | None => false end.

(** [d[k] = v] *)
Fixpoint set (d : dict) (k : string) (v : pyval) : dict :=
  match d with
  | [] => [(k, v)]
  | (k', v') :: r => if String.eqb k' k then (k', v) :: r else (k', v') :: set r k v
  end.

Definition keys (d : dict) : list string := map fst d.

End PyDict.

Definition type_name (v : pyval) : string :=
  match v with
  | PNone => "NoneType"
  | PBool _ => "bool"
  | PInt _ => "int"
  | PFloat _ => "float"
  | PStr _ => "str"
  | PList _ => "list"
  | PDict _ => "dict"
  end.

(** [v == s] for a string [s] *)
Definition py_eq_str (v : pyval) (s : string) : bool :=
  match v with
  | PStr t => String.eqb t s
  | _ => false
  end.

(** [key in data] for a string [key] *)
Definition py_in (key : string) (data : pyval) : result bool :=
  match data with
  | PDict d => Ok (PyDict.mem d key)
  | PList l => Ok (existsb (fun v => py_eq_str v key) l)
  | PStr s => Ok (PyStr.contains key s)
  | v => Raise (TypeError ("argument of type '" ++ type_name v ++ "' is not iterable"))
  end.

(** [data[key]] for a string [key] *)
Definition py_getitem (data : pyval) (key : string) : result pyval :=
  match data with
  | PDict d =>
      match PyDict.get d key with
      | Some v => Ok v
      | None => Raise (KeyError key)
      end
  | PList _ => Raise (TypeError "list indices must be integers or slices, not str")
  | PStr _ => Raise (TypeError "string indices must be integers, not 'str'")
  | v => Raise (TypeError ("'" ++ type_name v ++ "' object is not subscriptable"))
  end.

(** The items a [for] loop over [v] visits: the items of a list, the keys
    of a dictionary, the characters of a string. *)
Definition py_iter (v : pyval) : result (list pyval) :=
  match v with
  | PList l => Ok l
  | PDict d => Ok (map PStr (PyDict.keys d))
  | PStr s => Ok (map PStr (PyStr.chars s))
  | v => Raise (TypeError ("'" ++ type_name v ++ "' object is not iterable"))
  end.

(** ** The Python runtime

    Library functions the program calls and whose implementation is not
    part of it. Every statement below holds for all of them. *)

Record runtime : Type := {
  (** [hmac.new(key, msg, hashlib.sha256).digest()] on encoded strings *)
  hmac_sha256 : string -> string -> string;
  (** [float(s)] for a string; [None] when it raises [ValueError] *)
  float_of_str : string -> option float;
  (** [float(n)] for an integer; [None] when it raises [OverflowError] *)
  float_of_int : Z -> option float;
  (** [str(x)] for a float *)
  repr_float : float -> string;
  (** [format(x, ".nf")] *)
  format_fixed : nat -> float -> string;
  (** [repr(v)], which is [str(v)] for a list and for a dictionary *)
  repr_container : pyval -> string;
  (** [json.dumps(v, separators=(',', ':'))] *)
  json_dumps : pyval -> string
}.

(** [float(v)] *)
Definition py_float (rt : runtime) (v : pyval) : result float :=
  match v with
  | PFloat f => Ok f
  | PBool b => Ok (if b then 1%float else 0%float)
  | PInt z =>
      match float_of_int rt z with
      | Some f => Ok f
      | None => Raise (OverflowError "int too large to convert to float")
      end
  | PStr s =>
      match float_of_str rt s with
      | Some f => Ok f
      | None => Raise (ValueError ("could not convert string to float: "
                                   ++ repr_container rt (PStr s)))
      end
  | v => Raise (TypeError ("float() argument must be a string or a real number, not '"
                           ++ type_name v ++ "'"))
  end.

(** [str(v)], as an f-string renders a value *)
Definition py_str (rt : runtime) (v : pyval) : string :=
  match v with
  | PNone => "None"
  | PBool true => "True"
  | PBool false => "False"
  | PInt z => PyStr.of_Z z
  | PFloat f => repr_float rt f
  | PStr s => s
  | v => repr_container rt v
  end.

(** A value read with [os.getenv], as a Python value *)
Definition env_val (x : option string) : pyval :=
  match x with Some s => PStr s | None => PNone end.

(** ** The outside world: requests, log, clock *)

Inductive verb : Type := GET | POST | DELETE.

(** One call of [requests.get], [requests.post] or [requests.delete] with
    its keyword arguments. *)
Record request : Type := {
  rq_verb : verb;
  rq_url : string;
  rq_headers : PyDict.dict;
  rq_params : PyDict.dict;
  rq_data : option string;
  rq_json : option pyval
}.

Inductive level : Type := INFO | WARNING | ERROR.

Inductive event : Type :=
| Http (rq : request)
| Log (lvl : level) (msg : string)
| Sleep (secs : Z).

(** What a call returns: the body of a response decodes as JSON or not. *)
Inductive response : Type :=
| NotJson (msg : string)
| Json (v : pyval).

(** A call raises or returns a response. *)
Inductive reply : Type :=
| Fails (e : exn)
| Answers (r : response).

(** The environment answers each request and each reading of the clock,
    knowing everything that happened before. *)
Record env : Type := {
  (** [int(time.time() * 1000)] *)
  clock_ms : list event -> Z;
  respond : list event -> request -> reply
}.

(** [resp.json()] *)
Definition json_of (r : response) : result pyval :=
  match r with
  | Json v => Ok v
  | NotJson m => Raise (RequestError "JSONDecodeError" m)
  end.

(** A computation reads the events so far and returns a value or raises,
    together with the events it emitted, oldest first. *)
Definition M (A : Type) : Type := list event -> result A * list event.

Definition ret {A} (a : A) : M A := fun _ => (Ok a, []).

Definition bind {A B} (m : M A) (k : A -> M B) : M B :=
  fun h =>
    match m h with
    | (Ok a, d) => let (r, d') := k a (h ++ d) in (r, d ++ d')
    | (Raise e, d) => (Raise e, d)
    end.

Definition lift {A} (r : result A) : M A := fun _ => (r, []).

Definition emit (ev : event) : M unit := fun _ => (Ok tt, [ev]).

(** [try: m except Exception as e: handler e] *)
Definition try_except {A} (m : M A) (handler : exn -> M A) : M A :=
  fun h =>
    match m h with
    | (Ok a, d) => (Ok a, d)
    | (Raise e, d) => let (r, d') := handler e (h ++ d) in (r, d ++ d')
    end.

Declare Scope py_scope.
Delimit Scope py_scope with py.
Notation "x <- m ;; k" := (bind m (fun x => k))
  (at level 61, m at next level, right associativity) : py_scope.
Notation "m ;; k" := (bind m (fun _ => k))
  (at level 61, right associativity) : py_scope.
Local Open Scope py_scope.

(** [for x in l: body x] *)
Fixpoint for_each {A} (l : list A) (body : A -> M unit) : M unit :=
  match l with
  | [] => ret tt
  | x :: r => body x ;; for_each r body
  end.

Definition log (lvl : level) (msg : string) : M unit := emit (Log lvl msg).

(** [time.sleep(secs)] *)
Definition sleep (secs : Z) : M unit := emit (Sleep secs).

(** [int(time.time() * 1000)] *)
Definition time_ms (E : env) : M Z := fun h => (Ok (clock_ms E h), []).

(** [requests.get(...)], [requests.post(...)], [requests.delete(...)] *)
Definition send (E : env) (rq : request) : M response :=
  fun h =>
    match respond E h rq with
    | Fails e => (Raise e, [Http rq])
    | Answers r => (Ok r, [Http rq])
    end.

(** ** Configuration, read once from the process environment *)

Record config : Type := {
  API_KEY : option string;
  API_SECRET : option string;
  SYMBOL : option string;
  TARGET_PRICE : float;
  SPREAD_PERCENT : float;
  ORDER_SIZE : float;
  PRICE_FLOOR : float;
  PRICE_CEIL : float;
  API_BASE : option string;
  TELEGRAM_BOT_TOKEN : option string;
  TELEGRAM_USER_IDS : list string
}.

(** The configuration with another symbol, or other prices. *)
Definition with_symbol (c : config) (s : option string) : config :=
  {| API_KEY := API_KEY c;
     API_SECRET := API_SECRET c;
     SYMBOL := s;
     TARGET_PRICE := TARGET_PRICE c;
     SPREAD_PERCENT := SPREAD_PERCENT c;
     ORDER_SIZE := ORDER_SIZE c;
     PRICE_FLOOR := PRICE_FLOOR c;
     PRICE_CEIL := PRICE_CEIL c;
     API_BASE := API_BASE c;
     TELEGRAM_BOT_TOKEN := TELEGRAM_BOT_TOKEN c;
     TELEGRAM_USER_IDS := TELEGRAM_USER_IDS c |}.

Definition with_prices (c : config) (target spread floor ceil : float) : config :=
  {| API_KEY := API_KEY c;
     API_SECRET := API_SECRET c;
     SYMBOL := SYMBOL c;
     TARGET_PRICE := target;
     SPREAD_PERCENT := spread;
     ORDER_SIZE := ORDER_SIZE c;
     PRICE_FLOOR := floor;
     PRICE_CEIL := ceil;
     API_BASE := API_BASE c;
     TELEGRAM_BOT_TOKEN := TELEGRAM_BOT_TOKEN c;
     TELEGRAM_USER_IDS := TELEGRAM_USER_IDS c |}.

(** ** Code shared by the two variants *)

Local Open Scope string_scope.

Section Shared.

Variable rt : runtime.
Variable E : env.
Variable cfg : config.

(** The request [send_telegram_alert] posts for one subscriber. *)
Definition alert_request (user_id message : string) : request :=
  {| rq_verb := POST;
     rq_url := "https://api.telegram.org/bot" ++ PyStr.of_env (TELEGRAM_BOT_TOKEN cfg)
               ++ "/sendMessage";
     rq_headers := [];
     rq_params := [];
     rq_data := None;
     rq_json := Some (PDict [("chat_id", PStr (PyStr.strip user_id));
                             ("text", PStr message);
                             ("parse_mode", PStr "Markdown")]) |}.

(** The body of [for user_id in TELEGRAM_USER_IDS]: a failed delivery is
    logged and not raised further. *)
Definition deliver (user_id message : string) : M unit :=
  try_except
    (_ <- send E (alert_request user_id message) ;; ret tt)
    (fun e => log ERROR ("Telegram error: " ++ exn_str e)).

(** [send_telegram_alert(message)]: one request per subscriber. *)
Definition send_telegram_alert (message : string) : M unit :=
  for_each (TELEGRAM_USER_IDS cfg) (fun user_id => deliver user_id message).

(** The body of [get_price] once the request is built: the two variants
    differ in the URL and in the name of the field that holds the price. *)
Definition price_from (rq : request) (field : string) : M float :=
  try_except
    (resp <- send E rq ;;
     data <- lift (json_of resp) ;;
     present <- lift (py_in field data) ;;
     if (present : bool) then
       price <- lift (rbind (py_getitem data field) (py_float rt)) ;;
       send_telegram_alert ("📊 *" ++ PyStr.of_env (SYMBOL cfg) ++ " Price Update:* `"
                            ++ repr_float rt price ++ "`") ;;
       ret price
     else
       log WARNING ("Unexpected price response: " ++ py_str rt data) ;;
       ret (TARGET_PRICE cfg))
    (fun e =>
       log ERROR ("Price fetch error: " ++ exn_str e) ;;
       ret (TARGET_PRICE cfg)).

(** The loop of [get_balance] over the items of ["balances"]: the free
    amount of the first item whose asset is [asset]; [None] when the loop
    ends without returning. *)
Fixpoint scan_balances (asset : string) (items : list pyval) : result (option float) :=
  match items with
  | [] => Ok None
  | item :: rest =>
      rbind (py_getitem item "asset") (fun a =>
        if py_eq_str a asset then
          rbind (py_getitem item "free") (fun free =>
            rbind (py_float rt free) (fun f => Ok (Some f)))
        else scan_balances asset rest)
  end.

(** The body of [get_balance] once the request is built. *)
Definition balance_from (rq : request) (asset : string) : M float :=
  found <- try_except
             (resp <- send E rq ;;
              data <- lift (json_of resp) ;;
              present <- lift (py_in "balances" data) ;;
              if (present : bool) then
                items <- lift (rbind (py_getitem data "balances") py_iter) ;;
                lift (scan_balances asset items)
              else
                log WARNING ("Balance fetch error: " ++ py_str rt data) ;;
                ret None)
             (fun e =>
                log ERROR ("Balance fetch failed: " ++ exn_str e) ;;
                ret None) ;;
  ret (match found with Some f => f | None => 0%float end).

(** The quote computed at the head of each cycle of [main]: bid and ask. *)
Definition quote : float * float :=
  let spread := (TARGET_PRICE cfg * SPREAD_PERCENT cfg)%float in
  let bid_price := PyFloat.py_max (TARGET_PRICE cfg - spread)%float (PRICE_FLOOR cfg) in
  let ask_price := PyFloat.py_min (TARGET_PRICE cfg + spread)%float (PRICE_CEIL cfg) in
  (bid_price, ask_price).

(** [SYMBOL[:-4]] and [SYMBOL[-4:]] *)
Definition split_symbol : result (string * string) :=
  match SYMBOL cfg with
  | Some s => Ok (PyStr.drop_last 4 s, PyStr.take_last 4 s)
  | None => Raise (TypeError "'NoneType' object is not subscriptable")
  end.

(** The four operations of the exchange client, given by each variant. *)
Variable get_price : M float.
Variable cancel_all_orders : M unit.
Variable get_balance : string -> M float.
Variable place_order : string -> float -> M unit.

(** The BUY side of a cycle of [main]. *)
Definition evaluate_buy (quote_asset : string) (quote_balance bid_price : float) : M unit :=
  let required_quote := (bid_price * ORDER_SIZE cfg)%float in
  if PyFloat.ge quote_balance required_quote then
    place_order "BUY" bid_price
  else
    let msg := "❗ Not enough " ++ quote_asset ++ " to BUY: Have "
               ++ format_fixed rt 2 quote_balance ++ ", need "
               ++ format_fixed rt 2 required_quote in
    log WARNING msg ;;
    send_telegram_alert msg.

(** The SELL side of a cycle of [main]. *)
Definition evaluate_sell (base_asset : string) (base_balance ask_price : float) : M unit :=
  let required_base := ORDER_SIZE cfg in
  if PyFloat.ge base_balance required_base then
    place_order "SELL" ask_price
  else
    let msg := "❗ Not enough " ++ base_asset ++ " to SELL: Have "
               ++ format_fixed rt 2 base_balance ++ ", need "
               ++ format_fixed rt 2 required_base in
    log WARNING msg ;;
    send_telegram_alert msg.

(** The body of the [try] in [main]: one cycle. *)
Definition cycle : M unit :=
  current_price <- get_price ;;
  sleep 10 ;;
  let bid_price := fst quote in
  let ask_price := snd quote in
  log INFO ("Target: " ++ repr_float rt (TARGET_PRICE cfg)
            ++ " | Bid: " ++ format_fixed rt 6 bid_price
            ++ " | Ask: " ++ format_fixed rt 6 ask_price
            ++ " | Market: " ++ format_fixed rt 6 current_price) ;;
  cancel_all_orders ;;
  sleep 10 ;;
  assets <- lift split_symbol ;;
  let base_asset := fst assets in
  let quote_asset := snd assets in
  base_balance <- get_balance base_asset ;;
  sleep 10 ;;
  quote_balance <- get_balance quote_asset ;;
  sleep 10 ;;
  evaluate_buy quote_asset quote_balance bid_price ;;
  sleep 10 ;;
  evaluate_sell base_asset base_balance ask_price ;;
  sleep 10.

(** The handler of [except Exception as e] in [main]. *)
Definition on_error (e : exn) : M unit :=
  log ERROR ("Error in loop: " ++ exn_str e) ;;
  send_telegram_alert ("❌ Bot Error: " ++ exn_str e) ;;
  sleep 10.

(** One turn of [while True] in [main]. *)
Definition main_iteration : M unit := try_except cycle on_error.

(** [main], cut after [n] turns of its loop: the loop has no [break] and
    no [return], so it is left only by an exception that escapes a turn. *)
Fixpoint main (n : nat) : M unit :=
  match n with
  | O => ret tt
  | S k => main_iteration ;; main k
  end.

End Shared.

(** ** The header-signing variant ([src/GCBMMbot-MEXC-GCBEX/mmbot.py]) *)

Module GCBEX.

(** The message [sign] authenticates:
    [f"{timestamp}{method.upper()}{request_path}{body_json}"]. *)
Definition message (timestamp method request_path body_json : string) : string :=
  timestamp ++ PyStr.upper method ++ request_path ++ body_json.

Section Bot.

Variable rt : runtime.
Variable E : env.
Variable cfg : config.

(** [sign(timestamp, method, request_path, body_json="")]; a call without
    a body passes the empty string. *)
Definition sign (timestamp method request_path body_json : string) : result string :=
  match API_SECRET cfg with
  | Some secret =>
      Ok (PyStr.hex (hmac_sha256 rt secret (message timestamp method request_path body_json)))
  | None => Raise (AttributeError "'NoneType' object has no attribute 'encode'")
  end.

Definition auth_headers (timestamp signature : string) : PyDict.dict :=
  [("X-CH-APIKEY", env_val (API_KEY cfg));
   ("X-CH-TS", PStr timestamp);
   ("X-CH-SIGN", PStr signature)].

Definition ticker_request : request :=
  {| rq_verb := GET;
     rq_url := PyStr.of_env (API_BASE cfg) ++ "/sapi/v2/ticker";
     rq_headers := [];
     rq_params := [("symbol", env_val (SYMBOL cfg))];
     rq_data := None;
     rq_json := None |}.

Definition get_price : M float := price_from rt E cfg ticker_request "last".

Definition account_request (timestamp signature : string) : request :=
  {| rq_verb := GET;
     rq_url := PyStr.of_env (API_BASE cfg) ++ "/sapi/v1/account";
     rq_headers := auth_headers timestamp signature;
     rq_params := [];
     rq_data := None;
     rq_json := None |}.

Definition get_balance (asset : string) : M float :=
  ts <- time_ms E ;;
  let timestamp := PyStr.of_Z ts in
  signature <- lift (sign timestamp "GET" "/sapi/v1/account" "") ;;
  balance_from rt E (account_request timestamp signature) asset.

Definition order_body (side : string) (price : float) : pyval :=
  PDict [("symbol", env_val (SYMBOL cfg));
         ("side", PStr side);
         ("type", PStr "LIMIT");
         ("timeInForce", PStr "GTC");
         ("quantity", PFloat (ORDER_SIZE cfg));
         ("price", PStr (format_fixed rt 6 price))].

Definition order_request (timestamp signature body_json : string) : request :=
  {| rq_verb := POST;
     rq_url := PyStr.of_env (API_BASE cfg) ++ "/sapi/v2/order";
     rq_headers := (auth_headers timestamp signature
                    ++ [("Content-Type", PStr "application/json")])%list;
     rq_params := [];
     rq_data := Some body_json;
     rq_json := None |}.

Definition place_order (side : string) (price : float) : M unit :=
  ts <- time_ms E ;;
  let timestamp := PyStr.of_Z ts in
  let body_json := json_dumps rt (order_body side price) in
  signature <- lift (sign timestamp "POST" "/sapi/v2/order" body_json) ;;
  try_except
    (resp <- send E (order_request timestamp signature body_json) ;;
     data <- lift (json_of resp) ;;
     accepted <- lift (py_in "orderId" data) ;;
     if (accepted : bool) then
       log INFO ("✅ Placed " ++ side ++ " order at " ++ repr_float rt price)
     else
       log WARNING ("⚠️ Order error: " ++ py_str rt data))
    (fun e => log ERROR ("Error placing " ++ side ++ " order: " ++ exn_str e)).

Definition open_orders_request (timestamp signature : string) : request :=
  {| rq_verb := GET;
     rq_url := PyStr.of_env (API_BASE cfg) ++ "/sapi/v2/openOrders"
               ++ "?" ++ ("symbol=" ++ PyStr.of_env (SYMBOL cfg));
     rq_headers := auth_headers timestamp signature;
     rq_params := [];
     rq_data := None;
     rq_json := None |}.

Definition cancel_body (order_id : pyval) : pyval :=
  PDict [("symbol", env_val (SYMBOL cfg)); ("orderId", order_id)].

Definition cancel_request (timestamp signature body_json : string) : request :=
  {| rq_verb := POST;
     rq_url := PyStr.of_env (API_BASE cfg) ++ "/sapi/v2/cancel";
     rq_headers := (auth_headers timestamp signature
                    ++ [("Content-Type", PStr "application/json")])%list;
     rq_params := [];
     rq_data := Some body_json;
     rq_json := None |}.

(** The body of [for order in orders] in [cancel_all_orders]. *)
Definition cancel_order (order : pyval) : M unit :=
  ts <- time_ms E ;;
  let cancel_timestamp := PyStr.of_Z ts in
  order_id <- lift (py_getitem order "orderId") ;;
  let cancel_body_json := json_dumps rt (cancel_body order_id) in
  cancel_signature <- lift (sign cancel_timestamp "POST" "/sapi/v2/cancel" cancel_body_json) ;;
  cancel_resp <- send E (cancel_request cancel_timestamp cancel_signature cancel_body_json) ;;
  cancel_result <- lift (json_of cancel_resp) ;;
  has_status <- lift (py_in "status" cancel_result) ;;
  canceled <- (if (has_status : bool) then
                 status <- lift (py_getitem cancel_result "status") ;;
                 ret (py_eq_str status "CANCELED")
               else ret false) ;;
  if (canceled : bool) then
    log INFO ("✅ Cancelled Order " ++ py_str rt order_id)
  else
    log WARNING ("⚠️ Failed to cancel " ++ py_str rt order_id ++ ": "
                 ++ py_str rt cancel_result).

Definition cancel_all_orders : M unit :=
  try_except
    (ts <- time_ms E ;;
     let timestamp := PyStr.of_Z ts in
     signature <- lift (sign timestamp "GET" "/sapi/v2/openOrders" "") ;;
     resp <- send E (open_orders_request timestamp signature) ;;
     orders <- lift (json_of resp) ;;
     match orders with
     | PDict d =>
         if PyDict.mem d "code" then
           log WARNING ("Open Orders Error: " ++ py_str rt orders)
         else
           log WARNING ("Unexpected open orders response: " ++ py_str rt orders)
     | PList l => for_each l cancel_order
     | _ => log WARNING ("Unexpected open orders response: " ++ py_str rt orders)
     end)
    (fun e => log ERROR ("Error canceling orders: " ++ exn_str e)).

Definition cycle : M unit :=
  cycle rt E cfg get_price cancel_all_orders get_balance place_order.

Definition main_iteration : M unit :=
  main_iteration rt E cfg get_price cancel_all_orders get_balance place_order.

Definition main (n : nat) : M unit :=
  main rt E cfg get_price cancel_all_orders get_balance place_order n.

End Bot.

End GCBEX.

(** ** The query-signing variant ([src/mmbot.py]) *)

Module MEXC.

(** [sorted(l)] on strings: insertion into the sorted tail, which keeps
    equal keys in their order. *)
Fixpoint insert_key (k : string) (l : list string) : list string :=
  match l with
  | [] => [k]
  | x :: r => if String.leb k x then k :: l else x :: insert_key k r
  end.

Definition sorted (l : list string) : list string := fold_right insert_key [] l.

(** [f(x) for x in l] when [f] may raise *)
Fixpoint rmap {A B} (f : A -> result B) (l : list A) : result (list B) :=
  match l with
  | [] => Ok []
  | x :: r => rbind (f x) (fun y => rbind (rmap f r) (fun ys => Ok (y :: ys)))
  end.

Section Bot.

Variable rt : runtime.
Variable E : env.
Variable cfg : config.

(** The message [sign] authenticates: [k=v] for each key in sorted order,
    joined by [&]. *)
Definition query (params : PyDict.dict) : result string :=
  rbind (rmap (fun k => rbind (py_getitem (PDict params) k)
                              (fun v => Ok (k ++ "=" ++ py_str rt v)))
              (sorted (PyDict.keys params)))
        (fun pairs => Ok (PyStr.join "&" pairs)).

(** [sign(params)] *)
Definition sign (params : PyDict.dict) : result string :=
  rbind (query params) (fun query =>
    match API_SECRET cfg with
    | Some secret => Ok (PyStr.hex (hmac_sha256 rt secret query))
    | None => Raise (AttributeError "'NoneType' object has no attribute 'encode'")
    end).

(** The headers of the authenticated calls. The source writes the key
    ["X-CH-APIKEY"] twice in the literal and elides the second value
    ([*]), the one a dictionary would keep; the API key, the value written
    for the first, stands for it here. No statement below depends on the
    value of this header. *)
Definition auth_headers : PyDict.dict := [("X-CH-APIKEY", env_val (API_KEY cfg))].

(** [params["signature"] = sign(params)] *)
Definition signed (params : PyDict.dict) : result PyDict.dict :=
  rbind (sign params) (fun s => Ok (PyDict.set params "signature" (PStr s))).

Definition ticker_request : request :=
  {| rq_verb := GET;
     rq_url := PyStr.of_env (API_BASE cfg) ++ "/ticker/price";
     rq_headers := [];
     rq_params := [("symbol", env_val (SYMBOL cfg))];
     rq_data := None;
     rq_json := None |}.

Definition get_price : M float := price_from rt E cfg ticker_request "price".

Definition account_request (params : PyDict.dict) : request :=
  {| rq_verb := GET;
     rq_url := PyStr.of_env (API_BASE cfg) ++ "/account";
     rq_headers := auth_headers;
     rq_params := params;
     rq_data := None;
     rq_json := None |}.

Definition get_balance (asset : string) : M float :=
  ts <- time_ms E ;;
  params <- lift (signed [("timestamp", PInt ts)]) ;;
  balance_from rt E (account_request params) asset.

Definition order_params (side : string) (price : float) (ts : Z) : PyDict.dict :=
  [("symbol", env_val (SYMBOL cfg));
   ("side", PStr side);
   ("type", PStr "LIMIT");
   ("timeInForce", PStr "GTC");
   ("quantity", PFloat (ORDER_SIZE cfg));
   ("price", PStr (format_fixed rt 6 price));
   ("timestamp", PInt ts)].

Definition order_request (v : verb) (params : PyDict.dict) : request :=
  {| rq_verb := v;
     rq_url := PyStr.of_env (API_BASE cfg) ++ "/api/v3/order";
     rq_headers := auth_headers;
     rq_params := params;
     rq_data := None;
     rq_json := None |}.

Definition place_order (side : string) (price : float) : M unit :=
  ts <- time_ms E ;;
  params <- lift (signed (order_params side price ts)) ;;
  try_except
    (resp <- send E (order_request POST params) ;;
     data <- lift (json_of resp) ;;
     accepted <- lift (py_in "orderId" data) ;;
     if (accepted : bool) then
       log INFO ("Placed " ++ side ++ " order at " ++ repr_float rt price)
     else
       log WARNING ("Order error: " ++ py_str rt data))
    (fun e => log ERROR ("Error placing " ++ side ++ " order: " ++ exn_str e)).

Definition open_orders_request (params : PyDict.dict) : request :=
  {| rq_verb := GET;
     rq_url := PyStr.of_env (API_BASE cfg) ++ "/openOrders";
     rq_headers := auth_headers;
     rq_params := params;
     rq_data := None;
     rq_json := None |}.

(** The body of [for order in orders] in [cancel_all_orders]. *)
Definition cancel_order (order : pyval) : M unit :=
  order_id <- lift (py_getitem order "orderId") ;;
  ts <- time_ms E ;;
  cancel_params <- lift (signed [("symbol", env_val (SYMBOL cfg));
                                 ("orderId", order_id);
                                 ("timestamp", PInt ts)]) ;;
  _ <- send E (order_request DELETE cancel_params) ;;
  order_id' <- lift (py_getitem order "orderId") ;;
  side <- lift (py_getitem order "side") ;;
  log INFO ("Cancelled Order " ++ py_str rt order_id' ++ " [" ++ py_str rt side ++ "]").

Definition cancel_all_orders : M unit :=
  ts <- time_ms E ;;
  params <- lift (signed [("symbol", env_val (SYMBOL cfg)); ("timestamp", PInt ts)]) ;;
  try_except
    (resp <- send E (open_orders_request params) ;;
     orders <- lift (json_of resp) ;;
     match orders with
     | PDict d =>
         if PyDict.mem d "code" then
           log WARNING ("Cancel Orders Error: " ++ py_str rt orders)
         else
           log WARNING ("Unexpected orders response: " ++ py_str rt orders)
     | PList l => for_each l cancel_order
     | _ => log WARNING ("Unexpected orders response: " ++ py_str rt orders)
     end)
    (fun e => log ERROR ("Error canceling orders: " ++ exn_str e)).

Definition cycle : M unit :=
  cycle rt E cfg get_price cancel_all_orders get_balance place_order.

Definition main_iteration : M unit :=
  main_iteration rt E cfg get_price cancel_all_orders get_balance place_order.

Definition main (n : nat) : M unit :=
  main rt E cfg get_price cancel_all_orders get_balance place_order n.

End Bot.

End MEXC.

(** ** What a run shows *)

(** The requests among the events, oldest first. *)
Fixpoint requests_of (d : list event) : list request :=
  match d with
  | [] => []
  | Http rq :: r => rq :: requests_of r
  | _ :: r => requests_of r
  end.

(** The messages logged at a level, oldest first. *)
Fixpoint logged (lvl : level) (d : list event) : list string :=
  match d with
  | [] => []
  | Log l msg :: r =>
      match l, lvl with
      | INFO, INFO | WARNING, WARNING | ERROR, ERROR => msg :: logged lvl r
      | _, _ => logged lvl r
      end
  | _ :: r => logged lvl r
  end.

(** Only the notifier posts a JSON payload ([json=]); every call to the
    exchange passes [params=] or [data=]. *)
Definition is_alert (rq : request) : bool :=
  match rq_json rq with Some _ => true | None => false end.

Definition alerts (d : list event) : list request :=
  filter is_alert (requests_of d).

Definition exchange_calls (d : list event) : list request :=
  filter (fun rq => negb (is_alert rq)) (requests_of d).

(** A computation that returns whatever happened before: no exception
    escapes it. *)
Definition never_raises {A} (m : M A) : Prop :=
  forall h, exists a d, m h = (Ok a, d).



(** The outcome of one side of a cycle. When the balance covers the side,
    exactly one request goes to the exchange, an order of that side, and
    no alert is sent; otherwise nothing goes to the exchange, the warning
    [msg] is logged once and sent once to each subscriber. *)
Definition side_outcome (cfg : config) (covered : bool) (is_order : request -> Prop)
  (msg : string) (run : result unit * list event) : Prop :=
  fst run = Ok tt /\
  if covered then
    (exists rq, exchange_calls (snd run) = [rq] /\ is_order rq) /\
    alerts (snd run) = []
  else
    exchange_calls (snd run) = [] /\
    logged WARNING (snd run) = [msg] /\
    alerts (snd run) = map (fun u => alert_request cfg u msg) (TELEGRAM_USER_IDS cfg).

(** A cycle gates its two orders by the balances it has just read: the
    cycle returns, its events end with those of the BUY side, a pause,
    those of the SELL side and a pause; the BUY side is decided by the
    quote balance the cycle read against bid * size, at the bid of the
    quote, and the SELL side by the base balance against the size, at the
    ask. *)
Definition cycle_gates_orders (rt : runtime) (cfg : config)
  (get_balance : string -> M float) (cycle : M unit)
  (is_order : string -> float -> request -> Prop)
  (not_enough_buy : string -> float -> float -> string)
  (not_enough_sell : string -> float -> string)
  (symbol : string) (h : list event) : Prop :=
  let base_asset := PyStr.drop_last 4 symbol in
  let quote_asset := PyStr.take_last 4 symbol in
  let bid_price := fst (quote cfg) in
  let ask_price := snd (quote cfg) in
  exists head base_balance d_base quote_balance d_quote buy sell,
    get_balance base_asset (h ++ head)%list = (Ok base_balance, d_base) /\
    get_balance quote_asset (h ++ head ++ d_base ++ [Sleep 10])%list
    = (Ok quote_balance, d_quote) /\
    cycle h = (Ok tt, head ++ d_base ++ [Sleep 10] ++ d_quote ++ [Sleep 10]
                      ++ buy ++ [Sleep 10] ++ sell ++ [Sleep 10])%list /\
    side_outcome cfg (PyFloat.ge quote_balance (bid_price * ORDER_SIZE cfg)%float)
      (is_order "BUY" bid_price)
      (not_enough_buy quote_asset quote_balance bid_price) (Ok tt, buy) /\
    side_outcome cfg (PyFloat.ge base_balance (ORDER_SIZE cfg))
      (is_order "SELL" ask_price)
      (not_enough_sell base_asset base_balance) (Ok tt, sell).

(** The insufficient-funds messages of the two sides. *)
Definition not_enough_to_buy (rt : runtime) (cfg : config) (quote_asset : string)
  (quote_balance bid_price : float) : string :=
  "❗ Not enough " ++ quote_asset ++ " to BUY: Have "
  ++ format_fixed rt 2 quote_balance ++ ", need "
  ++ format_fixed rt 2 (bid_price * ORDER_SIZE cfg)%float.

Definition not_enough_to_sell (rt : runtime) (cfg : config) (base_asset : string)
  (base_balance : float) : string :=
  "❗ Not enough " ++ base_asset ++ " to SELL: Have "
  ++ format_fixed rt 2 base_balance ++ ", need "
  ++ format_fixed rt 2 (ORDER_SIZE cfg).

(** The request is a limit order of that side at that price, in each
    variant. *)
Definition gcbex_order (rt : runtime) (cfg : config) (side : string) (price : float)
  (rq : request) : Prop :=
  exists timestamp signature,
    rq = GCBEX.order_request cfg timestamp signature
           (json_dumps rt (GCBEX.order_body rt cfg side price)).

Definition mexc_order (rt : runtime) (cfg : config) (side : string) (price : float)
  (rq : request) : Prop :=
  exists ts signature,
    rq = MEXC.order_request cfg POST
           (PyDict.set (MEXC.order_params rt cfg side price ts) "signature" (PStr signature)).

(** The request cancels the order [order_id], in each variant. *)
Definition gcbex_cancel (rt : runtime) (cfg : config) (order_id : pyval)
  (rq : request) : Prop :=
  exists timestamp signature,
    rq = GCBEX.cancel_request cfg timestamp signature
           (json_dumps rt (GCBEX.cancel_body cfg order_id)).

Definition mexc_cancel (cfg : config) (order_id : pyval) (rq : request) : Prop :=
  exists ts signature,
    rq = MEXC.order_request cfg DELETE
           (PyDict.set [("symbol", env_val (SYMBOL cfg));
                        ("orderId", order_id);
                        ("timestamp", PInt ts)]
                       "signature" (PStr signature)).

(** The canonical messages, in the words of the design: the timestamp,
    the upper-cased method, the path and the serialized body (the empty
    string if there is none), concatenated in that order; or the
    parameters sorted by key and joined as [key=value] pairs with [&]. *)
Definition header_canonical (timestamp method path : string) (body : option string) : string :=
  String.concat "" [timestamp; PyStr.upper method; path;
                    match body with Some b => b | None => "" end].

Definition str_le (a b : string) : Prop := String.leb a b = true.

Definition key_le (a b : string * pyval) : Prop := str_le (fst a) (fst b).

Definition query_canonical (rt : runtime) (params : PyDict.dict) (msg : string) : Prop :=
  exists pairs,
    Permutation pairs params /\ Sorted key_le pairs /\
    msg = String.concat "&" (map (fun kv => fst kv ++ "=" ++ py_str rt (snd kv)) pairs).

(** The keyed hash collides on the two messages: they differ and have
    the same hash under the secret. *)
Definition collides (rt : runtime) (secret x y : string) : Prop :=
  x <> y /\ hmac_sha256 rt secret x = hmac_sha256 rt secret y.

(** The order of two finite binary64 numbers of the same sign: by
    exponent, then by mantissa. *)
Definition lex_cmp (e1 : Z) (m1 : positive) (e2 : Z) (m2 : positive) : comparison :=
  match Z.compare e1 e2 with
  | Lt => Lt
  | Gt => Gt
  | Eq => Pos.compare_cont Eq m1 m2
  end.

(** The value of a hexadecimal digit, to read [PyStr.hex] back. *)
Definition unhex_digit (c : ascii) : nat :=
  let n := nat_of_ascii c in
  if (n <? 58)%nat then n - 48 else n - 87.

(** The value under a key, for a key of the dictionary. *)
Definition value_at (d : PyDict.dict) (k : string) : pyval :=
  match PyDict.get d k with Some v => v | None => PNone end.

(** The raw prices of the quote, before clamping. *)
Definition raw_bid (cfg : config) : float :=
  (TARGET_PRICE cfg - TARGET_PRICE cfg * SPREAD_PERCENT cfg)%float.
Definition raw_ask (cfg : config) : float :=
  (TARGET_PRICE cfg + TARGET_PRICE cfg * SPREAD_PERCENT cfg)%float.

(** The asset is listed: some item of the list carries it. *)
Definition asset_listed (asset : string) (items : list pyval) : Prop :=
  exists item, In item items /\ py_getitem item "asset" = Ok (PStr asset).

(** The reply carries the price [p]: it decodes to a document whose
    [field] holds a value that [float] turns into [p]. *)
Definition remote_price (rt : runtime) (field : string) (r : reply) (p : float) : Prop :=
  exists data v,
    r = Answers (Json data) /\ py_getitem data field = Ok v /\ py_float rt v = Ok p.

(** What [get_price] returns, by the reply to its request: the target
    price on a transport error, on a body that is not JSON, on a document
    without the field and on a field that is not a number; the remote
    price when the reply carries one, and only then. *)
Definition price_or_target (rt : runtime) (cfg : config) (field : string)
  (r : reply) (p : float) : Prop :=
  (forall e, r = Fails e -> p = TARGET_PRICE cfg) /\
  (forall m, r = Answers (NotJson m) -> p = TARGET_PRICE cfg) /\
  (forall data, r = Answers (Json data) ->
                (forall v, py_getitem data field <> Ok v) -> p = TARGET_PRICE cfg) /\
  (forall data v, r = Answers (Json data) -> py_getitem data field = Ok v ->
                  (forall q, py_float rt v <> Ok q) -> p = TARGET_PRICE cfg) /\
  (forall q, remote_price rt field r q -> p = q) /\
  (p = TARGET_PRICE cfg \/ remote_price rt field r p).

(** The reply lists the asset with the free amount [f]. *)
Definition remote_balance (rt : runtime) (asset : string) (r : reply) (f : float) : Prop :=
  exists data v items item free,
    r = Answers (Json data) /\ py_getitem data "balances" = Ok v /\
    py_iter v = Ok items /\ In item items /\
    py_getitem item "asset" = Ok (PStr asset) /\
    py_getitem item "free" = Ok free /\ py_float rt free = Ok f.

(** What [get_balance] returns, by the reply to its request: zero on a
    transport error, on a body that is not JSON, on a document without
    ["balances"] and on a list where the asset is absent; a free amount of
    the asset only when the reply lists it; the free amount of the first
    item of the asset when the items before it name other assets. *)
Definition balance_or_zero (rt : runtime) (asset : string) (r : reply) (f : float) : Prop :=
  (forall e, r = Fails e -> f = 0%float) /\
  (forall m, r = Answers (NotJson m) -> f = 0%float) /\
  (forall data, r = Answers (Json data) ->
                (forall v, py_getitem data "balances" <> Ok v) -> f = 0%float) /\
  (forall data v items, r = Answers (Json data) -> py_getitem data "balances" = Ok v ->
                        py_iter v = Ok items -> ~ asset_listed asset items -> f = 0%float) /\
  (f = 0%float \/ remote_balance rt asset r f) /\
  (forall d before item after free x,
     r = Answers (Json (PDict d)) ->
     PyDict.get d "balances" = Some (PList (before ++ item :: after)) ->
     Forall (fun i => exists a, py_getitem i "asset" = Ok a /\ py_eq_str a asset = false) before ->
     py_getitem item "asset" = Ok (PStr asset) ->
     py_getitem item "free" = Ok free -> py_float rt free = Ok x ->
     f = x).

(** ** What a run may emit *)

(** Every event of [d] satisfies [P], given the events before it ([h]
    first, then the events of [d] that precede it). *)
Fixpoint each_event (P : list event -> event -> Prop) (h d : list event) : Prop :=
  match d with
  | [] => True
  | ev :: r => P h ev /\ each_event P (h ++ [ev])%list r
  end.

(** Run after [h], the computation emits only events that satisfy [P]. *)
Definition emits_at {A} (P : list event -> event -> Prop) (h : list event) (m : M A) : Prop :=
  each_event P h (snd (m h)).

(** The text of the clock read after [h]: [str(int(time.time() * 1000))]. *)
Definition stamp (E : env) (h : list event) : string := PyStr.of_Z (clock_ms E h).

(** The seconds slept, in all. *)
Fixpoint slept (d : list event) : Z :=
  match d with
  | [] => 0
  | Sleep secs :: r => secs + slept r
  | _ :: r => slept r
  end.

Definition not_a_pause (h : list event) (ev : event) : Prop :=
  match ev with Sleep _ => False | _ => True end.

(** The events of the header variant. Every request to an authenticated
    endpoint carries the clock read just before it is sent and the
    signature of that timestamp, its method, its path and the body it
    sends; orders are BUY at the bid and SELL at the ask of the quote. *)
Inductive gcbex_event (rt : runtime) (E : env) (cfg : config) (h : list event) : event -> Prop :=
| gcbex_logs (lvl : level) (msg : string) : gcbex_event rt E cfg h (Log lvl msg)
| gcbex_pauses : gcbex_event rt E cfg h (Sleep 10)
| gcbex_alerts (user_id message : string) :
    In user_id (TELEGRAM_USER_IDS cfg) ->
    gcbex_event rt E cfg h (Http (alert_request cfg user_id message))
| gcbex_ticker : gcbex_event rt E cfg h (Http (GCBEX.ticker_request cfg))
| gcbex_account (signature : string) :
    GCBEX.sign rt cfg (stamp E h) "GET" "/sapi/v1/account" "" = Ok signature ->
    gcbex_event rt E cfg h (Http (GCBEX.account_request cfg (stamp E h) signature))
| gcbex_listing (signature : string) :
    GCBEX.sign rt cfg (stamp E h) "GET" "/sapi/v2/openOrders" "" = Ok signature ->
    gcbex_event rt E cfg h (Http (GCBEX.open_orders_request cfg (stamp E h) signature))
| gcbex_cancels (order_id : pyval) (signature : string) :
    GCBEX.sign rt cfg (stamp E h) "POST" "/sapi/v2/cancel"
      (json_dumps rt (GCBEX.cancel_body cfg order_id)) = Ok signature ->
    gcbex_event rt E cfg h
      (Http (GCBEX.cancel_request cfg (stamp E h) signature
               (json_dumps rt (GCBEX.cancel_body cfg order_id))))
| gcbex_buys (signature : string) :
    GCBEX.sign rt cfg (stamp E h) "POST" "/sapi/v2/order"
      (json_dumps rt (GCBEX.order_body rt cfg "BUY" (fst (quote cfg)))) = Ok signature ->
    gcbex_event rt E cfg h
      (Http (GCBEX.order_request cfg (stamp E h) signature
               (json_dumps rt (GCBEX.order_body rt cfg "BUY" (fst (quote cfg))))))
| gcbex_sells (signature : string) :
    GCBEX.sign rt cfg (stamp E h) "POST" "/sapi/v2/order"
      (json_dumps rt (GCBEX.order_body rt cfg "SELL" (snd (quote cfg)))) = Ok signature ->
    gcbex_event rt E cfg h
      (Http (GCBEX.order_request cfg (stamp E h) signature
               (json_dumps rt (GCBEX.order_body rt cfg "SELL" (snd (quote cfg)))))).

(** The events of the query variant. Every request to an authenticated
    endpoint carries its parameters, with the clock read just before it is
    sent, and the signature of exactly these parameters. *)
Inductive mexc_event (rt : runtime) (E : env) (cfg : config) (h : list event) : event -> Prop :=
| mexc_logs (lvl : level) (msg : string) : mexc_event rt E cfg h (Log lvl msg)
| mexc_pauses : mexc_event rt E cfg h (Sleep 10)
| mexc_alerts (user_id message : string) :
    In user_id (TELEGRAM_USER_IDS cfg) ->
    mexc_event rt E cfg h (Http (alert_request cfg user_id message))
| mexc_ticker : mexc_event rt E cfg h (Http (MEXC.ticker_request cfg))
| mexc_account (params : PyDict.dict) :
    MEXC.signed rt cfg [("timestamp", PInt (clock_ms E h))] = Ok params ->
    mexc_event rt E cfg h (Http (MEXC.account_request cfg params))
| mexc_listing (params : PyDict.dict) :
    MEXC.signed rt cfg [("symbol", env_val (SYMBOL cfg)); ("timestamp", PInt (clock_ms E h))]
    = Ok params ->
    mexc_event rt E cfg h (Http (MEXC.open_orders_request cfg params))
| mexc_cancels (order_id : pyval) (params : PyDict.dict) :
    MEXC.signed rt cfg [("symbol", env_val (SYMBOL cfg));
                        ("orderId", order_id);
                        ("timestamp", PInt (clock_ms E h))] = Ok params ->
    mexc_event rt E cfg h (Http (MEXC.order_request cfg DELETE params))
| mexc_buys (params : PyDict.dict) :
    MEXC.signed rt cfg (MEXC.order_params rt cfg "BUY" (fst (quote cfg)) (clock_ms E h))
    = Ok params ->
    mexc_event rt E cfg h (Http (MEXC.order_request cfg POST params))
| mexc_sells (params : PyDict.dict) :
    MEXC.signed rt cfg (MEXC.order_params rt cfg "SELL" (snd (quote cfg)) (clock_ms E h))
    = Ok params ->
    mexc_event rt E cfg h (Http (MEXC.order_request cfg POST params)).

(** The events that need no secret: logs, pauses, alerts and the request
    for the price. *)
Definition public_event (cfg : config) (ticker : request) (h : list event) (ev : event) : Prop :=
  match ev with
  | Http rq => rq = ticker \/ exists user_id message, rq = alert_request cfg user_id message
  | _ => True
  end.

(** The events of one delivery of the notifier, by the reply to its
    request. *)
Definition delivery (cfg : config) (message user_id : string) (r : reply) : list event :=
  Http (alert_request cfg user_id message)
  :: match r with
     | Fails e => [Log ERROR ("Telegram error: " ++ exn_str e)]
     | Answers _ => []
     end.

(** The alerts that announce the price [p], one per subscriber. *)
Definition price_update (rt : runtime) (cfg : config) (p : float) : list request :=
  map (fun user_id =>
         alert_request cfg user_id
           ("📊 *" ++ PyStr.of_env (SYMBOL cfg) ++ " Price Update:* `"
            ++ repr_float rt p ++ "`"))
      (TELEGRAM_USER_IDS cfg).

(** What [get_price] does around the value it returns: one call to the
    exchange, the request [rq]; when it returns the price of the reply,
    an alert with that price to each subscriber and nothing logged below
    the error level; when the reply carries no price, the target price,
    no alert and one line logged above the info level. *)
Definition price_effects (rt : runtime) (E : env) (cfg : config) (rq : request)
  (field : string) (h : list event) (run : result float * list event) : Prop :=
  exists p d,
    run = (Ok p, d) /\
    exchange_calls d = [rq] /\
    ((remote_price rt field (respond E h rq) p /\
      alerts d = price_update rt cfg p /\
      logged WARNING d = [] /\ logged INFO d = [])
     \/
     (p = TARGET_PRICE cfg /\
      (forall q, ~ remote_price rt field (respond E h rq) q) /\
      exists lvl msg, d = [Http rq; Log lvl msg] /\ lvl <> INFO)).


(** What the listing of [cancel_all_orders] leads to when it holds no
    order: nothing more on an empty list; on a reply that is not a list,
    one line logged above the info level and no cancel, the line being an
    error exactly when the reply is not a JSON document. *)
Definition listing_outcome (listing : request) (r : reply)
  (run : result unit * list event) : Prop :=
  (r = Answers (Json (PList [])) -> run = (Ok tt, [Http listing])) /\
  ((forall orders, r <> Answers (Json (PList orders))) ->
   exists lvl msg,
     run = (Ok tt, [Http listing; Log lvl msg]) /\
     lvl <> INFO /\
     (lvl = ERROR <-> forall v, r <> Answers (Json v))).

(** What [place_order] does once the request [rq] is signed: it sends it,
    logs one line and returns. The line is at the info level exactly when
    the reply is a JSON document in which ["orderId" in data] holds, and
    an error exactly when the reply is no JSON document or that test
    raises; it is a warning otherwise. *)
Definition order_outcome (rq : request) (r : reply) (run : result unit * list event) : Prop :=
  exists lvl msg,
    run = (Ok tt, [Http rq; Log lvl msg]) /\
    (lvl = INFO <-> exists data, r = Answers (Json data) /\ py_in "orderId" data = Ok true) /\
    (lvl = WARNING <-> exists data, r = Answers (Json data) /\ py_in "orderId" data = Ok false).

(** What [get_balance] does around the value it returns, once its
    request [rq] is signed: it sends that one request. Either it logs
    nothing, and then the loop over the listed balances ran to its end or
    to a [return]: the value is the free amount it found, or zero when it
    found none. Or it logs one line above the info level and returns zero. *)
Definition balance_effects (rt : runtime) (asset : string) (rq : request) (r : reply)
  (run : result float * list event) : Prop :=
  exists f d,
    run = (Ok f, d) /\
    ((d = [Http rq] /\
      exists data v items found,
        r = Answers (Json data) /\ py_getitem data "balances" = Ok v /\
        py_iter v = Ok items /\ scan_balances rt asset items = Ok found /\
        f = match found with Some x => x | None => 0%float end)
     \/
     (exists lvl msg, d = [Http rq; Log lvl msg] /\ lvl <> INFO /\ f = 0%float)).

(** The item names another asset. *)
Definition other_asset (asset : string) (item : pyval) : Prop :=
  exists a, py_getitem item "asset" = Ok a /\ py_eq_str a asset = false.

(** An operation that pauses [n] seconds in all when it returns, and at
    most [f] seconds before it raises. *)
Definition spends {A} (n f : Z) (m : M A) : Prop :=
  forall h,
    match fst (m h) with
    | Ok _ => slept (snd (m h)) = n
    | Raise _ => (0 <= slept (snd (m h)) <= f)%Z
    end.

(** The configuration without the secret. *)
Definition without_secret (c : config) : config :=
  {| API_KEY := API_KEY c;
     API_SECRET := None;
     SYMBOL := SYMBOL c;
     TARGET_PRICE := TARGET_PRICE c;
     SPREAD_PERCENT := SPREAD_PERCENT c;
     ORDER_SIZE := ORDER_SIZE c;
     PRICE_FLOOR := PRICE_FLOOR c;
     PRICE_CEIL := PRICE_CEIL c;
     API_BASE := API_BASE c;
     TELEGRAM_BOT_TOKEN := TELEGRAM_BOT_TOKEN c;
     TELEGRAM_USER_IDS := TELEGRAM_USER_IDS c |}.

(** ** A runtime and environments to run the program on

    Stand-ins for the library functions, enough to evaluate the program on
    the examples below; no statement about the program depends on what
    they compute. *)

Module Sample.

Definition quote_char : string := String (ascii_of_nat 34) EmptyString.

(** A compact JSON writer for the values of the examples. *)
Fixpoint dumps (v : pyval) : string :=
  match v with
  | PNone => "null"
  | PBool true => "true"
  | PBool false => "false"
  | PInt z => PyStr.of_Z z
  | PFloat _ => "1.0"
  | PStr s => quote_char ++ s ++ quote_char
  | PList l => "[" ++ PyStr.join "," (map dumps l) ++ "]"
  | PDict d =>
      "{" ++ PyStr.join "," (map (fun kv : string * pyval => let (k, x) := kv in
                                            quote_char ++ k ++ quote_char ++ ":" ++ dumps x) d)
      ++ "}"
  end.

Definition parse_float (s : string) : option float :=
  if String.eqb s "0.5" then Some 0.5%float
  else if String.eqb s "2" then Some 2%float
  else if String.eqb s "50" then Some 50%float
  else if String.eqb s "1000" then Some 1000%float
  else if String.eqb s "100.5" then Some 100.5%float
  else None.

Definition rt : runtime :=
  {| hmac_sha256 := fun key msg => key ++ "/" ++ msg;
     float_of_str := parse_float;
     float_of_int := fun z =>
       if ((0 <=? z) && (z <? 1000000))%Z then Some (PrimFloat.of_uint63 (Uint63.of_Z z))
       else None;
     repr_float := fun _ => "<float>";
     format_fixed := fun _ _ => "<float>";
     repr_container := dumps;
     json_dumps := dumps |}.

(** Target 100, spread 1%, bounds 90 and 110, one unit per order. *)
Definition cfg : config :=
  {| API_KEY := Some "key";
     API_SECRET := Some "secret";
     SYMBOL := Some "ETHUSDT";
     TARGET_PRICE := 100;
     SPREAD_PERCENT := 0.01;
     ORDER_SIZE := 1;
     PRICE_FLOOR := 90;
     PRICE_CEIL := 110;
     API_BASE := Some "https://exchange.test";
     TELEGRAM_BOT_TOKEN := Some "token";
     TELEGRAM_USER_IDS := ["42"] |}.

Definition ends_with (suffix s : string) : bool :=
  String.eqb (PyStr.take_last (PyStr.len suffix) s) suffix.

Definition open_orders : list pyval :=
  [PDict [("orderId", PInt 1); ("side", PStr "BUY")];
   PDict [("orderId", PInt 2); ("side", PStr "SELL")]].

Definition two_orders : pyval := PList open_orders.

Definition account : pyval :=
  PDict [("balances",
          PList [PDict [("asset", PStr "ETH"); ("free", PStr "2")];
                 PDict [("asset", PStr "USDT"); ("free", PStr "50")]])].

(** An exchange that lists two open orders, holds 2 ETH and 50 USDT,
    quotes 100.5, and answers each cancel and each order with [on_write]. *)
Definition exchange (on_write : reply) : env :=
  {| clock_ms := fun h => (1700000000000 + Z.of_nat (List.length h))%Z;
     respond := fun _ rq =>
       if ends_with "/openOrders" (rq_url rq) || ends_with "symbol=ETHUSDT" (rq_url rq)
       then Answers (Json two_orders)
       else if ends_with "/account" (rq_url rq) then Answers (Json account)
       else if ends_with "/ticker" (rq_url rq) || ends_with "/ticker/price" (rq_url rq)
       then Answers (Json (PDict [("last", PStr "100.5"); ("price", PStr "100.5")]))
       else if ends_with "/sendMessage" (rq_url rq) then Answers (Json (PDict [("ok", PBool true)]))
       else on_write |}.

Definition rejected : reply :=
  Answers (Json (PDict [("code", PInt (-1)%Z); ("msg", PStr "rejected")])).

Definition unreachable : reply :=
  Fails (RequestError "ConnectionError" "connection refused").

(** An exchange no call reaches. *)
Definition offline : env :=
  {| clock_ms := fun _ => 1700000000000%Z;
     respond := fun _ _ => unreachable |}.

End Sample.

(** * Properties *)

(** ** Order of binary64 numbers *)

Lemma SFcompare_swap (x y : spec_float) :
  SFcompare y x = option_map CompOpp (SFcompare x y).
Proof.
  destruct x as [s1|s1| |s1 m1 e1], y as [s2|s2| |s2 m2 e2]; simpl;
    try reflexivity;
    try (destruct s1; try destruct s2; reflexivity);
    try (destruct s2; reflexivity).
  destruct s1, s2; simpl; try reflexivity;
    rewrite (Z.compare_antisym e1 e2);
    destruct (e1 ?= e2)%Z; simpl; try reflexivity;
    rewrite (Pos.compare_cont_antisym m1 m2 Eq); reflexivity.
Qed.

Lemma SFcompare_diag (x : spec_float) :
  SFcompare x x = None \/ SFcompare x x = Some Eq.
Proof.
  destruct x as [s|s| |s m e]; simpl; auto.
  - destruct s; auto.
  - right. rewrite Z.compare_refl, Pos.compare_cont_refl. destruct s; reflexivity.
Qed.

Lemma SFcompare_defined (x y : spec_float) (c : comparison) :
  SFcompare x y = Some c -> SFcompare x x = Some Eq /\ SFcompare y y = Some Eq.
Proof.
  intros H. split.
  - destruct (SFcompare_diag x) as [N|N]; [|exact N].
    destruct x; try discriminate N. discriminate H.
  - destruct (SFcompare_diag y) as [N|N]; [|exact N].
    destruct y; try discriminate N. destruct x; discriminate H.
Qed.

Lemma SFcompare_total (x y : spec_float) :
  SFcompare x x = Some Eq -> SFcompare y y = Some Eq ->
  exists c, SFcompare x y = Some c.
Proof.
  intros Hx Hy.
  destruct x, y; try discriminate Hx; try discriminate Hy; simpl; eauto.
Qed.

Lemma lex_cmp_le (e1 : Z) (m1 : positive) (e2 : Z) (m2 : positive) :
  lex_cmp e1 m1 e2 m2 <> Gt <-> (e1 < e2 \/ (e1 = e2 /\ (m1 <= m2)%positive))%Z.
Proof.
  unfold lex_cmp. destruct (Z.compare_spec e1 e2).
  - change (Pos.compare_cont Eq m1 m2) with (Pos.compare m1 m2).
    destruct (Pos.compare_spec m1 m2); split; intros; try congruence; try lia.
  - split; intros; try congruence; lia.
  - split; intros; try congruence; lia.
Qed.

Lemma lex_cmp_ge (e1 : Z) (m1 : positive) (e2 : Z) (m2 : positive) :
  lex_cmp e1 m1 e2 m2 <> Lt <-> (e2 < e1 \/ (e1 = e2 /\ (m2 <= m1)%positive))%Z.
Proof.
  unfold lex_cmp. destruct (Z.compare_spec e1 e2).
  - change (Pos.compare_cont Eq m1 m2) with (Pos.compare m1 m2).
    destruct (Pos.compare_spec m1 m2); split; intros; try congruence; try lia.
  - split; intros; try congruence; lia.
  - split; intros; try congruence; lia.
Qed.

Lemma SFleb_finite (s1 : bool) (m1 : positive) (e1 : Z) (s2 : bool) (m2 : positive) (e2 : Z) :
  SFleb (S754_finite s1 m1 e1) (S754_finite s2 m2 e2) = true <->
  match s1, s2 with
  | true, false => True
  | false, true => False
  | false, false => lex_cmp e1 m1 e2 m2 <> Gt
  | true, true => lex_cmp e1 m1 e2 m2 <> Lt
  end.
Proof.
  unfold SFleb, SFcompare. fold (lex_cmp e1 m1 e2 m2).
  destruct s1, s2.
  - unfold lex_cmp. destruct (e1 ?= e2)%Z; cbn;
      try destruct (Pos.compare_cont Eq m1 m2); cbn; split; congruence.
  - split; [trivial | reflexivity].
  - split; [discriminate | tauto].
  - unfold lex_cmp. destruct (e1 ?= e2)%Z; cbn;
      try destruct (Pos.compare_cont Eq m1 m2); cbn; split; congruence.
Qed.

Lemma SFleb_trans (x y z : spec_float) :
  SFleb x y = true -> SFleb y z = true -> SFleb x z = true.
Proof.
  destruct x as [s1|s1| |s1 m1 e1], y as [s2|s2| |s2 m2 e2], z as [s3|s3| |s3 m3 e3];
    try discriminate;
    try (destruct s1; try destruct s2; try destruct s3; cbn; congruence).
  rewrite !SFleb_finite.
  destruct s1, s2, s3; try tauto; rewrite ?lex_cmp_le, ?lex_cmp_ge; lia.
Qed.

Lemma le_trans (x y z : float) :
  PyFloat.le x y = true -> PyFloat.le y z = true -> PyFloat.le x z = true.
Proof. unfold PyFloat.le. rewrite !leb_spec. apply SFleb_trans. Qed.

Lemma gt_le (x y : float) : PyFloat.gt y x = true -> PyFloat.le x y = true.
Proof.
  unfold PyFloat.gt, PyFloat.le. rewrite leb_spec, ltb_spec. unfold SFleb, SFltb.
  destruct (SFcompare (Prim2SF x) (Prim2SF y)) as [[]|]; congruence.
Qed.

(** A comparison that holds has numbers on both sides. *)
Lemma le_number_l (x y : float) : PyFloat.le x y = true -> PyFloat.is_nan x = false.
Proof.
  unfold PyFloat.le, PyFloat.is_nan. rewrite !leb_spec. unfold SFleb. intros H.
  destruct (SFcompare (Prim2SF x) (Prim2SF y)) as [c|] eqn:C; [|discriminate].
  destruct (SFcompare_defined _ _ _ C) as [-> _]. reflexivity.
Qed.

Lemma le_number_r (x y : float) : PyFloat.le x y = true -> PyFloat.is_nan y = false.
Proof.
  unfold PyFloat.le, PyFloat.is_nan. rewrite !leb_spec. unfold SFleb. intros H.
  destruct (SFcompare (Prim2SF x) (Prim2SF y)) as [c|] eqn:C; [|discriminate].
  destruct (SFcompare_defined _ _ _ C) as [_ ->]. reflexivity.
Qed.

Lemma le_refl (x : float) : PyFloat.is_nan x = false -> PyFloat.le x x = true.
Proof.
  unfold PyFloat.le, PyFloat.is_nan. intros H. apply negb_false_iff in H. exact H.
Qed.

(** Two numbers are comparable: when [y > x] fails, [y <= x]. *)
Lemma not_gt_le (x y : float) :
  PyFloat.is_nan x = false -> PyFloat.is_nan y = false ->
  PyFloat.gt y x = false -> PyFloat.le y x = true.
Proof.
  unfold PyFloat.is_nan, PyFloat.gt, PyFloat.le.
  rewrite !leb_spec, ltb_spec. unfold SFleb, SFltb. intros Hx Hy.
  apply negb_false_iff in Hx, Hy.
  rewrite (SFcompare_swap (Prim2SF x) (Prim2SF y)).
  destruct (SFcompare_total (Prim2SF x) (Prim2SF y)) as [c ->].
  - destruct (SFcompare_diag (Prim2SF x)) as [N|N]; rewrite N in Hx;
      [discriminate | exact N].
  - destruct (SFcompare_diag (Prim2SF y)) as [N|N]; rewrite N in Hy;
      [discriminate | exact N].
  - destruct c; simpl; congruence.
Qed.

(** [max(a, b)] is one of its arguments and an upper bound of both, [min]
    a lower bound, as soon as both are numbers. *)
Lemma py_max_upper (a b : float) :
  PyFloat.is_nan a = false -> PyFloat.is_nan b = false ->
  PyFloat.le a (PyFloat.py_max a b) = true /\ PyFloat.le b (PyFloat.py_max a b) = true.
Proof.
  intros Ha Hb. unfold PyFloat.py_max.
  destruct (PyFloat.gt b a) eqn:G.
  - split; [|apply le_refl; exact Hb].
    unfold PyFloat.gt in G. unfold PyFloat.le.
    rewrite leb_spec. rewrite ltb_spec in G. unfold SFleb. unfold SFltb in G.
    destruct (SFcompare (Prim2SF a) (Prim2SF b)) as [[]|]; congruence.
  - split; [apply le_refl; exact Ha|].
    apply not_gt_le; assumption.
Qed.

Lemma py_min_lower (a b : float) :
  PyFloat.is_nan a = false -> PyFloat.is_nan b = false ->
  PyFloat.le (PyFloat.py_min a b) a = true /\ PyFloat.le (PyFloat.py_min a b) b = true.
Proof.
  intros Ha Hb. unfold PyFloat.py_min.
  destruct (PrimFloat.ltb b a) eqn:G.
  - split; [|apply le_refl; exact Hb].
    unfold PyFloat.le. rewrite leb_spec. rewrite ltb_spec in G.
    unfold SFleb. unfold SFltb in G.
    destruct (SFcompare (Prim2SF b) (Prim2SF a)) as [[]|]; congruence.
  - split; [apply le_refl; exact Ha|].
    apply (not_gt_le b a); assumption.
Qed.

Lemma py_max_cases (a b : float) : PyFloat.py_max a b = a \/ PyFloat.py_max a b = b.
Proof. unfold PyFloat.py_max. destruct (PyFloat.gt b a); auto. Qed.

Lemma py_min_cases (a b : float) : PyFloat.py_min a b = a \/ PyFloat.py_min a b = b.
Proof. unfold PyFloat.py_min. destruct (PrimFloat.ltb b a); auto. Qed.

(** ** The quote *)

(** C1, as stated, fails: with the floor below the ceiling and the target
    above the ceiling (target 200, spread 1%, floor 90, ceiling 110) the
    bid is 198 and the ask 110, so the bid is above the ask and above the
    ceiling. *)
Lemma quote_bid_above_ask :
  let c := with_prices Sample.cfg 200 0.01 90 110 in
  PyFloat.le (PRICE_FLOOR c) (PRICE_CEIL c) = true /\
  quote c = (198%float, 110%float) /\
  PyFloat.le (fst (quote c)) (snd (quote c)) = false /\
  PyFloat.le (fst (quote c)) (PRICE_CEIL c) = false.
Proof. vm_compute. repeat split. Qed.

(** C1, amended: with the floor at most the ceiling, the bid is at least
    the floor whenever the raw bid is a number, and the ask at most the
    ceiling whenever the raw ask is a number; and floor <= bid <= ask <=
    ceiling holds exactly when the raw bid is at most the raw ask and the
    ceiling, and the raw ask at least the floor (as for target 100, spread
    0.01 and bounds 90 and 110). *)
Theorem quote_within_bounds (cfg : config) :
  PyFloat.le (PRICE_FLOOR cfg) (PRICE_CEIL cfg) = true ->
  (PyFloat.is_nan (raw_bid cfg) = false ->
   PyFloat.le (PRICE_FLOOR cfg) (fst (quote cfg)) = true) /\
  (PyFloat.is_nan (raw_ask cfg) = false ->
   PyFloat.le (snd (quote cfg)) (PRICE_CEIL cfg) = true) /\
  ((PyFloat.le (PRICE_FLOOR cfg) (fst (quote cfg)) = true /\
    PyFloat.le (fst (quote cfg)) (snd (quote cfg)) = true /\
    PyFloat.le (snd (quote cfg)) (PRICE_CEIL cfg) = true) <->
   (PyFloat.le (raw_bid cfg) (raw_ask cfg) = true /\
    PyFloat.le (raw_bid cfg) (PRICE_CEIL cfg) = true /\
    PyFloat.le (PRICE_FLOOR cfg) (raw_ask cfg) = true)).
Proof.
  intros Hfc.
  pose proof (le_number_l _ _ Hfc) as Nf.
  pose proof (le_number_r _ _ Hfc) as Nc.
  assert (B : PyFloat.is_nan (raw_bid cfg) = false ->
              PyFloat.le (PRICE_FLOOR cfg) (fst (quote cfg)) = true).
  { intros Nb. apply (py_max_upper (raw_bid cfg) (PRICE_FLOOR cfg)); assumption. }
  assert (A : PyFloat.is_nan (raw_ask cfg) = false ->
              PyFloat.le (snd (quote cfg)) (PRICE_CEIL cfg) = true).
  { intros Na. apply (py_min_lower (raw_ask cfg) (PRICE_CEIL cfg)); assumption. }
  split; [exact B|]. split; [exact A|].
  change (fst (quote cfg)) with (PyFloat.py_max (raw_bid cfg) (PRICE_FLOOR cfg)) in *.
  change (snd (quote cfg)) with (PyFloat.py_min (raw_ask cfg) (PRICE_CEIL cfg)) in *.
  split.
  - intros (Hfb & Hba & Hac).
    assert (Nb : PyFloat.is_nan (raw_bid cfg) = false).
    { unfold PyFloat.py_max in Hfb.
      destruct (PyFloat.gt (PRICE_FLOOR cfg) (raw_bid cfg)) eqn:G.
      - exact (le_number_l _ _ (gt_le _ _ G)).
      - exact (le_number_r _ _ Hfb). }
    assert (Na : PyFloat.is_nan (raw_ask cfg) = false).
    { unfold PyFloat.py_min in Hac.
      destruct (PrimFloat.ltb (PRICE_CEIL cfg) (raw_ask cfg)) eqn:G.
      - exact (le_number_r _ _ (gt_le (PRICE_CEIL cfg) (raw_ask cfg) G)).
      - exact (le_number_l _ _ Hac). }
    destruct (py_max_upper (raw_bid cfg) (PRICE_FLOOR cfg) Nb Nf) as [Hrb _].
    destruct (py_min_lower (raw_ask cfg) (PRICE_CEIL cfg) Na Nc) as [Hra _].
    split; [|split].
    + exact (le_trans _ _ _ Hrb (le_trans _ _ _ Hba Hra)).
    + exact (le_trans _ _ _ Hrb (le_trans _ _ _ Hba Hac)).
    + exact (le_trans _ _ _ Hfb (le_trans _ _ _ Hba Hra)).
  - intros (Hba & Hbc & Hfa).
    split; [apply B; exact (le_number_l _ _ Hba)|].
    split; [|apply A; exact (le_number_r _ _ Hba)].
    destruct (py_max_cases (raw_bid cfg) (PRICE_FLOOR cfg)) as [-> | ->];
      destruct (py_min_cases (raw_ask cfg) (PRICE_CEIL cfg)) as [-> | ->]; assumption.
Qed.

Lemma quote_within_bounds_witness :
  let c := Sample.cfg in
  PyFloat.le (PRICE_FLOOR c) (fst (quote c)) = true /\
  PyFloat.le (fst (quote c)) (snd (quote c)) = true /\
  PyFloat.le (snd (quote c)) (PRICE_CEIL c) = true.
Proof.
  apply (quote_within_bounds Sample.cfg); [reflexivity|]. repeat split.
Defined.

(** C7: the quote is spread = target * fraction, bid = max(target - spread,
    floor), ask = min(target + spread, ceiling); target 100 and spread
    0.01 between 90 and 110 give 99.0 and 101.0; spread 0.2 gives raw
    prices 80 and 120, clamped to 90.0 and 110.0. *)
Theorem quote_formula :
  (forall cfg : config,
     let spread := (TARGET_PRICE cfg * SPREAD_PERCENT cfg)%float in
     quote cfg = (PyFloat.py_max (TARGET_PRICE cfg - spread)%float (PRICE_FLOOR cfg),
                  PyFloat.py_min (TARGET_PRICE cfg + spread)%float (PRICE_CEIL cfg))) /\
  quote (with_prices Sample.cfg 100 0.01 90 110) = (99%float, 101%float) /\
  (let c := with_prices Sample.cfg 100 0.2 90 110 in
   raw_bid c = 80%float /\ raw_ask c = 120%float /\
   quote c = (90%float, 110%float)).
Proof.
  split; [intros cfg; reflexivity|].
  split; [vm_compute; reflexivity|].
  vm_compute. repeat split.
Qed.

(** ** Running computations *)

Lemma bind_ok {A B} (m : M A) (k : A -> M B) h a d r d' :
  m h = (Ok a, d) -> k a (h ++ d)%list = (r, d') -> bind m k h = (r, (d ++ d')%list).
Proof. intros Hm Hk. unfold bind. rewrite Hm, Hk. reflexivity. Qed.

Lemma bind_raise {A B} (m : M A) (k : A -> M B) h e d :
  m h = (Raise e, d) -> bind m k h = (Raise e, d).
Proof. intros Hm. unfold bind. rewrite Hm. reflexivity. Qed.


Lemma try_ok {A} (m : M A) (handler : exn -> M A) h a d :
  m h = (Ok a, d) -> try_except m handler h = (Ok a, d).
Proof. intros Hm. unfold try_except. rewrite Hm. reflexivity. Qed.


Lemma never_raises_ret {A} (a : A) : never_raises (ret a).
Proof. intros h. exists a, []. reflexivity. Qed.

Lemma never_raises_emit (ev : event) : never_raises (emit ev).
Proof. intros h. exists tt, [ev]. reflexivity. Qed.

Lemma never_raises_time (E : env) : never_raises (time_ms E).
Proof. intros h. exists (clock_ms E h), []. reflexivity. Qed.

Lemma never_raises_bind {A B} (m : M A) (k : A -> M B) :
  never_raises m -> (forall a, never_raises (k a)) -> never_raises (bind m k).
Proof.
  intros Hm Hk h.
  destruct (Hm h) as (a & d & Ha).
  destruct (Hk a (h ++ d)%list) as (b & d' & Hb).
  exists b, (d ++ d')%list. exact (bind_ok m k h a d (Ok b) d' Ha Hb).
Qed.

(** A [try] whose handler returns never lets an exception out. *)
Lemma never_raises_try {A} (m : M A) (handler : exn -> M A) :
  (forall e, never_raises (handler e)) -> never_raises (try_except m handler).
Proof.
  intros Hh h. unfold try_except.
  destruct (m h) as [[a|e] d].
  - exists a, d. reflexivity.
  - destruct (Hh e (h ++ d)%list) as (b & d' & Hb). rewrite Hb.
    exists b, (d ++ d')%list. reflexivity.
Qed.

Lemma never_raises_for_each {A} (l : list A) (body : A -> M unit) :
  (forall x, never_raises (body x)) -> never_raises (for_each l body).
Proof.
  intros Hb. induction l as [|x r IH]; simpl.
  - apply never_raises_ret.
  - apply never_raises_bind; [apply Hb | intros _; exact IH].
Qed.

Ltac safe :=
  repeat first
    [ apply never_raises_bind; [|intro]
    | apply never_raises_try; intro
    | apply never_raises_for_each; intro
    | apply never_raises_ret
    | apply never_raises_emit
    | apply never_raises_time ].

Lemma send_telegram_alert_never_raises (E : env) (cfg : config) (message : string) :
  never_raises (send_telegram_alert E cfg message).
Proof. unfold send_telegram_alert, deliver, log. safe. Qed.

Lemma on_error_never_raises (E : env) (cfg : config) (e : exn) :
  never_raises (on_error E cfg e).
Proof.
  unfold on_error, log, sleep.
  apply never_raises_bind; [apply never_raises_emit | intros _].
  apply never_raises_bind; [apply send_telegram_alert_never_raises | intros _].
  apply never_raises_emit.
Qed.

Lemma requests_of_app (d1 d2 : list event) :
  requests_of (d1 ++ d2)%list = (requests_of d1 ++ requests_of d2)%list.
Proof.
  induction d1 as [|[rq|l m|n] d1 IH]; cbn [requests_of app]; rewrite ?IH; reflexivity.
Qed.

Lemma logged_app (lvl : level) (d1 d2 : list event) :
  logged lvl (d1 ++ d2)%list = (logged lvl d1 ++ logged lvl d2)%list.
Proof.
  induction d1 as [|[rq|l m|n] d1 IH]; cbn [logged app]; rewrite ?IH; try reflexivity.
  destruct l, lvl; reflexivity.
Qed.

Lemma alerts_app (d1 d2 : list event) :
  alerts (d1 ++ d2)%list = (alerts d1 ++ alerts d2)%list.
Proof. unfold alerts. rewrite requests_of_app, filter_app. reflexivity. Qed.

Lemma exchange_calls_app (d1 d2 : list event) :
  exchange_calls (d1 ++ d2)%list = (exchange_calls d1 ++ exchange_calls d2)%list.
Proof. unfold exchange_calls. rewrite requests_of_app, filter_app. reflexivity. Qed.

(** One delivery: the request is sent and no exception is left. *)
Lemma deliver_one (E : env) (cfg : config) (message u : string) h :
  exists d,
    deliver E cfg u message h = (Ok tt, d) /\
    requests_of d = [alert_request cfg u message] /\
    logged WARNING d = [] /\ logged INFO d = [].
Proof.
  unfold deliver, try_except, bind, send, ret, log, emit.
  destruct (respond E h (alert_request cfg u message)) as [e|r];
    eexists; repeat split; reflexivity.
Qed.

(** The events of a delivery: one request per subscriber, in order, and
    nothing logged below the error level. *)
Lemma send_telegram_alert_requests (E : env) (cfg : config) (message : string) h :
  exists d, send_telegram_alert E cfg message h = (Ok tt, d) /\
            requests_of d = map (fun u => alert_request cfg u message) (TELEGRAM_USER_IDS cfg) /\
            logged WARNING d = [] /\ logged INFO d = [].
Proof.
  unfold send_telegram_alert.
  revert h. induction (TELEGRAM_USER_IDS cfg) as [|u us IH]; intros h.
  - exists []. repeat split; reflexivity.
  - destruct (deliver_one E cfg message u h) as (d1 & H1 & R1 & W1 & I1).
    destruct (IH (h ++ d1)%list) as (d2 & H2 & R2 & W2 & I2).
    exists (d1 ++ d2)%list. split.
    + cbn [for_each]. exact (bind_ok _ _ h tt d1 (Ok tt) d2 H1 H2).
    + rewrite requests_of_app, !logged_app, R1, R2, W1, W2, I1, I2.
      repeat split; reflexivity.
Qed.

Lemma alert_requests_are_alerts (cfg : config) (message : string) (us : list string) :
  filter is_alert (map (fun u => alert_request cfg u message) us)
  = map (fun u => alert_request cfg u message) us /\
  filter (fun rq => negb (is_alert rq)) (map (fun u => alert_request cfg u message) us) = [].
Proof.
  induction us as [|u us [IH1 IH2]]; [split; reflexivity|].
  cbn [map filter]. change (is_alert (alert_request cfg u message)) with true.
  cbn [negb]. rewrite IH1, IH2. split; reflexivity.
Qed.

(** ** The loop boundary *)


Section Boundary.

Variable rt : runtime.
Variable E : env.
Variable cfg : config.
Variable get_price : M float.
Variable cancel_all_orders : M unit.
Variable get_balance : string -> M float.
Variable place_order : string -> float -> M unit.

Let body : M unit := cycle rt E cfg get_price cancel_all_orders get_balance place_order.
Let turn : M unit := main_iteration rt E cfg get_price cancel_all_orders get_balance place_order.





End Boundary.


(** The handler is reached: without a symbol, the body of a turn raises
    when it splits the symbol, and the turn still returns. *)
Example turn_without_symbol :
  let c := with_symbol Sample.cfg None in
  fst (GCBEX.cycle Sample.rt Sample.offline c [])
  = Raise (TypeError "'NoneType' object is not subscriptable") /\
  fst (GCBEX.main_iteration Sample.rt Sample.offline c []) = Ok tt /\
  logged ERROR (snd (GCBEX.main_iteration Sample.rt Sample.offline c []))
  = ["Price fetch error: connection refused";
     "Error canceling orders: connection refused";
     "Error in loop: 'NoneType' object is not subscriptable";
     "Telegram error: connection refused"].
Proof. vm_compute. repeat split. Qed.

(** ** Reading the price and the balances *)

Lemma py_getitem_in (data : pyval) (key : string) (v : pyval) :
  py_getitem data key = Ok v -> py_in key data = Ok true.
Proof.
  destruct data; try discriminate. cbn [py_getitem py_in]. unfold PyDict.mem.
  destruct (PyDict.get d key); [reflexivity | discriminate].
Qed.

Lemma py_eq_str_true (v : pyval) (s : string) : py_eq_str v s = true -> v = PStr s.
Proof.
  destruct v; try discriminate. cbn [py_eq_str]. intros H.
  apply String.eqb_eq in H. subst. reflexivity.
Qed.

Lemma py_eq_str_refl (s : string) : py_eq_str (PStr s) s = true.
Proof. apply String.eqb_refl. Qed.

Lemma price_from_run (rt : runtime) (E : env) (cfg : config) (rq : request)
  (field : string) h :
  exists p d,
    price_from rt E cfg rq field h = (Ok p, d) /\
    (forall q, remote_price rt field (respond E h rq) q -> p = q) /\
    (p = TARGET_PRICE cfg \/ remote_price rt field (respond E h rq) p).
Proof.
  unfold price_from, try_except.
  unfold bind at 1, send.
  destruct (respond E h rq) as [e|[m|data]] eqn:Hr.
  - eexists _, _. split; [reflexivity|]. split; [|left; reflexivity].
    intros q (data & v & Hq & _). discriminate.
  - cbn [lift json_of bind]. eexists _, _. split; [reflexivity|].
    split; [|left; reflexivity].
    intros q (data & v & Hq & _). discriminate.
  - unfold bind at 1. cbn [lift json_of]. unfold bind at 1. cbn [lift].
    destruct (py_in field data) as [[|]|e] eqn:Hin.
    + unfold bind at 1. cbn [lift].
      destruct (py_getitem data field) as [v|e] eqn:Hg; cbn [rbind].
      * destruct (py_float rt v) as [q|e] eqn:Hf.
        -- match goal with
           | |- context [bind (send_telegram_alert E cfg ?msg) ?k ?hh] =>
               destruct (send_telegram_alert_requests E cfg msg hh) as (a & Ha & _);
               rewrite (bind_ok (send_telegram_alert E cfg msg) k hh tt a (Ok q) [] Ha eq_refl)
           end.
           eexists _, _. split; [reflexivity|]. split.
           ++ intros q' (data' & v' & Hq & Hg' & Hf'). inversion Hq; subst. congruence.
           ++ right. exists data, v. auto.
        -- eexists _, _. split; [reflexivity|]. split; [|left; reflexivity].
           intros q' (data' & v' & Hq & Hg' & Hf'). inversion Hq; subst. congruence.
      * eexists _, _. split; [reflexivity|]. split; [|left; reflexivity].
        intros q' (data' & v' & Hq & Hg' & Hf'). inversion Hq; subst. congruence.
    + unfold bind at 1. cbn [log emit ret]. eexists _, _. split; [reflexivity|].
      split; [|left; reflexivity].
      intros q' (data' & v' & Hq & Hg' & Hf'). inversion Hq; subst.
      apply py_getitem_in in Hg'. congruence.
    + eexists _, _. split; [reflexivity|]. split; [|left; reflexivity].
      intros q' (data' & v' & Hq & Hg' & Hf'). inversion Hq; subst.
      apply py_getitem_in in Hg'. congruence.
Qed.

Lemma price_from_contract (rt : runtime) (E : env) (cfg : config) (rq : request)
  (field : string) h :
  exists p d,
    price_from rt E cfg rq field h = (Ok p, d) /\
    price_or_target rt cfg field (respond E h rq) p.
Proof.
  destruct (price_from_run rt E cfg rq field h) as (p & d & Hrun & Hpos & Hneg).
  exists p, d. split; [exact Hrun|].
  assert (T : (forall q, ~ remote_price rt field (respond E h rq) q) -> p = TARGET_PRICE cfg).
  { intros Hn. destruct Hneg as [->|Hp]; [reflexivity | destruct (Hn p Hp)]. }
  unfold price_or_target. repeat split.
  - intros e He. apply T. intros q (data & v & Hq & _). congruence.
  - intros m Hm. apply T. intros q (data & v & Hq & _). congruence.
  - intros data Hd Hno. apply T. intros q (data' & v & Hq & Hg & _).
    rewrite Hd in Hq. inversion Hq; subst. exact (Hno v Hg).
  - intros data v Hd Hg Hno. apply T. intros q (data' & v' & Hq & Hg' & Hf).
    rewrite Hd in Hq. inversion Hq; subst. rewrite Hg in Hg'. inversion Hg'; subst.
    exact (Hno q Hf).
  - exact Hpos.
  - exact Hneg.
Qed.

(** C5: [get_price] always returns; it returns the configured target
    price when the request fails, when the body is not JSON, when the
    document lacks the price field or the field is not a number; it
    returns the remote price when the reply carries one, and only then.
    Header variant (field [last]) and query variant (field [price]). *)
Theorem get_price_falls_back_to_target (rt : runtime) (E : env) (cfg : config)
  (h : list event) :
  (exists p d,
     GCBEX.get_price rt E cfg h = (Ok p, d) /\
     price_or_target rt cfg "last" (respond E h (GCBEX.ticker_request cfg)) p) /\
  (exists p d,
     MEXC.get_price rt E cfg h = (Ok p, d) /\
     price_or_target rt cfg "price" (respond E h (MEXC.ticker_request cfg)) p).
Proof.
  split; apply price_from_contract.
Qed.

(** The runs of [get_price] against three replies: a price, a document
    without the field, no connection. *)
Example get_price_runs :
  fst (GCBEX.get_price Sample.rt (Sample.exchange Sample.rejected) Sample.cfg [])
  = Ok 100.5%float /\
  fst (GCBEX.get_price Sample.rt Sample.offline Sample.cfg []) = Ok 100%float /\
  fst (MEXC.get_price Sample.rt
         {| clock_ms := fun _ => 0%Z;
            respond := fun _ _ => Answers (Json (PDict [("code", PInt 429)])) |}
         Sample.cfg []) = Ok 100%float.
Proof. vm_compute. repeat split. Qed.

Lemma scan_balances_found (rt : runtime) (asset : string) (items : list pyval) (f : float) :
  scan_balances rt asset items = Ok (Some f) ->
  exists item free,
    In item items /\ py_getitem item "asset" = Ok (PStr asset) /\
    py_getitem item "free" = Ok free /\ py_float rt free = Ok f.
Proof.
  induction items as [|item rest IH]; cbn [scan_balances]; [discriminate|].
  destruct (py_getitem item "asset") as [a|e] eqn:Ha; cbn [rbind]; [|discriminate].
  destruct (py_eq_str a asset) eqn:Heq.
  - apply py_eq_str_true in Heq. subst a.
    destruct (py_getitem item "free") as [free|e] eqn:Hfree; cbn [rbind]; [|discriminate].
    destruct (py_float rt free) as [x|e] eqn:Hx; cbn [rbind]; [|discriminate].
    intros H. inversion H; subst. exists item, free. cbn [In]. auto.
  - intros H. destruct (IH H) as (item' & free & Hin & Hrest).
    exists item', free. cbn [In]. auto.
Qed.

Lemma scan_balances_first (rt : runtime) (asset : string)
  (before : list pyval) (item : pyval) (after : list pyval) (free : pyval) (x : float) :
  Forall (fun i => exists a, py_getitem i "asset" = Ok a /\ py_eq_str a asset = false) before ->
  py_getitem item "asset" = Ok (PStr asset) ->
  py_getitem item "free" = Ok free -> py_float rt free = Ok x ->
  scan_balances rt asset (before ++ item :: after) = Ok (Some x).
Proof.
  intros Hb Ha Hfree Hx. induction Hb as [|i before (a & Hi & Hne) _ IH].
  - cbn [app scan_balances]. rewrite Ha. cbn [rbind]. rewrite py_eq_str_refl, Hfree.
    cbn [rbind]. rewrite Hx. reflexivity.
  - cbn [app scan_balances]. rewrite Hi. cbn [rbind]. rewrite Hne. exact IH.
Qed.

Lemma balance_from_run (rt : runtime) (E : env) (rq : request) (asset : string) h :
  exists f d,
    balance_from rt E rq asset h = (Ok f, d) /\
    requests_of d = [rq] /\
    (f = 0%float \/ remote_balance rt asset (respond E h rq) f) /\
    (forall data v items x,
       respond E h rq = Answers (Json data) -> py_getitem data "balances" = Ok v ->
       py_iter v = Ok items -> scan_balances rt asset items = Ok (Some x) -> f = x).
Proof.
  unfold balance_from. unfold bind at 1, try_except.
  unfold bind at 1, send.
  destruct (respond E h rq) as [e|[m|data]] eqn:Hr.
  - eexists _, _. split; [reflexivity|]. split; [reflexivity|].
    split; [left; reflexivity | intros; discriminate].
  - cbn [lift json_of bind]. eexists _, _. split; [reflexivity|]. split; [reflexivity|].
    split; [left; reflexivity | intros; discriminate].
  - unfold bind at 1. cbn [lift json_of]. unfold bind at 1. cbn [lift].
    destruct (py_in "balances" data) as [[|]|e] eqn:Hin.
    + unfold bind at 1. cbn [lift].
      destruct (py_getitem data "balances") as [v|e] eqn:Hg; cbn [rbind].
      * destruct (py_iter v) as [items|e] eqn:Hi.
        -- destruct (scan_balances rt asset items) as [[x|]|e] eqn:Hs.
           ++ eexists _, _. split; [reflexivity|]. split; [reflexivity|]. split.
              ** right. destruct (scan_balances_found rt asset items x Hs)
                   as (item & free & Hitem & Hasset & Hfree & Hx).
                 exists data, v, items, item, free. auto 10.
              ** intros data' v' items' x' Hd Hg' Hi' Hs'.
                 inversion Hd; subst. congruence.
           ++ eexists _, _. split; [reflexivity|]. split; [reflexivity|].
              split; [left; reflexivity|].
              intros data' v' items' x' Hd Hg' Hi' Hs'. inversion Hd; subst. congruence.
           ++ eexists _, _. split; [reflexivity|]. split; [reflexivity|].
              split; [left; reflexivity|].
              intros data' v' items' x' Hd Hg' Hi' Hs'. inversion Hd; subst. congruence.
        -- eexists _, _. split; [reflexivity|]. split; [reflexivity|].
           split; [left; reflexivity|].
           intros data' v' items' x' Hd Hg' Hi' Hs'. inversion Hd; subst. congruence.
      * eexists _, _. split; [reflexivity|]. split; [reflexivity|].
        split; [left; reflexivity|].
        intros data' v' items' x' Hd Hg' Hi' Hs'. inversion Hd; subst. congruence.
    + unfold bind at 1. cbn [log emit ret].
      eexists _, _. split; [reflexivity|]. split; [reflexivity|].
      split; [left; reflexivity|].
      intros data' v' items' x' Hd Hg' Hi' Hs'. inversion Hd; subst.
      apply py_getitem_in in Hg'. congruence.
    + eexists _, _. split; [reflexivity|]. split; [reflexivity|].
      split; [left; reflexivity|].
      intros data' v' items' x' Hd Hg' Hi' Hs'. inversion Hd; subst.
      apply py_getitem_in in Hg'. congruence.
Qed.

Lemma balance_from_contract (rt : runtime) (E : env) (rq : request) (asset : string) h :
  exists f d,
    balance_from rt E rq asset h = (Ok f, d) /\
    requests_of d = [rq] /\
    balance_or_zero rt asset (respond E h rq) f.
Proof.
  destruct (balance_from_run rt E rq asset h) as (f & d & Hrun & Hreq & Hor & Hfirst).
  exists f, d. split; [exact Hrun|]. split; [exact Hreq|].
  assert (Z : (forall x, ~ remote_balance rt asset (respond E h rq) x) -> f = 0%float).
  { intros Hn. destruct Hor as [->|Hp]; [reflexivity | destruct (Hn f Hp)]. }
  unfold balance_or_zero. repeat split.
  - intros e He. apply Z. intros x (data & v & items & item & free & Hq & _). congruence.
  - intros m Hm. apply Z. intros x (data & v & items & item & free & Hq & _). congruence.
  - intros data Hd Hno. apply Z.
    intros x (data' & v & items & item & free & Hq & Hg & _).
    rewrite Hd in Hq. inversion Hq; subst. exact (Hno v Hg).
  - intros data v items Hd Hg Hi Hno. apply Z.
    intros x (data' & v' & items' & item & free & Hq & Hg' & Hi' & Hin & Ha & _).
    rewrite Hd in Hq. inversion Hq; subst. rewrite Hg in Hg'. inversion Hg'; subst.
    rewrite Hi in Hi'. inversion Hi'; subst.
    apply Hno. exists item. auto.
  - exact Hor.
  - intros dd before item after free x Hd Hg Hb Ha Hfree Hx.
    apply (Hfirst (PDict dd) (PList (before ++ item :: after)) (before ++ item :: after)%list x Hd).
    + cbn [py_getitem]. rewrite Hg. reflexivity.
    + reflexivity.
    + apply (scan_balances_first rt asset before item after free x); assumption.
Qed.

(** ** Steps that emit nothing *)

Lemma bind_time {A} (E : env) (k : Z -> M A) h :
  bind (time_ms E) k h = k (clock_ms E h) h.
Proof.
  unfold bind, time_ms. rewrite app_nil_r. destruct (k (clock_ms E h) h). reflexivity.
Qed.

Lemma bind_lift_ok {A B} (a : A) (k : A -> M B) h :
  bind (lift (Ok a)) k h = k a h.
Proof.
  unfold bind, lift. rewrite app_nil_r. destruct (k a h). reflexivity.
Qed.

Lemma bind_lift_raise {A B} (e : exn) (k : A -> M B) h :
  bind (lift (Raise e)) k h = (Raise e, []).
Proof. reflexivity. Qed.

(** ** Signing *)

Lemma gcbex_sign_ok (rt : runtime) (cfg : config) (secret : string)
  (timestamp method request_path body_json : string) :
  API_SECRET cfg = Some secret ->
  GCBEX.sign rt cfg timestamp method request_path body_json
  = Ok (PyStr.hex (hmac_sha256 rt secret
                     (timestamp ++ PyStr.upper method ++ request_path ++ body_json))).
Proof. intros Hs. unfold GCBEX.sign. rewrite Hs. reflexivity. Qed.

Lemma in_insert_key (x k : string) (l : list string) :
  In x (MEXC.insert_key k l) <-> x = k \/ In x l.
Proof.
  induction l as [|y r IH]; cbn [MEXC.insert_key In].
  - intuition.
  - destruct (String.leb k y); cbn [In]; [intuition|]. rewrite IH. intuition.
Qed.

Lemma in_sorted (x : string) (l : list string) : In x (MEXC.sorted l) <-> In x l.
Proof.
  unfold MEXC.sorted. induction l as [|y r IH]; cbn [fold_right In]; [reflexivity|].
  rewrite in_insert_key, IH. intuition.
Qed.

Lemma get_in_keys (d : PyDict.dict) (k : string) :
  In k (PyDict.keys d) -> exists v, PyDict.get d k = Some v.
Proof.
  unfold PyDict.keys. induction d as [|[k' v'] r IH]; cbn [map fst In PyDict.get]; [tauto|].
  intros [->|Hin].
  - rewrite String.eqb_refl. eauto.
  - destruct (String.eqb k' k); eauto.
Qed.

Lemma rmap_total {A B} (f : A -> result B) (g : A -> B) (l : list A) :
  (forall x, In x l -> f x = Ok (g x)) -> MEXC.rmap f l = Ok (map g l).
Proof.
  induction l as [|x r IH]; intros H; cbn [MEXC.rmap map]; [reflexivity|].
  rewrite (H x (or_introl eq_refl)). cbn [rbind].
  rewrite IH by (intros y Hy; apply H; right; exact Hy). reflexivity.
Qed.

(** [sign] finds every key it sorted: the message is always built. *)
Lemma mexc_query_ok (rt : runtime) (params : PyDict.dict) :
  MEXC.query rt params
  = Ok (PyStr.join "&" (map (fun k => k ++ "=" ++ py_str rt (value_at params k))
                            (MEXC.sorted (PyDict.keys params)))).
Proof.
  unfold MEXC.query.
  rewrite (rmap_total _ (fun k => k ++ "=" ++ py_str rt (value_at params k))).
  - reflexivity.
  - intros k Hk. apply (proj1 (in_sorted k _)) in Hk. destruct (get_in_keys params k Hk) as [v Hv].
    cbn [py_getitem]. unfold value_at. rewrite Hv. reflexivity.
Qed.

Lemma mexc_sign_ok (rt : runtime) (cfg : config) (secret : string) (params : PyDict.dict) :
  API_SECRET cfg = Some secret ->
  MEXC.sign rt cfg params
  = Ok (PyStr.hex (hmac_sha256 rt secret
          (PyStr.join "&" (map (fun k => k ++ "=" ++ py_str rt (value_at params k))
                               (MEXC.sorted (PyDict.keys params)))))).
Proof.
  intros Hs. unfold MEXC.sign. rewrite mexc_query_ok. cbn [rbind]. rewrite Hs. reflexivity.
Qed.

Lemma mexc_signed_ok (rt : runtime) (cfg : config) (secret : string) (params : PyDict.dict) :
  API_SECRET cfg = Some secret ->
  exists s, MEXC.sign rt cfg params = Ok s /\
            MEXC.signed rt cfg params = Ok (PyDict.set params "signature" (PStr s)).
Proof.
  intros Hs. unfold MEXC.signed. rewrite (mexc_sign_ok rt cfg secret params Hs).
  eexists. split; reflexivity.
Qed.

Lemma gcbex_get_balance_run (rt : runtime) (E : env) (cfg : config)
  (secret asset : string) (h : list event) :
  API_SECRET cfg = Some secret ->
  exists signature f d,
    GCBEX.sign rt cfg (PyStr.of_Z (clock_ms E h)) "GET" "/sapi/v1/account" "" = Ok signature /\
    GCBEX.get_balance rt E cfg asset h = (Ok f, d) /\
    requests_of d = [GCBEX.account_request cfg (PyStr.of_Z (clock_ms E h)) signature] /\
    balance_or_zero rt asset
      (respond E h (GCBEX.account_request cfg (PyStr.of_Z (clock_ms E h)) signature)) f.
Proof.
  intros Hs. unfold GCBEX.get_balance. rewrite bind_time.
  rewrite (gcbex_sign_ok rt cfg secret _ _ _ _ Hs), bind_lift_ok.
  match goal with
  | |- context [balance_from rt E ?rq asset h] =>
      destruct (balance_from_contract rt E rq asset h) as (f & d & Hrun & Hreq & Hc)
  end.
  eexists _, f, d. split; [reflexivity|]. auto.
Qed.

Lemma mexc_get_balance_run (rt : runtime) (E : env) (cfg : config)
  (secret asset : string) (h : list event) :
  API_SECRET cfg = Some secret ->
  exists params f d,
    MEXC.signed rt cfg [("timestamp", PInt (clock_ms E h))] = Ok params /\
    MEXC.get_balance rt E cfg asset h = (Ok f, d) /\
    requests_of d = [MEXC.account_request cfg params] /\
    balance_or_zero rt asset (respond E h (MEXC.account_request cfg params)) f.
Proof.
  intros Hs. unfold MEXC.get_balance. rewrite bind_time.
  destruct (mexc_signed_ok rt cfg secret [("timestamp", PInt (clock_ms E h))] Hs)
    as (s & _ & Hsigned).
  rewrite Hsigned, bind_lift_ok.
  match goal with
  | |- context [balance_from rt E ?rq asset h] =>
      destruct (balance_from_contract rt E rq asset h) as (f & d & Hrun & Hreq & Hc)
  end.
  eexists _, f, d. split; [reflexivity|]. auto.
Qed.

(** C4: with the secret configured, [get_balance] always returns; it
    returns exactly zero when its request fails, when the body is not JSON,
    when the document has no ["balances"], and when the asset is absent
    from the list; it returns a free amount of the asset only when the
    reply lists the asset. Header variant and query variant. *)
Theorem get_balance_zero_on_failure (rt : runtime) (E : env) (cfg : config)
  (secret asset : string) (h : list event) :
  API_SECRET cfg = Some secret ->
  (exists signature f d,
     GCBEX.sign rt cfg (PyStr.of_Z (clock_ms E h)) "GET" "/sapi/v1/account" "" = Ok signature /\
     GCBEX.get_balance rt E cfg asset h = (Ok f, d) /\
     requests_of d = [GCBEX.account_request cfg (PyStr.of_Z (clock_ms E h)) signature] /\
     balance_or_zero rt asset
       (respond E h (GCBEX.account_request cfg (PyStr.of_Z (clock_ms E h)) signature)) f) /\
  (exists params f d,
     MEXC.signed rt cfg [("timestamp", PInt (clock_ms E h))] = Ok params /\
     MEXC.get_balance rt E cfg asset h = (Ok f, d) /\
     requests_of d = [MEXC.account_request cfg params] /\
     balance_or_zero rt asset (respond E h (MEXC.account_request cfg params)) f).
Proof.
  intros Hs. split.
  - exact (gcbex_get_balance_run rt E cfg secret asset h Hs).
  - exact (mexc_get_balance_run rt E cfg secret asset h Hs).
Qed.

Lemma get_balance_zero_on_failure_witness :
  exists signature f d,
    GCBEX.sign Sample.rt Sample.cfg (PyStr.of_Z (clock_ms Sample.offline []))
      "GET" "/sapi/v1/account" "" = Ok signature /\
    GCBEX.get_balance Sample.rt Sample.offline Sample.cfg "ETH" [] = (Ok f, d) /\
    requests_of d
    = [GCBEX.account_request Sample.cfg (PyStr.of_Z (clock_ms Sample.offline [])) signature] /\
    balance_or_zero Sample.rt "ETH"
      (respond Sample.offline []
         (GCBEX.account_request Sample.cfg (PyStr.of_Z (clock_ms Sample.offline [])) signature))
      f.
Proof.
  exact (proj1 (get_balance_zero_on_failure Sample.rt Sample.offline Sample.cfg
                  "secret" "ETH" [] eq_refl)).
Defined.

(** The runs of [get_balance]: a listed asset, an absent one, a rejected
    request, no connection; and without the secret the call raises before
    any request is sent. *)
Example get_balance_runs :
  fst (GCBEX.get_balance Sample.rt (Sample.exchange Sample.rejected) Sample.cfg "ETH" [])
  = Ok 2%float /\
  fst (MEXC.get_balance Sample.rt (Sample.exchange Sample.rejected) Sample.cfg "BTC" [])
  = Ok 0%float /\
  fst (GCBEX.get_balance Sample.rt
         {| clock_ms := fun _ => 0%Z; respond := fun _ _ => Sample.rejected |}
         Sample.cfg "ETH" []) = Ok 0%float /\
  fst (MEXC.get_balance Sample.rt Sample.offline Sample.cfg "ETH" []) = Ok 0%float.
Proof. vm_compute. repeat split. Qed.

(** ** Placing orders *)

Lemma gcbex_place_order_run (rt : runtime) (E : env) (cfg : config) (secret side : string)
  (price : float) h :
  API_SECRET cfg = Some secret ->
  exists rq lvl m,
    GCBEX.place_order rt E cfg side price h = (Ok tt, [Http rq; Log lvl m]) /\
    gcbex_order rt cfg side price rq.
Proof.
  intros Hs. unfold GCBEX.place_order. rewrite bind_time.
  rewrite (gcbex_sign_ok rt cfg secret _ _ _ _ Hs), bind_lift_ok.
  unfold try_except, bind at 1, send.
  match goal with
  | |- context [respond E h ?rq] => destruct (respond E h rq) as [e|[m|data]]
  end.
  - eexists _, _, _. split; [reflexivity|]. eexists _, _. reflexivity.
  - eexists _, _, _. split; [reflexivity|]. eexists _, _. reflexivity.
  - unfold bind at 1. cbn [lift json_of]. unfold bind at 1. cbn [lift].
    destruct (py_in "orderId" data) as [[|]|e];
      eexists _, _, _; (split; [reflexivity|]); eexists _, _; reflexivity.
Qed.

Lemma mexc_place_order_run (rt : runtime) (E : env) (cfg : config) (secret side : string)
  (price : float) h :
  API_SECRET cfg = Some secret ->
  exists rq lvl m,
    MEXC.place_order rt E cfg side price h = (Ok tt, [Http rq; Log lvl m]) /\
    mexc_order rt cfg side price rq.
Proof.
  intros Hs. unfold MEXC.place_order. rewrite bind_time.
  destruct (mexc_signed_ok rt cfg secret
              (MEXC.order_params rt cfg side price (clock_ms E h)) Hs) as (s & _ & Hsigned).
  rewrite Hsigned, bind_lift_ok.
  unfold try_except, bind at 1, send.
  match goal with
  | |- context [respond E h ?rq] => destruct (respond E h rq) as [e|[m|data]]
  end.
  - eexists _, _, _. split; [reflexivity|]. eexists _, _. reflexivity.
  - eexists _, _, _. split; [reflexivity|]. eexists _, _. reflexivity.
  - unfold bind at 1. cbn [lift json_of]. unfold bind at 1. cbn [lift].
    destruct (py_in "orderId" data) as [[|]|e];
      eexists _, _, _; (split; [reflexivity|]); eexists _, _; reflexivity.
Qed.

Section Sides.

Variable rt : runtime.
Variable E : env.
Variable cfg : config.
Variable place_order : string -> float -> M unit.
Variable is_order : string -> float -> request -> Prop.

Hypothesis place_order_run :
  forall side price h,
    exists rq lvl m,
      place_order side price h = (Ok tt, [Http rq; Log lvl m]) /\
      is_order side price rq /\ is_alert rq = false.

Lemma placed (side : string) (price : float) (msg : string) h :
  side_outcome cfg true (is_order side price) msg (place_order side price h).
Proof.
  destruct (place_order_run side price h) as (rq & lvl & m & Hrun & Hord & Hna).
  rewrite Hrun. split; [reflexivity|]. cbn [snd]. split.
  - exists rq. split; [|exact Hord].
    unfold exchange_calls. cbn [requests_of filter]. rewrite Hna. reflexivity.
  - unfold alerts. cbn [requests_of filter]. rewrite Hna. reflexivity.
Qed.

Lemma skipped (side : string) (price : float) (msg : string) h :
  side_outcome cfg false (is_order side price) msg
    (bind (log WARNING msg) (fun _ => send_telegram_alert E cfg msg) h).
Proof.
  destruct (send_telegram_alert_requests E cfg msg (h ++ [Log WARNING msg])%list)
    as (a & Ha & Ra & Wa & _).
  rewrite (bind_ok (log WARNING msg) (fun _ => send_telegram_alert E cfg msg)
             h tt [Log WARNING msg] (Ok tt) a eq_refl Ha).
  split; [reflexivity|]. cbn [snd].
  destruct (alert_requests_are_alerts cfg msg (TELEGRAM_USER_IDS cfg)) as [Hal Hex].
  unfold exchange_calls, alerts. rewrite requests_of_app, logged_app, Ra, Wa.
  cbn [requests_of logged app]. rewrite Hal, Hex. repeat split; reflexivity.
Qed.

Lemma evaluate_buy_outcome (quote_asset : string) (quote_balance bid_price : float) h :
  side_outcome cfg (PyFloat.ge quote_balance (bid_price * ORDER_SIZE cfg)%float)
    (is_order "BUY" bid_price)
    (not_enough_to_buy rt cfg quote_asset quote_balance bid_price)
    (evaluate_buy rt E cfg place_order quote_asset quote_balance bid_price h).
Proof.
  unfold evaluate_buy.
  destruct (PyFloat.ge quote_balance (bid_price * ORDER_SIZE cfg)%float).
  - apply placed.
  - apply skipped.
Qed.

Lemma evaluate_sell_outcome (base_asset : string) (base_balance ask_price : float) h :
  side_outcome cfg (PyFloat.ge base_balance (ORDER_SIZE cfg))
    (is_order "SELL" ask_price)
    (not_enough_to_sell rt cfg base_asset base_balance)
    (evaluate_sell rt E cfg place_order base_asset base_balance ask_price h).
Proof.
  unfold evaluate_sell.
  destruct (PyFloat.ge base_balance (ORDER_SIZE cfg)).
  - apply placed.
  - apply skipped.
Qed.

End Sides.

Section Cycle.

Variable rt : runtime.
Variable E : env.
Variable cfg : config.
Variable get_price : M float.
Variable cancel_all_orders : M unit.
Variable get_balance : string -> M float.
Variable place_order : string -> float -> M unit.
Variable is_order : string -> float -> request -> Prop.

Hypothesis get_price_returns : never_raises get_price.
Hypothesis cancel_returns : never_raises cancel_all_orders.
Hypothesis get_balance_returns : forall asset, never_raises (get_balance asset).
Hypothesis place_order_run :
  forall side price h,
    exists rq lvl m,
      place_order side price h = (Ok tt, [Http rq; Log lvl m]) /\
      is_order side price rq /\ is_alert rq = false.

(** A cycle whose reads return runs to its end through both sides. *)
Lemma cycle_sides (symbol : string) h :
  SYMBOL cfg = Some symbol ->
  cycle_gates_orders rt cfg get_balance
    (cycle rt E cfg get_price cancel_all_orders get_balance place_order)
    is_order (not_enough_to_buy rt cfg) (not_enough_to_sell rt cfg) symbol h.
Proof.
  intros Hsym. unfold cycle_gates_orders.
  set (base_asset := PyStr.drop_last 4 symbol).
  set (quote_asset := PyStr.take_last 4 symbol).
  set (bid_price := fst (quote cfg)).
  set (ask_price := snd (quote cfg)).
  destruct (get_price_returns h) as (p & d1 & H1).
  set (lg := Log INFO ("Target: " ++ repr_float rt (TARGET_PRICE cfg)
            ++ " | Bid: " ++ format_fixed rt 6 bid_price
            ++ " | Ask: " ++ format_fixed rt 6 ask_price
            ++ " | Market: " ++ format_fixed rt 6 p)).
  destruct (cancel_returns (((h ++ d1) ++ [Sleep 10]) ++ [lg])%list) as ([] & d2 & H2).
  set (h3 := (((((h ++ d1) ++ [Sleep 10]) ++ [lg]) ++ d2) ++ [Sleep 10])%list).
  destruct (get_balance_returns base_asset h3) as (bb & d3 & H3).
  set (h4 := ((h3 ++ d3) ++ [Sleep 10])%list).
  destruct (get_balance_returns quote_asset h4) as (qb & d4 & H4).
  set (h5 := ((h4 ++ d4) ++ [Sleep 10])%list).
  pose proof (evaluate_buy_outcome rt E cfg place_order is_order place_order_run
                quote_asset qb bid_price h5) as Hbuy.
  destruct (evaluate_buy rt E cfg place_order quote_asset qb bid_price h5) as [rb buy] eqn:Eb.
  assert (rb = Ok tt) by (destruct Hbuy as [Hr _]; exact Hr). subst rb.
  set (h6 := ((h5 ++ buy) ++ [Sleep 10])%list).
  pose proof (evaluate_sell_outcome rt E cfg place_order is_order place_order_run
                base_asset bb ask_price h6) as Hsell.
  destruct (evaluate_sell rt E cfg place_order base_asset bb ask_price h6) as [rs sell] eqn:Es.
  assert (rs = Ok tt) by (destruct Hsell as [Hr _]; exact Hr). subst rs.
  exists (d1 ++ [Sleep 10] ++ [lg] ++ d2 ++ [Sleep 10])%list, bb, d3, qb, d4, buy, sell.
  assert (A3 : (h ++ d1 ++ [Sleep 10] ++ [lg] ++ d2 ++ [Sleep 10])%list = h3).
  { unfold h3. rewrite <- !app_assoc. reflexivity. }
  assert (A4 : (h ++ (d1 ++ [Sleep 10] ++ [lg] ++ d2 ++ [Sleep 10]) ++ d3 ++ [Sleep 10])%list = h4).
  { unfold h4, h3. rewrite <- !app_assoc. reflexivity. }
  rewrite A3, A4. split; [exact H3|]. split; [exact H4|]. split; [|split; assumption].
  unfold cycle. rewrite <- !app_assoc.
  eapply bind_ok; [exact H1|].
  eapply bind_ok; [reflexivity|].
  eapply bind_ok; [reflexivity|].
  eapply bind_ok; [exact H2|].
  eapply bind_ok; [reflexivity|].
  unfold split_symbol. rewrite Hsym, bind_lift_ok. cbn [fst snd].
  eapply bind_ok; [exact H3|].
  eapply bind_ok; [reflexivity|].
  eapply bind_ok; [exact H4|].
  eapply bind_ok; [reflexivity|].
  eapply bind_ok; [exact Eb|].
  eapply bind_ok; [reflexivity|].
  eapply bind_ok; [exact Es | reflexivity].
Qed.

End Cycle.

Lemma gcbex_get_price_returns (rt : runtime) (E : env) (cfg : config) :
  never_raises (GCBEX.get_price rt E cfg).
Proof.
  intros h. destruct (price_from_run rt E cfg (GCBEX.ticker_request cfg) "last" h)
    as (p & d & Hrun & _).
  exists p, d. exact Hrun.
Qed.

Lemma mexc_get_price_returns (rt : runtime) (E : env) (cfg : config) :
  never_raises (MEXC.get_price rt E cfg).
Proof.
  intros h. destruct (price_from_run rt E cfg (MEXC.ticker_request cfg) "price" h)
    as (p & d & Hrun & _).
  exists p, d. exact Hrun.
Qed.

Lemma gcbex_get_balance_returns (rt : runtime) (E : env) (cfg : config)
  (secret asset : string) :
  API_SECRET cfg = Some secret -> never_raises (GCBEX.get_balance rt E cfg asset).
Proof.
  intros Hs h. destruct (gcbex_get_balance_run rt E cfg secret asset h Hs)
    as (sg & f & d & _ & Hrun & _).
  exists f, d. exact Hrun.
Qed.

Lemma mexc_get_balance_returns (rt : runtime) (E : env) (cfg : config)
  (secret asset : string) :
  API_SECRET cfg = Some secret -> never_raises (MEXC.get_balance rt E cfg asset).
Proof.
  intros Hs h. destruct (mexc_get_balance_run rt E cfg secret asset h Hs)
    as (ps & f & d & _ & Hrun & _).
  exists f, d. exact Hrun.
Qed.

Lemma gcbex_cancel_returns (rt : runtime) (E : env) (cfg : config) :
  never_raises (GCBEX.cancel_all_orders rt E cfg).
Proof.
  unfold GCBEX.cancel_all_orders. apply never_raises_try. intros e. apply never_raises_emit.
Qed.

Lemma mexc_cancel_returns (rt : runtime) (E : env) (cfg : config) (secret : string) :
  API_SECRET cfg = Some secret -> never_raises (MEXC.cancel_all_orders rt E cfg).
Proof.
  intros Hs h. unfold MEXC.cancel_all_orders. rewrite bind_time.
  destruct (mexc_signed_ok rt cfg secret
              [("symbol", env_val (SYMBOL cfg)); ("timestamp", PInt (clock_ms E h))] Hs)
    as (s & _ & Hsigned).
  rewrite Hsigned, bind_lift_ok.
  apply never_raises_try. intros e. apply never_raises_emit.
Qed.

Lemma side_outcome_placed_iff (cfg : config) (covered : bool) (is_order : request -> Prop)
  (msg : string) (run : result unit * list event) :
  side_outcome cfg covered is_order msg run ->
  (exchange_calls (snd run) <> [] <-> covered = true).
Proof.
  intros [_ H]. destruct covered.
  - destruct H as [(rq & -> & _) _]. split; [reflexivity | discriminate].
  - destruct H as (-> & _). split; [intros C; destruct (C eq_refl) | discriminate].
Qed.

(** C6: with the secret configured, the BUY side of a cycle sends exactly
    one order (side BUY, at the bid) when the quote balance is at least
    bid * size, and otherwise sends nothing to the exchange, logs the
    insufficient-funds warning once and sends it once to each subscriber;
    the SELL side does the same on the base balance against the size, at
    the ask. An order is sent if and only if the balance covers it. Every
    cycle (with a symbol configured) runs both sides, on the balances it
    has just read and at the bid and the ask of its quote. Both variants.
    With balance 50, bid 99 and size 1 the required amount is 99, above
    50: the BUY is skipped with one notification. *)
Theorem orders_gated_by_balance (rt : runtime) (E : env) (cfg : config) (secret : string)
  (quote_asset base_asset : string) (quote_balance base_balance bid_price ask_price : float)
  (h : list event) :
  API_SECRET cfg = Some secret ->
  let buy_covered := PyFloat.ge quote_balance (bid_price * ORDER_SIZE cfg)%float in
  let sell_covered := PyFloat.ge base_balance (ORDER_SIZE cfg) in
  let gated (place_order : string -> float -> M unit)
            (is_order : string -> float -> request -> Prop) :=
    let buy := evaluate_buy rt E cfg place_order quote_asset quote_balance bid_price h in
    let sell := evaluate_sell rt E cfg place_order base_asset base_balance ask_price h in
    side_outcome cfg buy_covered (is_order "BUY" bid_price)
      (not_enough_to_buy rt cfg quote_asset quote_balance bid_price) buy /\
    (exchange_calls (snd buy) <> [] <-> buy_covered = true) /\
    side_outcome cfg sell_covered (is_order "SELL" ask_price)
      (not_enough_to_sell rt cfg base_asset base_balance) sell /\
    (exchange_calls (snd sell) <> [] <-> sell_covered = true) in
  gated (GCBEX.place_order rt E cfg) (gcbex_order rt cfg) /\
  gated (MEXC.place_order rt E cfg) (mexc_order rt cfg) /\
  (forall symbol,
     SYMBOL cfg = Some symbol ->
     cycle_gates_orders rt cfg (GCBEX.get_balance rt E cfg) (GCBEX.cycle rt E cfg)
       (gcbex_order rt cfg) (not_enough_to_buy rt cfg) (not_enough_to_sell rt cfg) symbol h /\
     cycle_gates_orders rt cfg (MEXC.get_balance rt E cfg) (MEXC.cycle rt E cfg)
       (mexc_order rt cfg) (not_enough_to_buy rt cfg) (not_enough_to_sell rt cfg) symbol h) /\
  ((99 * 1)%float = 99%float /\ PyFloat.ge 50 99 = false /\
   (ORDER_SIZE cfg = 1%float ->
    forall place_order is_order,
      side_outcome cfg false is_order (not_enough_to_buy rt cfg quote_asset 50 99)
        (evaluate_buy rt E cfg place_order quote_asset 50 99 h))).
Proof.
  intros Hs buy_covered sell_covered gated.
  assert (G : forall place_order is_order,
             (forall side price h',
                exists rq lvl m,
                  place_order side price h' = (Ok tt, [Http rq; Log lvl m]) /\
                  is_order side price rq /\ is_alert rq = false) ->
             gated place_order is_order).
  { intros place_order is_order Hrun. unfold gated.
    pose proof (evaluate_buy_outcome rt E cfg place_order is_order Hrun
                  quote_asset quote_balance bid_price h) as Hb.
    pose proof (evaluate_sell_outcome rt E cfg place_order is_order Hrun
                  base_asset base_balance ask_price h) as Hsell.
    split; [exact Hb|]. split; [exact (side_outcome_placed_iff _ _ _ _ _ Hb)|].
    split; [exact Hsell|]. exact (side_outcome_placed_iff _ _ _ _ _ Hsell). }
  assert (Pg : forall side price h',
             exists rq lvl m,
               GCBEX.place_order rt E cfg side price h' = (Ok tt, [Http rq; Log lvl m]) /\
               gcbex_order rt cfg side price rq /\ is_alert rq = false).
  { intros side price h'.
    destruct (gcbex_place_order_run rt E cfg secret side price h' Hs)
      as (rq & lvl & m & Hrun & Hord).
    exists rq, lvl, m. split; [exact Hrun|]. split; [exact Hord|].
    destruct Hord as (ts & sg & ->). reflexivity. }
  assert (Pm : forall side price h',
             exists rq lvl m,
               MEXC.place_order rt E cfg side price h' = (Ok tt, [Http rq; Log lvl m]) /\
               mexc_order rt cfg side price rq /\ is_alert rq = false).
  { intros side price h'.
    destruct (mexc_place_order_run rt E cfg secret side price h' Hs)
      as (rq & lvl & m & Hrun & Hord).
    exists rq, lvl, m. split; [exact Hrun|]. split; [exact Hord|].
    destruct Hord as (ts & sg & ->). reflexivity. }
  split; [apply G; exact Pg|]. split; [apply G; exact Pm|]. split.
  - intros symbol Hsym. split.
    + apply cycle_sides; try assumption.
      * apply gcbex_get_price_returns.
      * apply gcbex_cancel_returns.
      * intros asset. apply (gcbex_get_balance_returns rt E cfg secret asset Hs).
    + apply cycle_sides; try assumption.
      * apply mexc_get_price_returns.
      * apply (mexc_cancel_returns rt E cfg secret Hs).
      * intros asset. apply (mexc_get_balance_returns rt E cfg secret asset Hs).
  - split; [reflexivity|]. split; [reflexivity|].
    intros Hsize place_order is_order.
    unfold evaluate_buy. rewrite Hsize.
    change (PyFloat.ge 50 (99 * 1)%float) with false. cbv iota.
    unfold not_enough_to_buy. rewrite Hsize.
    apply (skipped E cfg (fun _ _ => is_order) "BUY" 99%float).
Qed.

Lemma orders_gated_by_balance_witness :
  side_outcome Sample.cfg false (gcbex_order Sample.rt Sample.cfg "BUY" 99)
    (not_enough_to_buy Sample.rt Sample.cfg "USDT" 50 99)
    (evaluate_buy Sample.rt (Sample.exchange Sample.rejected) Sample.cfg
       (GCBEX.place_order Sample.rt (Sample.exchange Sample.rejected) Sample.cfg)
       "USDT" 50 99 []) /\
  side_outcome Sample.cfg true (gcbex_order Sample.rt Sample.cfg "SELL" 101)
    (not_enough_to_sell Sample.rt Sample.cfg "ETH" 2)
    (evaluate_sell Sample.rt (Sample.exchange Sample.rejected) Sample.cfg
       (GCBEX.place_order Sample.rt (Sample.exchange Sample.rejected) Sample.cfg)
       "ETH" 2 101 []) /\
  cycle_gates_orders Sample.rt Sample.cfg
    (GCBEX.get_balance Sample.rt (Sample.exchange Sample.rejected) Sample.cfg)
    (GCBEX.cycle Sample.rt (Sample.exchange Sample.rejected) Sample.cfg)
    (gcbex_order Sample.rt Sample.cfg)
    (not_enough_to_buy Sample.rt Sample.cfg) (not_enough_to_sell Sample.rt Sample.cfg)
    "ETHUSDT" [].
Proof.
  pose proof (orders_gated_by_balance Sample.rt (Sample.exchange Sample.rejected) Sample.cfg
                "secret" "USDT" "ETH" 50 2 99 101 [] eq_refl) as H.
  cbv zeta in H. destruct H as [(Hb & _ & Hsell & _) (_ & Hc & _)].
  split; [exact Hb|]. split; [exact Hsell|].
  exact (proj1 (Hc "ETHUSDT" eq_refl)).
Defined.

(** A cycle of the header variant against the sample exchange (2 ETH and
    50 USDT free, bid 99, ask 101, size 1): the BUY is skipped with one
    alert, the SELL is sent. *)
Example cycle_skips_buy_and_sells :
  let d := snd (GCBEX.cycle Sample.rt (Sample.exchange Sample.rejected) Sample.cfg []) in
  logged WARNING d
  = ["⚠️ Failed to cancel 1: " ++ Sample.dumps (PDict [("code", PInt (-1)%Z); ("msg", PStr "rejected")]);
     "⚠️ Failed to cancel 2: " ++ Sample.dumps (PDict [("code", PInt (-1)%Z); ("msg", PStr "rejected")]);
     not_enough_to_buy Sample.rt Sample.cfg "USDT" 50 99;
     "⚠️ Order error: " ++ Sample.dumps (PDict [("code", PInt (-1)%Z); ("msg", PStr "rejected")])] /\
  map rq_json (alerts d)
  = [rq_json (alert_request Sample.cfg "42" ("📊 *ETHUSDT Price Update:* `<float>`"));
     rq_json (alert_request Sample.cfg "42" (not_enough_to_buy Sample.rt Sample.cfg "USDT" 50 99))] /\
  map rq_data (filter (fun rq => match rq_verb rq with POST => true | _ => false end)
                      (exchange_calls d))
  = [Some (json_dumps Sample.rt (GCBEX.cancel_body Sample.cfg (PInt 1)));
     Some (json_dumps Sample.rt (GCBEX.cancel_body Sample.cfg (PInt 2)));
     Some (json_dumps Sample.rt (GCBEX.order_body Sample.rt Sample.cfg "SELL" 101))].
Proof. vm_compute. repeat split. Qed.

(** The skipped BUY of the scenario, run: one warning, one alert to the
    one subscriber, nothing sent to the exchange. *)
Example buy_skipped_once :
  let run := evaluate_buy Sample.rt (Sample.exchange Sample.rejected) Sample.cfg
               (GCBEX.place_order Sample.rt (Sample.exchange Sample.rejected) Sample.cfg)
               "USDT" 50 99 [] in
  fst run = Ok tt /\
  snd run = [Log WARNING (not_enough_to_buy Sample.rt Sample.cfg "USDT" 50 99);
             Http (alert_request Sample.cfg "42"
                     (not_enough_to_buy Sample.rt Sample.cfg "USDT" 50 99))].
Proof. vm_compute. split; reflexivity. Qed.

(** ** Listing the open orders, header variant *)

Lemma send_first {A} (E : env) (rq : request) (k : response -> M A) h :
  exists r d, bind (send E rq) k h = (r, Http rq :: d).
Proof.
  unfold bind, send. destruct (respond E h rq) as [e|resp].
  - eexists _, _. reflexivity.
  - destruct (k resp (h ++ [Http rq])%list) as [r d]. eexists _, _. reflexivity.
Qed.

Lemma gcbex_listing_first (rt : runtime) (E : env) (cfg : config) (secret : string) h :
  API_SECRET cfg = Some secret ->
  exists signature r d,
    GCBEX.sign rt cfg (PyStr.of_Z (clock_ms E h)) "GET" "/sapi/v2/openOrders" "" = Ok signature /\
    GCBEX.cancel_all_orders rt E cfg h
    = (r, Http (GCBEX.open_orders_request cfg (PyStr.of_Z (clock_ms E h)) signature) :: d).
Proof.
  intros Hs. unfold GCBEX.cancel_all_orders, try_except. rewrite bind_time.
  rewrite (gcbex_sign_ok rt cfg secret _ _ _ _ Hs), bind_lift_ok.
  match goal with
  | |- context [bind (send E ?rq) ?k h] =>
      destruct (send_first E rq k h) as (r & d & Hrun)
  end.
  rewrite Hrun.
  destruct r as [[]|e].
  - eexists _, _, _. split; reflexivity.
  - match goal with
    | |- context [let (_, _) := ?X in _] => destruct X as [r' d']
    end.
    eexists _, _, _. split; reflexivity.
Qed.

(** C10: in the header variant, the request that lists the open orders
    is signed over the timestamp, GET and the bare path; the symbol goes
    into the URL only. With the same secret and the same clock, the
    signature sent is the same whatever the symbol, while the URL carries
    the symbol. *)
Theorem listing_signature_ignores_symbol (rt : runtime) (E : env) (cfg : config)
  (secret : string) (h : list event) :
  API_SECRET cfg = Some secret ->
  let timestamp := PyStr.of_Z (clock_ms E h) in
  let signature :=
    PyStr.hex (hmac_sha256 rt secret (timestamp ++ "GET" ++ "/sapi/v2/openOrders" ++ "")) in
  forall symbol : option string,
  exists rq r d,
    GCBEX.cancel_all_orders rt E (with_symbol cfg symbol) h = (r, Http rq :: d) /\
    PyDict.get (rq_headers rq) "X-CH-SIGN" = Some (PStr signature) /\
    PyDict.get (rq_headers rq) "X-CH-TS" = Some (PStr timestamp) /\
    rq_url rq = PyStr.of_env (API_BASE cfg) ++ "/sapi/v2/openOrders"
                ++ "?" ++ ("symbol=" ++ PyStr.of_env symbol) /\
    rq_params rq = [] /\ rq_data rq = None.
Proof.
  intros Hs timestamp signature symbol.
  destruct (gcbex_listing_first rt E (with_symbol cfg symbol) secret h Hs)
    as (sg & r & d & Hsig & Hrun).
  rewrite (gcbex_sign_ok rt (with_symbol cfg symbol) secret _ _ _ _ Hs) in Hsig.
  inversion Hsig; subst sg.
  eexists _, r, d. split; [exact Hrun|].
  repeat split; reflexivity.
Qed.

Lemma listing_signature_ignores_symbol_witness :
  exists rq1 rq2 r1 r2 d1 d2,
    GCBEX.cancel_all_orders Sample.rt Sample.offline (with_symbol Sample.cfg (Some "ETHUSDT")) []
    = (r1, Http rq1 :: d1) /\
    GCBEX.cancel_all_orders Sample.rt Sample.offline (with_symbol Sample.cfg (Some "BTCUSDT")) []
    = (r2, Http rq2 :: d2) /\
    PyDict.get (rq_headers rq1) "X-CH-SIGN" = PyDict.get (rq_headers rq2) "X-CH-SIGN" /\
    rq_url rq1 <> rq_url rq2.
Proof.
  pose proof (listing_signature_ignores_symbol Sample.rt Sample.offline Sample.cfg
                "secret" [] eq_refl) as H.
  cbv zeta in H.
  destruct (H (Some "ETHUSDT")) as (rq1 & r1 & d1 & H1 & S1 & _ & U1 & _).
  destruct (H (Some "BTCUSDT")) as (rq2 & r2 & d2 & H2 & S2 & _ & U2 & _).
  exists rq1, rq2, r1, r2, d1, d2.
  split; [exact H1|]. split; [exact H2|]. split; [congruence|].
  rewrite U1, U2. discriminate.
Defined.

(** ** Cancelling the open orders *)

Section CancelHeader.

Variable rt : runtime.
Variable E : env.
Variable cfg : config.
Variable secret : string.
Hypothesis secret_set : API_SECRET cfg = Some secret.

Let cancel_of (order_id : pyval) (h : list event) : request :=
  let ts := PyStr.of_Z (clock_ms E h) in
  let body := json_dumps rt (GCBEX.cancel_body cfg order_id) in
  GCBEX.cancel_request cfg ts
    (PyStr.hex (hmac_sha256 rt secret (ts ++ PyStr.upper "POST" ++ "/sapi/v2/cancel" ++ body)))
    body.

Lemma cancel_of_is_cancel (order_id : pyval) h : gcbex_cancel rt cfg order_id (cancel_of order_id h).
Proof. eexists _, _. reflexivity. Qed.

(** A cancel that is answered by a JSON object, whatever it says, is
    logged and returns. *)
Lemma gcbex_cancel_order_answered (order order_id : pyval) (r : PyDict.dict) h :
  py_getitem order "orderId" = Ok order_id ->
  respond E h (cancel_of order_id h) = Answers (Json (PDict r)) ->
  exists lvl m,
    GCBEX.cancel_order rt E cfg order h = (Ok tt, [Http (cancel_of order_id h); Log lvl m]) /\
    lvl <> ERROR.
Proof.
  intros Hid Hr. unfold GCBEX.cancel_order. rewrite bind_time, Hid, bind_lift_ok.
  rewrite (gcbex_sign_ok rt cfg secret _ _ _ _ secret_set), bind_lift_ok.
  unfold bind at 1, send. fold (cancel_of order_id h). rewrite Hr.
  unfold bind at 1. cbn [lift json_of]. unfold bind at 1. cbn [lift py_in].
  unfold PyDict.mem. unfold bind at 1.
  destruct (PyDict.get r "status") as [st|] eqn:Hst.
  - unfold bind at 1. cbn [lift py_getitem]. rewrite Hst. cbn [ret].
    destruct (py_eq_str st "CANCELED"); eexists _, _; split;
      try reflexivity; discriminate.
  - cbn [ret]. eexists _, _. split; [reflexivity | discriminate].
Qed.

(** A cancel whose request raises lets the exception out. *)
Lemma gcbex_cancel_order_fails (order order_id : pyval) (e : exn) h :
  py_getitem order "orderId" = Ok order_id ->
  respond E h (cancel_of order_id h) = Fails e ->
  GCBEX.cancel_order rt E cfg order h = (Raise e, [Http (cancel_of order_id h)]).
Proof.
  intros Hid Hr. unfold GCBEX.cancel_order. rewrite bind_time, Hid, bind_lift_ok.
  rewrite (gcbex_sign_ok rt cfg secret _ _ _ _ secret_set), bind_lift_ok.
  unfold bind at 1, send. fold (cancel_of order_id h). rewrite Hr. reflexivity.
Qed.

(** The loop over orders whose cancels are all answered: one request per
    order, in order, and nothing logged as an error. *)
Lemma gcbex_cancel_loop (orders ids : list pyval) :
  Forall2 (fun order id => py_getitem order "orderId" = Ok id) orders ids ->
  (forall h' rq id, In id ids -> gcbex_cancel rt cfg id rq ->
                    exists r, respond E h' rq = Answers (Json (PDict r))) ->
  forall h, exists d,
    for_each orders (GCBEX.cancel_order rt E cfg) h = (Ok tt, d) /\
    Forall2 (gcbex_cancel rt cfg) ids (requests_of d) /\
    logged ERROR d = [].
Proof.
  induction 1 as [|order id orders ids Hid _ IH]; intros Henv h.
  - exists []. repeat split. constructor.
  - destruct (Henv h (cancel_of id h) id (or_introl eq_refl) (cancel_of_is_cancel id h))
      as [r Hr].
    destruct (gcbex_cancel_order_answered order id r h Hid Hr) as (lvl & m & Hrun & Hlvl).
    destruct (IH (fun h' rq id' Hin => Henv h' rq id' (or_intror Hin))
                 (h ++ [Http (cancel_of id h); Log lvl m])%list)
      as (d & Hd & Hreqs & Hlog).
    exists ([Http (cancel_of id h); Log lvl m] ++ d)%list. split.
    + cbn [for_each]. exact (bind_ok _ _ h tt _ (Ok tt) d Hrun Hd).
    + rewrite requests_of_app, logged_app, Hlog. cbn [requests_of app]. split.
      * constructor; [apply cancel_of_is_cancel | exact Hreqs].
      * destruct lvl; [reflexivity | reflexivity | destruct (Hlvl eq_refl)].
Qed.

(** The loop over orders where the cancel of one raises: the requests for
    the orders before it and for it are sent, none for the orders after. *)
Lemma gcbex_cancel_loop_aborts (before ids : list pyval) (order order_id : pyval)
  (after : list pyval) (e : exn) :
  Forall2 (fun order id => py_getitem order "orderId" = Ok id) before ids ->
  py_getitem order "orderId" = Ok order_id ->
  (forall h' rq id, In id ids -> gcbex_cancel rt cfg id rq ->
                    exists r, respond E h' rq = Answers (Json (PDict r))) ->
  (forall h' rq, gcbex_cancel rt cfg order_id rq -> respond E h' rq = Fails e) ->
  forall h, exists d,
    for_each (before ++ order :: after) (GCBEX.cancel_order rt E cfg) h = (Raise e, d) /\
    Forall2 (gcbex_cancel rt cfg) (ids ++ [order_id]) (requests_of d).
Proof.
  intros Hb Hid. induction Hb as [|o id before ids Ho _ IH]; intros Henv Hfail h.
  - pose proof (gcbex_cancel_order_fails order order_id e h Hid
                  (Hfail h _ (cancel_of_is_cancel order_id h))) as Hrun.
    exists [Http (cancel_of order_id h)]. split.
    + cbn [app for_each]. exact (bind_raise _ _ h e _ Hrun).
    + cbn [app requests_of]. constructor; [apply cancel_of_is_cancel | constructor].
  - destruct (Henv h (cancel_of id h) id (or_introl eq_refl) (cancel_of_is_cancel id h))
      as [r Hr].
    destruct (gcbex_cancel_order_answered o id r h Ho Hr) as (lvl & m & Hrun & _).
    destruct (IH (fun h' rq id' Hin => Henv h' rq id' (or_intror Hin)) Hfail
                 (h ++ [Http (cancel_of id h); Log lvl m])%list)
      as (d & Hd & Hreqs).
    exists ([Http (cancel_of id h); Log lvl m] ++ d)%list. split.
    + cbn [app for_each]. exact (bind_ok _ _ h tt _ (Raise e) d Hrun Hd).
    + rewrite requests_of_app. cbn [requests_of app].
      constructor; [apply cancel_of_is_cancel | exact Hreqs].
Qed.

Let listing_of (h : list event) : request :=
  let ts := PyStr.of_Z (clock_ms E h) in
  GCBEX.open_orders_request cfg ts
    (PyStr.hex (hmac_sha256 rt secret (ts ++ PyStr.upper "GET" ++ "/sapi/v2/openOrders" ++ ""))).

(** [cancel_all_orders] on a list of orders, from what its loop does. *)
Lemma gcbex_cancel_all_from_loop (orders : list pyval) h :
  respond E h (listing_of h) = Answers (Json (PList orders)) ->
  forall r d,
    for_each orders (GCBEX.cancel_order rt E cfg) (h ++ [Http (listing_of h)])%list = (r, d) ->
    exists tail,
      GCBEX.cancel_all_orders rt E cfg h = (Ok tt, (Http (listing_of h) :: d) ++ tail)%list /\
      match r with
      | Ok _ => tail = []
      | Raise e => tail = [Log ERROR ("Error canceling orders: " ++ exn_str e)]
      end.
Proof.
  intros Hr r d Hloop.
  unfold GCBEX.cancel_all_orders, try_except. rewrite bind_time.
  rewrite (gcbex_sign_ok rt cfg secret _ _ _ _ secret_set), bind_lift_ok.
  unfold bind at 1, send. fold (listing_of h). rewrite Hr.
  unfold bind at 1. cbn [lift json_of].
  replace ((h ++ [Http (listing_of h)]) ++ [])%list with (h ++ [Http (listing_of h)])%list
    by (rewrite app_nil_r; reflexivity).
  rewrite Hloop. destruct r as [[]|e].
  - exists []. split; [|reflexivity]. rewrite app_nil_r. reflexivity.
  - eexists. split; [reflexivity | reflexivity].
Qed.

End CancelHeader.

Section CancelQuery.

Variable rt : runtime.
Variable E : env.
Variable cfg : config.
Variable secret : string.
Hypothesis secret_set : API_SECRET cfg = Some secret.

Let signature_of (params : PyDict.dict) : string :=
  PyStr.hex (hmac_sha256 rt secret
    (PyStr.join "&" (map (fun k => k ++ "=" ++ py_str rt (value_at params k))
                         (MEXC.sorted (PyDict.keys params))))).

Let signed_of (params : PyDict.dict) : PyDict.dict :=
  PyDict.set params "signature" (PStr (signature_of params)).

Lemma signed_of_ok (params : PyDict.dict) : MEXC.signed rt cfg params = Ok (signed_of params).
Proof.
  unfold MEXC.signed. rewrite (mexc_sign_ok rt cfg secret params secret_set). reflexivity.
Qed.

Let delete_of (order_id : pyval) (h : list event) : request :=
  MEXC.order_request cfg DELETE
    (signed_of [("symbol", env_val (SYMBOL cfg));
                ("orderId", order_id);
                ("timestamp", PInt (clock_ms E h))]).

Lemma delete_of_is_cancel (order_id : pyval) h : mexc_cancel cfg order_id (delete_of order_id h).
Proof. eexists _, _. reflexivity. Qed.

(** A cancel whose request returns, whatever the response, is logged as
    done and returns. *)
Lemma mexc_cancel_order_answered (order order_id side : pyval) (resp : response) h :
  py_getitem order "orderId" = Ok order_id ->
  py_getitem order "side" = Ok side ->
  respond E h (delete_of order_id h) = Answers resp ->
  exists m,
    MEXC.cancel_order rt E cfg order h = (Ok tt, [Http (delete_of order_id h); Log INFO m]).
Proof.
  intros Hid Hside Hr. unfold MEXC.cancel_order.
  rewrite Hid, bind_lift_ok, bind_time, signed_of_ok, bind_lift_ok.
  unfold bind at 1, send. fold (delete_of order_id h). rewrite Hr.
  rewrite bind_lift_ok, Hside, bind_lift_ok.
  eexists. reflexivity.
Qed.

Lemma mexc_cancel_order_fails (order order_id : pyval) (e : exn) h :
  py_getitem order "orderId" = Ok order_id ->
  respond E h (delete_of order_id h) = Fails e ->
  MEXC.cancel_order rt E cfg order h = (Raise e, [Http (delete_of order_id h)]).
Proof.
  intros Hid Hr. unfold MEXC.cancel_order.
  rewrite Hid, bind_lift_ok, bind_time, signed_of_ok, bind_lift_ok.
  unfold bind at 1, send. fold (delete_of order_id h). rewrite Hr. reflexivity.
Qed.

Lemma mexc_cancel_loop (orders ids : list pyval) :
  Forall2 (fun order id => py_getitem order "orderId" = Ok id /\
                           exists side, py_getitem order "side" = Ok side) orders ids ->
  (forall h' rq id, In id ids -> mexc_cancel cfg id rq ->
                    exists resp, respond E h' rq = Answers resp) ->
  forall h, exists d,
    for_each orders (MEXC.cancel_order rt E cfg) h = (Ok tt, d) /\
    Forall2 (mexc_cancel cfg) ids (requests_of d) /\
    logged ERROR d = [].
Proof.
  induction 1 as [|order id orders ids [Hid [side Hside]] _ IH]; intros Henv h.
  - exists []. repeat split. constructor.
  - destruct (Henv h (delete_of id h) id (or_introl eq_refl) (delete_of_is_cancel id h))
      as [resp Hr].
    destruct (mexc_cancel_order_answered order id side resp h Hid Hside Hr) as (m & Hrun).
    destruct (IH (fun h' rq id' Hin => Henv h' rq id' (or_intror Hin))
                 (h ++ [Http (delete_of id h); Log INFO m])%list)
      as (d & Hd & Hreqs & Hlog).
    exists ([Http (delete_of id h); Log INFO m] ++ d)%list. split.
    + cbn [for_each]. exact (bind_ok _ _ h tt _ (Ok tt) d Hrun Hd).
    + rewrite requests_of_app, logged_app, Hlog. cbn [requests_of app]. split.
      * constructor; [apply delete_of_is_cancel | exact Hreqs].
      * reflexivity.
Qed.

Lemma mexc_cancel_loop_aborts (before ids : list pyval) (order order_id : pyval)
  (after : list pyval) (e : exn) :
  Forall2 (fun order id => py_getitem order "orderId" = Ok id /\
                           exists side, py_getitem order "side" = Ok side) before ids ->
  py_getitem order "orderId" = Ok order_id ->
  (forall h' rq id, In id ids -> mexc_cancel cfg id rq ->
                    exists resp, respond E h' rq = Answers resp) ->
  (forall h' rq, mexc_cancel cfg order_id rq -> respond E h' rq = Fails e) ->
  forall h, exists d,
    for_each (before ++ order :: after) (MEXC.cancel_order rt E cfg) h = (Raise e, d) /\
    Forall2 (mexc_cancel cfg) (ids ++ [order_id]) (requests_of d).
Proof.
  intros Hb Hid. induction Hb as [|o id before ids [Ho [side Hside]] _ IH]; intros Henv Hfail h.
  - pose proof (mexc_cancel_order_fails order order_id e h Hid
                  (Hfail h _ (delete_of_is_cancel order_id h))) as Hrun.
    exists [Http (delete_of order_id h)]. split.
    + cbn [app for_each]. exact (bind_raise _ _ h e _ Hrun).
    + cbn [app requests_of]. constructor; [apply delete_of_is_cancel | constructor].
  - destruct (Henv h (delete_of id h) id (or_introl eq_refl) (delete_of_is_cancel id h))
      as [resp Hr].
    destruct (mexc_cancel_order_answered o id side resp h Ho Hside Hr) as (m & Hrun).
    destruct (IH (fun h' rq id' Hin => Henv h' rq id' (or_intror Hin)) Hfail
                 (h ++ [Http (delete_of id h); Log INFO m])%list)
      as (d & Hd & Hreqs).
    exists ([Http (delete_of id h); Log INFO m] ++ d)%list. split.
    + cbn [app for_each]. exact (bind_ok _ _ h tt _ (Raise e) d Hrun Hd).
    + rewrite requests_of_app. cbn [requests_of app].
      constructor; [apply delete_of_is_cancel | exact Hreqs].
Qed.

Let listing_of (h : list event) : request :=
  MEXC.open_orders_request cfg
    (signed_of [("symbol", env_val (SYMBOL cfg)); ("timestamp", PInt (clock_ms E h))]).

Lemma mexc_cancel_all_from_loop (orders : list pyval) h :
  respond E h (listing_of h) = Answers (Json (PList orders)) ->
  forall r d,
    for_each orders (MEXC.cancel_order rt E cfg) (h ++ [Http (listing_of h)])%list = (r, d) ->
    exists tail,
      MEXC.cancel_all_orders rt E cfg h = (Ok tt, (Http (listing_of h) :: d) ++ tail)%list /\
      match r with
      | Ok _ => tail = []
      | Raise e => tail = [Log ERROR ("Error canceling orders: " ++ exn_str e)]
      end.
Proof.
  intros Hr r d Hloop.
  unfold MEXC.cancel_all_orders. rewrite bind_time, signed_of_ok, bind_lift_ok.
  unfold try_except, bind at 1, send. fold (listing_of h). rewrite Hr.
  unfold bind at 1. cbn [lift json_of].
  replace ((h ++ [Http (listing_of h)]) ++ [])%list with (h ++ [Http (listing_of h)])%list
    by (rewrite app_nil_r; reflexivity).
  rewrite Hloop. destruct r as [[]|e].
  - exists []. split; [|reflexivity]. rewrite app_nil_r. reflexivity.
  - eexists. split; [reflexivity | reflexivity].
Qed.

End CancelQuery.

(** C2, as stated, fails: when the cancel of the first of two listed
    orders raises (no connection), the exception leaves the loop, is
    logged once, and no cancel is attempted for the second order. Header
    variant and query variant. *)
Lemma cancel_stops_at_first_transport_error :
  let E := Sample.exchange Sample.unreachable in
  let header := snd (GCBEX.cancel_all_orders Sample.rt E Sample.cfg []) in
  let query := snd (MEXC.cancel_all_orders Sample.rt E Sample.cfg []) in
  respond E [] (GCBEX.open_orders_request Sample.cfg "1700000000000"
                  (PyStr.hex (hmac_sha256 Sample.rt "secret"
                                ("1700000000000" ++ "GET" ++ "/sapi/v2/openOrders"))))
  = Answers (Json Sample.two_orders) /\
  map rq_data (requests_of header)
  = [None; Some (json_dumps Sample.rt (GCBEX.cancel_body Sample.cfg (PInt 1)))] /\
  logged ERROR header = ["Error canceling orders: connection refused"] /\
  map (fun rq => (rq_verb rq, PyDict.get (rq_params rq) "orderId")) (requests_of query)
  = [(GET, None); (DELETE, Some (PInt 1))] /\
  logged ERROR query = ["Error canceling orders: connection refused"].
Proof. vm_compute. repeat split. Qed.

(** C2, amended: on a listing that is a list of orders, each with an
    order id (and a side, in the query variant), when every cancel request
    is answered - in the header variant by a JSON object, error-shaped or
    not; in the query variant by any response - one cancel request is sent
    for each order, in order, and no error is logged: an error-shaped
    answer to the cancel of one order does not stop the others. When the
    cancel request of one order raises, the requests for the orders before
    it and for it have been sent, none is sent for the orders after it, and
    the error is logged once. *)
Theorem cancel_continues_after_error_reply (rt : runtime) (E : env) (cfg : config)
  (secret : string) (h : list event) :
  API_SECRET cfg = Some secret ->
  (forall signature orders,
     GCBEX.sign rt cfg (PyStr.of_Z (clock_ms E h)) "GET" "/sapi/v2/openOrders" "" = Ok signature ->
     let listing := GCBEX.open_orders_request cfg (PyStr.of_Z (clock_ms E h)) signature in
     respond E h listing = Answers (Json (PList orders)) ->
     (forall ids,
        Forall2 (fun order id => py_getitem order "orderId" = Ok id) orders ids ->
        (forall h' rq id, In id ids -> gcbex_cancel rt cfg id rq ->
                          exists r, respond E h' rq = Answers (Json (PDict r))) ->
        exists d,
          GCBEX.cancel_all_orders rt E cfg h = (Ok tt, Http listing :: d) /\
          Forall2 (gcbex_cancel rt cfg) ids (requests_of d) /\
          logged ERROR d = []) /\
     (forall before ids order order_id after e,
        orders = (before ++ order :: after)%list ->
        Forall2 (fun order id => py_getitem order "orderId" = Ok id) before ids ->
        py_getitem order "orderId" = Ok order_id ->
        (forall h' rq id, In id ids -> gcbex_cancel rt cfg id rq ->
                          exists r, respond E h' rq = Answers (Json (PDict r))) ->
        (forall h' rq, gcbex_cancel rt cfg order_id rq -> respond E h' rq = Fails e) ->
        exists d,
          GCBEX.cancel_all_orders rt E cfg h
          = (Ok tt, (Http listing :: d) ++ [Log ERROR ("Error canceling orders: " ++ exn_str e)])%list /\
          Forall2 (gcbex_cancel rt cfg) (ids ++ [order_id])%list (requests_of d))) /\
  (forall params orders,
     MEXC.signed rt cfg [("symbol", env_val (SYMBOL cfg)); ("timestamp", PInt (clock_ms E h))]
     = Ok params ->
     let listing := MEXC.open_orders_request cfg params in
     respond E h listing = Answers (Json (PList orders)) ->
     (forall ids,
        Forall2 (fun order id => py_getitem order "orderId" = Ok id /\
                                 exists side, py_getitem order "side" = Ok side) orders ids ->
        (forall h' rq id, In id ids -> mexc_cancel cfg id rq ->
                          exists resp, respond E h' rq = Answers resp) ->
        exists d,
          MEXC.cancel_all_orders rt E cfg h = (Ok tt, Http listing :: d) /\
          Forall2 (mexc_cancel cfg) ids (requests_of d) /\
          logged ERROR d = []) /\
     (forall before ids order order_id after e,
        orders = (before ++ order :: after)%list ->
        Forall2 (fun order id => py_getitem order "orderId" = Ok id /\
                                 exists side, py_getitem order "side" = Ok side) before ids ->
        py_getitem order "orderId" = Ok order_id ->
        (forall h' rq id, In id ids -> mexc_cancel cfg id rq ->
                          exists resp, respond E h' rq = Answers resp) ->
        (forall h' rq, mexc_cancel cfg order_id rq -> respond E h' rq = Fails e) ->
        exists d,
          MEXC.cancel_all_orders rt E cfg h
          = (Ok tt, (Http listing :: d) ++ [Log ERROR ("Error canceling orders: " ++ exn_str e)])%list /\
          Forall2 (mexc_cancel cfg) (ids ++ [order_id])%list (requests_of d))).
Proof.
  intros Hs. split.
  - intros signature orders Hsig listing Hlist.
    rewrite (gcbex_sign_ok rt cfg secret _ _ _ _ Hs) in Hsig. inversion Hsig; subst signature.
    split.
    + intros ids Hids Henv.
      destruct (gcbex_cancel_loop rt E cfg secret Hs orders ids Hids Henv (h ++ [Http listing])%list)
        as (d & Hloop & Hreqs & Hlog).
      destruct (gcbex_cancel_all_from_loop rt E cfg secret Hs orders h Hlist (Ok tt) d Hloop)
        as (tail & Hrun & ->).
      exists d. rewrite app_nil_r in Hrun. auto.
    + intros before ids order order_id after e -> Hids Hid Henv Hfail.
      destruct (gcbex_cancel_loop_aborts rt E cfg secret Hs before ids order order_id after e
                  Hids Hid Henv Hfail (h ++ [Http listing])%list) as (d & Hloop & Hreqs).
      destruct (gcbex_cancel_all_from_loop rt E cfg secret Hs _ h Hlist (Raise e) d Hloop)
        as (tail & Hrun & ->).
      exists d. auto.
  - intros params orders Hsigned listing Hlist.
    destruct (mexc_signed_ok rt cfg secret
                [("symbol", env_val (SYMBOL cfg)); ("timestamp", PInt (clock_ms E h))] Hs)
      as (s & Hsign & Hsigned').
    rewrite (mexc_sign_ok rt cfg secret _ Hs) in Hsign. inversion Hsign; subst s.
    rewrite Hsigned' in Hsigned. inversion Hsigned; subst params.
    split.
    + intros ids Hids Henv.
      destruct (mexc_cancel_loop rt E cfg secret Hs orders ids Hids Henv (h ++ [Http listing])%list)
        as (d & Hloop & Hreqs & Hlog).
      destruct (mexc_cancel_all_from_loop rt E cfg secret Hs orders h Hlist (Ok tt) d Hloop)
        as (tail & Hrun & ->).
      exists d. rewrite app_nil_r in Hrun. auto.
    + intros before ids order order_id after e -> Hids Hid Henv Hfail.
      destruct (mexc_cancel_loop_aborts rt E cfg secret Hs before ids order order_id after e
                  Hids Hid Henv Hfail (h ++ [Http listing])%list) as (d & Hloop & Hreqs).
      destruct (mexc_cancel_all_from_loop rt E cfg secret Hs _ h Hlist (Raise e) d Hloop)
        as (tail & Hrun & ->).
      exists d. auto.
Qed.

Lemma cancel_continues_after_error_reply_witness :
  (exists listing d,
     GCBEX.cancel_all_orders Sample.rt (Sample.exchange Sample.rejected) Sample.cfg []
     = (Ok tt, Http listing :: d) /\
     Forall2 (gcbex_cancel Sample.rt Sample.cfg) [PInt 1; PInt 2] (requests_of d) /\
     logged ERROR d = []) /\
  (exists listing d,
     MEXC.cancel_all_orders Sample.rt (Sample.exchange Sample.unreachable) Sample.cfg []
     = (Ok tt, (Http listing :: d)
               ++ [Log ERROR ("Error canceling orders: " ++ "connection refused")])%list /\
     Forall2 (mexc_cancel Sample.cfg) [PInt 1] (requests_of d)).
Proof.
  split.
  - destruct (cancel_continues_after_error_reply Sample.rt (Sample.exchange Sample.rejected)
                Sample.cfg "secret" [] eq_refl) as [G _].
    destruct (G _ Sample.open_orders eq_refl eq_refl) as [Gok _].
    destruct (Gok [PInt 1; PInt 2]) as (d & Hrun & Hreqs & Hlog).
    + repeat constructor.
    + intros h' rq id _ (ts & sg & ->). eexists. reflexivity.
    + eexists _, d. split; [exact Hrun|]. split; [exact Hreqs | exact Hlog].
  - destruct (cancel_continues_after_error_reply Sample.rt (Sample.exchange Sample.unreachable)
                Sample.cfg "secret" [] eq_refl) as [_ Q].
    destruct (Q _ Sample.open_orders eq_refl eq_refl) as [_ Qabort].
    destruct (Qabort [] [] (PDict [("orderId", PInt 1); ("side", PStr "BUY")]) (PInt 1)
                [PDict [("orderId", PInt 2); ("side", PStr "SELL")]]
                (RequestError "ConnectionError" "connection refused"))
      as (d & Hrun & Hreqs).
    + reflexivity.
    + constructor.
    + reflexivity.
    + intros h' rq id [].
    + intros h' rq (ts & sg & ->). reflexivity.
    + eexists _, d. split; [exact Hrun | exact Hreqs].
Defined.

(** ** The canonical messages *)

Lemma insert_key_perm (k : string) (l : list string) : Permutation (MEXC.insert_key k l) (k :: l).
Proof.
  induction l as [|x r IH]; cbn [MEXC.insert_key]; [apply Permutation_refl|].
  destruct (String.leb k x); [apply Permutation_refl|].
  apply perm_trans with (x :: k :: r); [apply perm_skip; exact IH | apply perm_swap].
Qed.

Lemma sorted_perm (l : list string) : Permutation (MEXC.sorted l) l.
Proof.
  unfold MEXC.sorted. induction l as [|x r IH]; cbn [fold_right]; [apply perm_nil|].
  apply perm_trans with (x :: fold_right MEXC.insert_key [] r);
    [apply insert_key_perm | apply perm_skip; exact IH].
Qed.

Lemma insert_key_sorted (k : string) (l : list string) :
  Sorted str_le l -> Sorted str_le (MEXC.insert_key k l).
Proof.
  induction l as [|x r IH]; intros Hs; cbn [MEXC.insert_key].
  - repeat constructor.
  - destruct (String.leb k x) eqn:Hk.
    + constructor; [exact Hs | constructor; exact Hk].
    + apply Sorted_inv in Hs. destruct Hs as [Hr Hx].
      constructor; [apply IH; exact Hr|].
      assert (Hxk : str_le x k).
      { destruct (String.leb_total k x) as [H|H]; [congruence | exact H]. }
      destruct r as [|y r]; cbn [MEXC.insert_key].
      * constructor. exact Hxk.
      * destruct (String.leb k y); constructor; [exact Hxk|].
        apply HdRel_inv in Hx. exact Hx.
Qed.

Lemma sorted_sorted (l : list string) : Sorted str_le (MEXC.sorted l).
Proof.
  unfold MEXC.sorted. induction l as [|x r IH]; cbn [fold_right]; [constructor|].
  apply insert_key_sorted. exact IH.
Qed.

Lemma sorted_map_entries (d : PyDict.dict) (l : list string) :
  Sorted str_le l -> Sorted key_le (map (fun k => (k, value_at d k)) l).
Proof.
  induction 1 as [|k l Hl IH Hk]; cbn [map]; constructor; [exact IH|].
  destruct Hk as [|k' l' Hkk']; cbn [map]; constructor. exact Hkk'.
Qed.

(** With distinct keys, a dictionary is the list of its keys with their
    values. *)
Lemma entries_of_keys (d : PyDict.dict) :
  NoDup (PyDict.keys d) -> map (fun k => (k, value_at d k)) (PyDict.keys d) = d.
Proof.
  unfold PyDict.keys. induction d as [|[k v] r IH]; intros Hnd; cbn [map fst]; [reflexivity|].
  inversion Hnd as [|k0 l0 Hnotin Hnd']; subst.
  unfold value_at at 1. cbn [PyDict.get]. rewrite String.eqb_refl. f_equal.
  rewrite <- (IH Hnd') at 2. apply map_ext_in. intros k' Hin.
  unfold value_at. cbn [PyDict.get].
  destruct (String.eqb_spec k k') as [->|_]; [destruct (Hnotin Hin) | reflexivity].
Qed.

Lemma mexc_query_canonical (rt : runtime) (params : PyDict.dict) :
  NoDup (PyDict.keys params) ->
  exists msg, MEXC.query rt params = Ok msg /\ query_canonical rt params msg.
Proof.
  intros Hnd. rewrite mexc_query_ok. eexists. split; [reflexivity|].
  exists (map (fun k => (k, value_at params k)) (MEXC.sorted (PyDict.keys params))).
  split; [|split].
  - rewrite <- (entries_of_keys params Hnd) at 2.
    apply Permutation_map. apply sorted_perm.
  - apply sorted_map_entries. apply sorted_sorted.
  - unfold PyStr.join. rewrite map_map. reflexivity.
Qed.

(** C8: each variant builds its message by one scheme. Header variant:
    the timestamp, the upper-cased method, the path and the serialized
    body (empty if none), in that order, with no parameter in it. Query
    variant: the parameters sorted by key, joined as key=value pairs with
    [&], with no timestamp, method or path of its own. The signature is
    the hexadecimal form of the HMAC-SHA256 of that message under the
    secret. *)
Theorem sign_canonical_message (rt : runtime) (cfg : config) (secret : string) :
  API_SECRET cfg = Some secret ->
  (forall (timestamp method path : string) (body : option string),
     GCBEX.sign rt cfg timestamp method path (match body with Some b => b | None => "" end)
     = Ok (PyStr.hex (hmac_sha256 rt secret (header_canonical timestamp method path body)))) /\
  (forall params : PyDict.dict,
     NoDup (PyDict.keys params) ->
     exists msg,
       query_canonical rt params msg /\
       MEXC.sign rt cfg params = Ok (PyStr.hex (hmac_sha256 rt secret msg))).
Proof.
  intros Hs. split.
  - intros timestamp method path body.
    rewrite (gcbex_sign_ok rt cfg secret _ _ _ _ Hs). reflexivity.
  - intros params Hnd.
    destruct (mexc_query_canonical rt params Hnd) as (msg & Hq & Hc).
    exists msg. split; [exact Hc|].
    unfold MEXC.sign. rewrite Hq. cbn [rbind]. rewrite Hs. reflexivity.
Qed.

Lemma sign_canonical_message_witness :
  GCBEX.sign Sample.rt Sample.cfg "1700000000000" "post" "/sapi/v2/cancel" ""
  = Ok (PyStr.hex (hmac_sha256 Sample.rt "secret" "1700000000000POST/sapi/v2/cancel")) /\
  exists msg,
    query_canonical Sample.rt
      [("symbol", PStr "ETHUSDT"); ("orderId", PInt 7); ("timestamp", PInt 1700000000000)] msg /\
    MEXC.sign Sample.rt Sample.cfg
      [("symbol", PStr "ETHUSDT"); ("orderId", PInt 7); ("timestamp", PInt 1700000000000)]
    = Ok (PyStr.hex (hmac_sha256 Sample.rt "secret" msg)).
Proof.
  destruct (sign_canonical_message Sample.rt Sample.cfg "secret" eq_refl) as [H Q].
  split.
  - exact (H "1700000000000" "post" "/sapi/v2/cancel" None).
  - apply Q. unfold PyDict.keys. cbn [map fst].
    constructor; [intros [C|[C|[]]]; discriminate C|].
    constructor; [intros [C|[]]; discriminate C|].
    constructor; [intros []|]. constructor.
Defined.

(** The message of the query variant on three parameters: the keys come
    out sorted, and an integer and its text render alike. *)
Example query_message_sorted :
  MEXC.query Sample.rt
    [("symbol", PStr "ETHUSDT"); ("orderId", PInt 7); ("timestamp", PInt 1700000000000)]
  = Ok "orderId=7&symbol=ETHUSDT&timestamp=1700000000000".
Proof. vm_compute. reflexivity. Qed.

(** ** What the signature separates *)

Lemma unhex_hex_digit (n : nat) : n < 16 -> unhex_digit (PyStr.hex_digit n) = n.
Proof.
  intros H.
  do 16 (destruct n as [|n]; [reflexivity|]). lia.
Qed.

Lemma hex_digits_inj (a b : nat) :
  a < 256 -> b < 256 ->
  PyStr.hex_digit (a / 16) = PyStr.hex_digit (b / 16) ->
  PyStr.hex_digit (a mod 16) = PyStr.hex_digit (b mod 16) ->
  a = b.
Proof.
  intros Ha Hb Hq Hr.
  assert (Qa : a / 16 < 16) by (apply Nat.Div0.div_lt_upper_bound; lia).
  assert (Qb : b / 16 < 16) by (apply Nat.Div0.div_lt_upper_bound; lia).
  assert (Ra : a mod 16 < 16) by (apply Nat.mod_upper_bound; lia).
  assert (Rb : b mod 16 < 16) by (apply Nat.mod_upper_bound; lia).
  apply (f_equal unhex_digit) in Hq, Hr.
  rewrite !unhex_hex_digit in Hq, Hr by assumption.
  rewrite (Nat.div_mod_eq a 16), (Nat.div_mod_eq b 16). congruence.
Qed.

(** The hexadecimal form tells the bytes apart. *)
Lemma hex_inj (s t : string) : PyStr.hex s = PyStr.hex t -> s = t.
Proof.
  revert t. induction s as [|c s IH]; intros [|c' t]; cbn [PyStr.hex]; try discriminate.
  - reflexivity.
  - intros H. inversion H as [[Hq Hr Hrest]].
    assert (Hc : nat_of_ascii c = nat_of_ascii c').
    { apply hex_digits_inj; try apply nat_ascii_bounded; assumption. }
    apply (f_equal ascii_of_nat) in Hc. rewrite !ascii_nat_embedding in Hc.
    rewrite Hc, (IH t Hrest). reflexivity.
Qed.

Lemma append_cancel_l (a x y : string) : a ++ x = a ++ y -> x = y.
Proof.
  induction a as [|c a IH]; cbn [String.append]; intros H; [exact H|].
  inversion H. auto.
Qed.

Lemma list_of_append (a b : string) :
  list_ascii_of_string (a ++ b) = (list_ascii_of_string a ++ list_ascii_of_string b)%list.
Proof.
  induction a as [|c a IH]; cbn [String.append list_ascii_of_string app]; [reflexivity|].
  rewrite IH. reflexivity.
Qed.

Lemma append_cancel_r (a x y : string) : x ++ a = y ++ a -> x = y.
Proof.
  intros H. apply (f_equal list_ascii_of_string) in H.
  rewrite !list_of_append in H. apply app_inv_tail in H.
  apply (f_equal string_of_list_ascii) in H.
  rewrite !string_of_list_ascii_of_string in H. exact H.
Qed.

Lemma upper_ascii_idempotent (c : ascii) :
  PyStr.upper_ascii (PyStr.upper_ascii c) = PyStr.upper_ascii c.
Proof. destruct c as [[] [] [] [] [] [] [] []]; reflexivity. Qed.

Lemma upper_idempotent (s : string) : PyStr.upper (PyStr.upper s) = PyStr.upper s.
Proof.
  induction s as [|c s IH]; cbn [PyStr.upper]; [reflexivity|].
  rewrite upper_ascii_idempotent, IH. reflexivity.
Qed.

(** Parameters with the same keys and values that render alike give the
    same message. *)
Lemma mexc_query_renders (rt : runtime) (params params' : PyDict.dict) :
  Forall2 (fun a b => fst a = fst b /\ py_str rt (snd a) = py_str rt (snd b)) params params' ->
  MEXC.query rt params = MEXC.query rt params'.
Proof.
  intros H. rewrite !mexc_query_ok.
  assert (V : forall k, py_str rt (value_at params k) = py_str rt (value_at params' k)).
  { intros k. unfold value_at.
    induction H as [|[k1 v1] [k2 v2] l l' [Hk Hv] _ IH]; cbn [PyDict.get]; [reflexivity|].
    cbn [fst snd] in Hk, Hv. subst k2.
    destruct (String.eqb k1 k); [exact Hv | exact IH]. }
  assert (K : PyDict.keys params = PyDict.keys params').
  { clear V. unfold PyDict.keys.
    induction H as [|[k v] [k' v'] l l' [Hk _] _ IH]; cbn [map fst];
      [reflexivity|]. cbn [fst] in Hk. rewrite Hk, IH. reflexivity. }
  rewrite K. do 2 f_equal. apply map_ext. intros k. rewrite V. reflexivity.
Qed.

Lemma string_append_assoc (a b c : string) : (a ++ b) ++ c = a ++ b ++ c.
Proof. induction a as [|x a IH]; cbn [append]; [reflexivity | rewrite IH; reflexivity]. Qed.

Lemma string_append_nil_r (a : string) : a ++ EmptyString = a.
Proof. induction a as [|x a IH]; cbn [append]; [reflexivity | rewrite IH; reflexivity]. Qed.

(** In a joined list, an item sits between a text that the items before
    it decide and a text that the items after it decide. *)
Lemma join_middle (sep : string) (before after : list string) :
  exists P R, forall x, String.concat sep (before ++ x :: after)%list = P ++ x ++ R.
Proof.
  induction before as [|a before (P & R & H)].
  - destruct after as [|b after].
    + exists EmptyString, EmptyString. intros x. cbn [app String.concat append].
      rewrite string_append_nil_r. reflexivity.
    + exists EmptyString, (sep ++ String.concat sep (b :: after)). intros x. reflexivity.
  - exists (a ++ sep ++ P), R. intros x.
    assert (E : String.concat sep ((a :: before) ++ x :: after)%list
                = a ++ sep ++ String.concat sep (before ++ x :: after)%list)
      by (destruct before; reflexivity).
    rewrite E, H, !string_append_assoc. reflexivity.
Qed.

Lemma keys_set (d : PyDict.dict) (k : string) (v : pyval) :
  In k (PyDict.keys d) -> PyDict.keys (PyDict.set d k v) = PyDict.keys d.
Proof.
  unfold PyDict.keys. induction d as [|[k' v'] r IH]; cbn [map fst In PyDict.set]; [tauto|].
  intros Hin. destruct (String.eqb_spec k' k) as [->|Hne]; [reflexivity|].
  cbn [map fst]. rewrite IH; [reflexivity|]. destruct Hin as [Heq|Hin]; [contradiction | exact Hin].
Qed.

Lemma value_at_set (d : PyDict.dict) (k : string) (v : pyval) (key : string) :
  value_at (PyDict.set d k v) key = if String.eqb k key then v else value_at d key.
Proof.
  unfold value_at. induction d as [|[k' v'] r IH]; cbn [PyDict.set PyDict.get].
  - destruct (String.eqb k key); reflexivity.
  - destruct (String.eqb_spec k' k) as [->|Hne]; cbn [PyDict.get].
    + destruct (String.eqb k key); reflexivity.
    + destruct (String.eqb_spec k' key) as [->|Hne'].
      * destruct (String.eqb_spec k key) as [->|_]; [contradiction | reflexivity].
      * exact IH.
Qed.

(** Changing the value of one parameter to a value with another text
    changes the message of the query variant. *)
Lemma mexc_query_value_sensitive (rt : runtime) (params : PyDict.dict) (k : string)
  (v : pyval) (q q' : string) :
  NoDup (PyDict.keys params) -> In k (PyDict.keys params) ->
  py_str rt v <> py_str rt (value_at params k) ->
  MEXC.query rt params = Ok q -> MEXC.query rt (PyDict.set params k v) = Ok q' ->
  q <> q'.
Proof.
  intros Hnd Hin Hne Hq Hq' Heq.
  set (f := fun key => key ++ "=" ++ py_str rt (value_at params key)).
  set (f' := fun key => key ++ "=" ++ py_str rt (value_at (PyDict.set params k v) key)).
  assert (Eq : q = PyStr.join "&" (map f (MEXC.sorted (PyDict.keys params)))).
  { rewrite mexc_query_ok in Hq. inversion Hq. reflexivity. }
  assert (Eq' : q' = PyStr.join "&" (map f' (MEXC.sorted (PyDict.keys params)))).
  { rewrite mexc_query_ok, (keys_set params k v Hin) in Hq'. inversion Hq'. reflexivity. }
  clear Hq Hq'.
  assert (HinL : In k (MEXC.sorted (PyDict.keys params)))
    by (apply (proj2 (in_sorted k _)); exact Hin).
  assert (HndL : NoDup (MEXC.sorted (PyDict.keys params)))
    by (apply (Permutation_NoDup (Permutation_sym (sorted_perm _))); exact Hnd).
  destruct (in_split _ _ HinL) as (L1 & L2 & HL). rewrite HL in Eq, Eq', HndL.
  apply NoDup_remove_2 in HndL.
  assert (Hother : forall key, In key (L1 ++ L2)%list -> f' key = f key).
  { intros key Hkey. unfold f, f'. rewrite value_at_set.
    destruct (String.eqb_spec k key) as [->|_]; [destruct (HndL Hkey) | reflexivity]. }
  assert (Hk : f' k = k ++ "=" ++ py_str rt v).
  { unfold f'. rewrite value_at_set, String.eqb_refl. reflexivity. }
  rewrite map_app in Eq, Eq'.
  change (map f (k :: L2)) with (f k :: map f L2) in Eq.
  change (map f' (k :: L2)) with (f' k :: map f' L2) in Eq'.
  rewrite (map_ext_in f' f L1) in Eq'
    by (intros key Hkey; apply Hother, in_or_app; left; exact Hkey).
  rewrite (map_ext_in f' f L2) in Eq'
    by (intros key Hkey; apply Hother, in_or_app; right; exact Hkey).
  destruct (join_middle "&" (map f L1) (map f L2)) as (P & R & Hjoin).
  unfold PyStr.join in Eq, Eq'. rewrite Hjoin in Eq, Eq'. rewrite Hk in Eq'.
  rewrite Eq, Eq' in Heq. unfold f in Heq.
  apply append_cancel_l in Heq. rewrite !string_append_assoc in Heq.
  do 2 apply append_cancel_l in Heq. apply append_cancel_r in Heq.
  apply Hne. symmetry. exact Heq.
Qed.

(** C3: the signature is the hexadecimal form of the keyed hash of the
    canonical message, a function of the secret and of the inputs alone,
    so the same inputs give the same signature. Two signatures are equal
    exactly when the keyed hashes of the two canonical messages are
    equal. Each change of a single input changes the canonical message,
    and so the signature unless the keyed hash collides on the two
    messages: in the header variant a change of the timestamp, of the path,
    of the body, or of the method to one with another upper-case form; in
    the query variant a change of the value of a parameter to one with
    another text. The inputs count through the canonical message only:
    the case of the method and the type of a value with the same text do
    not change it. The method is in ASCII, where the upper-case form is
    Python's. *)
Theorem sign_determined_by_canonical_message (rt : runtime) (cfg : config) (secret : string) :
  API_SECRET cfg = Some secret ->
  (forall t m p b,
     GCBEX.sign rt cfg t m p b
     = Ok (PyStr.hex (hmac_sha256 rt secret (GCBEX.message t m p b)))) /\
  (forall params,
     exists q, MEXC.query rt params = Ok q /\
               MEXC.sign rt cfg params = Ok (PyStr.hex (hmac_sha256 rt secret q))) /\
  (forall t m p b t' m' p' b',
     GCBEX.sign rt cfg t m p b = GCBEX.sign rt cfg t' m' p' b' <->
     hmac_sha256 rt secret (GCBEX.message t m p b)
     = hmac_sha256 rt secret (GCBEX.message t' m' p' b')) /\
  (forall params params' q q',
     MEXC.query rt params = Ok q -> MEXC.query rt params' = Ok q' ->
     (MEXC.sign rt cfg params = MEXC.sign rt cfg params' <->
      hmac_sha256 rt secret q = hmac_sha256 rt secret q')) /\
  (forall t t' m p b,
     t <> t' ->
     (GCBEX.sign rt cfg t m p b = GCBEX.sign rt cfg t' m p b <->
      collides rt secret (GCBEX.message t m p b) (GCBEX.message t' m p b))) /\
  (forall t m p p' b,
     p <> p' ->
     (GCBEX.sign rt cfg t m p b = GCBEX.sign rt cfg t m p' b <->
      collides rt secret (GCBEX.message t m p b) (GCBEX.message t m p' b))) /\
  (forall t m p b b',
     b <> b' ->
     (GCBEX.sign rt cfg t m p b = GCBEX.sign rt cfg t m p b' <->
      collides rt secret (GCBEX.message t m p b) (GCBEX.message t m p b'))) /\
  (forall t m m' p b,
     PyStr.is_ascii m = true -> PyStr.is_ascii m' = true ->
     PyStr.upper m <> PyStr.upper m' ->
     (GCBEX.sign rt cfg t m p b = GCBEX.sign rt cfg t m' p b <->
      collides rt secret (GCBEX.message t m p b) (GCBEX.message t m' p b))) /\
  (forall params k v q q',
     NoDup (PyDict.keys params) -> In k (PyDict.keys params) ->
     py_str rt v <> py_str rt (value_at params k) ->
     MEXC.query rt params = Ok q -> MEXC.query rt (PyDict.set params k v) = Ok q' ->
     (MEXC.sign rt cfg params = MEXC.sign rt cfg (PyDict.set params k v) <->
      collides rt secret q q')) /\
  (forall t m p b,
     PyStr.is_ascii m = true ->
     GCBEX.sign rt cfg t (PyStr.upper m) p b = GCBEX.sign rt cfg t m p b) /\
  (forall params params',
     Forall2 (fun a b => fst a = fst b /\ py_str rt (snd a) = py_str rt (snd b)) params params' ->
     MEXC.sign rt cfg params = MEXC.sign rt cfg params').
Proof.
  intros Hs.
  assert (S : forall t m p b,
             GCBEX.sign rt cfg t m p b
             = Ok (PyStr.hex (hmac_sha256 rt secret (GCBEX.message t m p b)))).
  { intros. unfold GCBEX.sign. rewrite Hs. reflexivity. }
  assert (G : forall t m p b t' m' p' b',
             GCBEX.sign rt cfg t m p b = GCBEX.sign rt cfg t' m' p' b' <->
             hmac_sha256 rt secret (GCBEX.message t m p b)
             = hmac_sha256 rt secret (GCBEX.message t' m' p' b')).
  { intros. rewrite !S. split.
    - intros H. inversion H as [H']. apply hex_inj. exact H'.
    - intros ->. reflexivity. }
  assert (Q : forall params params' q q',
             MEXC.query rt params = Ok q -> MEXC.query rt params' = Ok q' ->
             (MEXC.sign rt cfg params = MEXC.sign rt cfg params' <->
              hmac_sha256 rt secret q = hmac_sha256 rt secret q')).
  { intros params params' q q' Hq Hq'. unfold MEXC.sign. rewrite Hq, Hq'. cbn [rbind].
    rewrite Hs. split.
    - intros H. inversion H as [H']. apply hex_inj. exact H'.
    - intros ->. reflexivity. }
  assert (C : forall t m p b t' m' p' b',
             GCBEX.message t m p b <> GCBEX.message t' m' p' b' ->
             (GCBEX.sign rt cfg t m p b = GCBEX.sign rt cfg t' m' p' b' <->
              collides rt secret (GCBEX.message t m p b) (GCBEX.message t' m' p' b'))).
  { intros t m p b t' m' p' b' Hne. rewrite G. unfold collides. tauto. }
  split; [exact S|]. split.
  { intros params. eexists. split; [apply mexc_query_ok|].
    apply (mexc_sign_ok rt cfg secret params Hs). }
  split; [exact G|]. split; [exact Q|].
  split; [|split; [|split; [|split; [|split; [|split]]]]].
  - intros t t' m p b Hne. apply C. intros H. unfold GCBEX.message in H.
    apply append_cancel_r in H. exact (Hne H).
  - intros t m p p' b Hne. apply C. intros H. unfold GCBEX.message in H.
    do 2 apply append_cancel_l in H. apply append_cancel_r in H. exact (Hne H).
  - intros t m p b b' Hne. apply C. intros H. unfold GCBEX.message in H.
    do 3 apply append_cancel_l in H. exact (Hne H).
  - intros t m m' p b _ _ Hne. apply C. intros H. unfold GCBEX.message in H.
    apply append_cancel_l, append_cancel_r in H. exact (Hne H).
  - intros params k v q q' Hnd Hin Hne Hq Hq'. rewrite (Q _ _ _ _ Hq Hq').
    pose proof (mexc_query_value_sensitive rt params k v q q' Hnd Hin Hne Hq Hq') as Hd.
    unfold collides. tauto.
  - intros t m p b _. rewrite !S. unfold GCBEX.message. rewrite upper_idempotent. reflexivity.
  - intros params params' H. unfold MEXC.sign.
    rewrite (mexc_query_renders rt params params' H). reflexivity.
Qed.

Lemma sign_determined_by_canonical_message_witness :
  GCBEX.sign Sample.rt Sample.cfg "1700000000000" "GET" "/sapi/v1/account" ""
  = Ok (PyStr.hex (hmac_sha256 Sample.rt "secret"
                     (GCBEX.message "1700000000000" "GET" "/sapi/v1/account" ""))) /\
  GCBEX.sign Sample.rt Sample.cfg "1700000000000" "GET" "/sapi/v1/account" ""
  <> GCBEX.sign Sample.rt Sample.cfg "1700000000001" "GET" "/sapi/v1/account" "" /\
  GCBEX.sign Sample.rt Sample.cfg "1700000000000" "GET" "/sapi/v2/order" ""
  <> GCBEX.sign Sample.rt Sample.cfg "1700000000000" "POST" "/sapi/v2/order" "" /\
  MEXC.sign Sample.rt Sample.cfg [("symbol", PStr "ETHUSDT"); ("orderId", PInt 1)]
  <> MEXC.sign Sample.rt Sample.cfg
       (PyDict.set [("symbol", PStr "ETHUSDT"); ("orderId", PInt 1)] "orderId" (PInt 2)).
Proof.
  destruct (sign_determined_by_canonical_message Sample.rt Sample.cfg "secret" eq_refl)
    as (S & _ & _ & _ & T & _ & _ & M & V & _).
  split; [apply S|]. split; [|split].
  - intros H. apply (T "1700000000000" "1700000000001") in H; [|discriminate].
    destruct H as [_ H]. vm_compute in H. discriminate H.
  - intros H. apply (M "1700000000000" "GET" "POST") in H;
      [|reflexivity | reflexivity | discriminate].
    destruct H as [_ H]. vm_compute in H. discriminate H.
  - intros H.
    apply (V [("symbol", PStr "ETHUSDT"); ("orderId", PInt 1)] "orderId" (PInt 2)
             "orderId=1&symbol=ETHUSDT" "orderId=2&symbol=ETHUSDT") in H.
    + destruct H as [_ H]. vm_compute in H. discriminate H.
    + constructor; [intros [C|[]]; discriminate C|].
      constructor; [intros []|]. constructor.
    + right. left. reflexivity.
    + discriminate.
    + reflexivity.
    + reflexivity.
Defined.

(** * More of the program *)

(** ** Rules for what a run emits *)

Lemma each_event_app (P : list event -> event -> Prop) (h d1 d2 : list event) :
  each_event P h (d1 ++ d2)%list <-> each_event P h d1 /\ each_event P (h ++ d1)%list d2.
Proof.
  revert h. induction d1 as [|ev d1 IH]; intros h; cbn [app each_event].
  - rewrite app_nil_r. tauto.
  - rewrite (IH (h ++ [ev])%list), <- app_assoc. cbn [app]. tauto.
Qed.

Lemma each_event_weaken (P Q : list event -> event -> Prop) (h d : list event) :
  (forall h' ev, P h' ev -> Q h' ev) -> each_event P h d -> each_event Q h d.
Proof.
  intros HPQ. revert h. induction d as [|ev d IH]; intros h; cbn [each_event]; [trivial|].
  intros [H1 H2]. split; [apply HPQ; exact H1 | apply IH; exact H2].
Qed.

Section Emits.

Variable P : list event -> event -> Prop.

Lemma emits_at_ret {A} (a : A) h : emits_at P h (ret a).
Proof. exact I. Qed.

Lemma emits_at_lift {A} (r : result A) h : emits_at P h (lift r).
Proof. exact I. Qed.

Lemma emits_at_emit (ev : event) h : P h ev -> emits_at P h (emit ev).
Proof. intros H. split; [exact H | exact I]. Qed.

Lemma emits_at_bind {A B} (m : M A) (k : A -> M B) h :
  emits_at P h m ->
  (forall a d, m h = (Ok a, d) -> emits_at P (h ++ d)%list (k a)) ->
  emits_at P h (bind m k).
Proof.
  unfold emits_at, bind. intros Hm Hk.
  destruct (m h) as [[a|e] d]; [|exact Hm].
  specialize (Hk a d eq_refl). destruct (k a (h ++ d)%list) as [r d'].
  cbn [snd] in *. apply each_event_app. split; assumption.
Qed.

Lemma emits_at_try {A} (m : M A) (handler : exn -> M A) h :
  emits_at P h m ->
  (forall e d, m h = (Raise e, d) -> emits_at P (h ++ d)%list (handler e)) ->
  emits_at P h (try_except m handler).
Proof.
  unfold emits_at, try_except. intros Hm Hh.
  destruct (m h) as [[a|e] d]; [exact Hm|].
  specialize (Hh e d eq_refl). destruct (handler e (h ++ d)%list) as [r d'].
  cbn [snd] in *. apply each_event_app. split; assumption.
Qed.

Lemma emits_at_time_bind {A} (E : env) (k : Z -> M A) h :
  emits_at P h (k (clock_ms E h)) -> emits_at P h (bind (time_ms E) k).
Proof. unfold emits_at. rewrite bind_time. trivial. Qed.

Lemma emits_at_lift_bind {A B} (r : result A) (k : A -> M B) h :
  (forall a, r = Ok a -> emits_at P h (k a)) -> emits_at P h (bind (lift r) k).
Proof.
  unfold emits_at. intros H. destruct r as [a|e].
  - rewrite bind_lift_ok. apply H. reflexivity.
  - exact I.
Qed.

Lemma emits_at_emit_bind {A} (ev : event) (k : unit -> M A) h :
  P h ev -> emits_at P (h ++ [ev])%list (k tt) -> emits_at P h (bind (emit ev) k).
Proof.
  intros Hev Hk. apply emits_at_bind; [apply emits_at_emit; exact Hev|].
  intros [] d Hd. inversion Hd; subst. exact Hk.
Qed.

Lemma emits_at_send (E : env) (rq : request) h : P h (Http rq) -> emits_at P h (send E rq).
Proof.
  intros H. unfold emits_at, send.
  destruct (respond E h rq); split; try exact H; exact I.
Qed.

Lemma emits_at_send_bind {A} (E : env) (rq : request) (k : response -> M A) h :
  P h (Http rq) ->
  (forall resp, emits_at P (h ++ [Http rq])%list (k resp)) ->
  emits_at P h (bind (send E rq) k).
Proof.
  intros Hrq Hk. apply emits_at_bind; [apply emits_at_send; exact Hrq|].
  intros resp d Hd. unfold send in Hd.
  destruct (respond E h rq); inversion Hd; subst. apply Hk.
Qed.

Lemma emits_at_for_each {A} (l : list A) (body : A -> M unit) h :
  (forall x h', In x l -> emits_at P h' (body x)) -> emits_at P h (for_each l body).
Proof.
  revert h. induction l as [|x l IH]; intros h Hb; cbn [for_each].
  - apply emits_at_ret.
  - apply emits_at_bind; [apply Hb; left; reflexivity|].
    intros _ d _. apply IH. intros y h' Hy. apply Hb. right. exact Hy.
Qed.

(** What the events of every variant include. *)
Hypothesis P_log : forall h lvl msg, P h (Log lvl msg).

Variable E : env.
Variable cfg : config.

Hypothesis P_alert :
  forall h user_id message,
    In user_id (TELEGRAM_USER_IDS cfg) -> P h (Http (alert_request cfg user_id message)).

Lemma send_telegram_alert_emits (message : string) h :
  emits_at P h (send_telegram_alert E cfg message).
Proof.
  unfold send_telegram_alert. apply emits_at_for_each. intros u h' Hu.
  unfold deliver. apply emits_at_try.
  - apply emits_at_send_bind; [apply P_alert; exact Hu|]. intros resp. apply emits_at_ret.
  - intros e d _. apply emits_at_emit. apply P_log.
Qed.

Variable rt : runtime.

Lemma price_from_emits (rq : request) (field : string) h :
  P h (Http rq) -> emits_at P h (price_from rt E cfg rq field).
Proof.
  intros Hrq. unfold price_from. apply emits_at_try.
  - apply emits_at_send_bind; [exact Hrq|]. intros resp.
    apply emits_at_lift_bind. intros data _.
    apply emits_at_lift_bind. intros present _. destruct present.
    + apply emits_at_lift_bind. intros price _.
      apply emits_at_bind; [apply send_telegram_alert_emits|].
      intros _ d _. apply emits_at_ret.
    + apply emits_at_emit_bind; [apply P_log | apply emits_at_ret].
  - intros e d _. apply emits_at_emit_bind; [apply P_log | apply emits_at_ret].
Qed.

Lemma balance_from_emits (rq : request) (asset : string) h :
  P h (Http rq) -> emits_at P h (balance_from rt E rq asset).
Proof.
  intros Hrq. unfold balance_from. apply emits_at_bind.
  - apply emits_at_try.
    + apply emits_at_send_bind; [exact Hrq|]. intros resp.
      apply emits_at_lift_bind. intros data _.
      apply emits_at_lift_bind. intros present _. destruct present.
      * apply emits_at_lift_bind. intros items _. apply emits_at_lift.
      * apply emits_at_emit_bind; [apply P_log | apply emits_at_ret].
    + intros e d _. apply emits_at_emit_bind; [apply P_log | apply emits_at_ret].
  - intros found d _. apply emits_at_ret.
Qed.

(** The four operations of a variant emit such events; pauses of ten
    seconds are such events. *)
Variable get_price : M float.
Variable cancel_all_orders : M unit.
Variable get_balance : string -> M float.
Variable place_order : string -> float -> M unit.

Hypothesis P_pause : forall h, P h (Sleep 10).
Hypothesis get_price_emits : forall h, emits_at P h get_price.
Hypothesis cancel_emits : forall h, emits_at P h cancel_all_orders.
Hypothesis get_balance_emits : forall asset h, emits_at P h (get_balance asset).
Hypothesis buy_emits : forall h, emits_at P h (place_order "BUY" (fst (quote cfg))).
Hypothesis sell_emits : forall h, emits_at P h (place_order "SELL" (snd (quote cfg))).

Lemma cycle_emits h :
  emits_at P h (cycle rt E cfg get_price cancel_all_orders get_balance place_order).
Proof.
  unfold cycle, sleep, log.
  apply emits_at_bind; [apply get_price_emits|]. intros current_price d1 _.
  apply emits_at_emit_bind; [apply P_pause|].
  apply emits_at_emit_bind; [apply P_log|].
  apply emits_at_bind; [apply cancel_emits|]. intros _ d2 _.
  apply emits_at_emit_bind; [apply P_pause|].
  apply emits_at_lift_bind. intros assets _.
  apply emits_at_bind; [apply get_balance_emits|]. intros base_balance d3 _.
  apply emits_at_emit_bind; [apply P_pause|].
  apply emits_at_bind; [apply get_balance_emits|]. intros quote_balance d4 _.
  apply emits_at_emit_bind; [apply P_pause|].
  apply emits_at_bind.
  { unfold evaluate_buy.
    destruct (PyFloat.ge quote_balance (fst (quote cfg) * ORDER_SIZE cfg)%float).
    - apply buy_emits.
    - unfold log. apply emits_at_emit_bind; [apply P_log | apply send_telegram_alert_emits]. }
  intros _ d5 _.
  apply emits_at_emit_bind; [apply P_pause|].
  apply emits_at_bind.
  { unfold evaluate_sell.
    destruct (PyFloat.ge base_balance (ORDER_SIZE cfg)).
    - apply sell_emits.
    - unfold log. apply emits_at_emit_bind; [apply P_log | apply send_telegram_alert_emits]. }
  intros _ d6 _.
  apply emits_at_emit. apply P_pause.
Qed.

Lemma main_iteration_emits h :
  emits_at P h (main_iteration rt E cfg get_price cancel_all_orders get_balance place_order).
Proof.
  unfold main_iteration. apply emits_at_try; [apply cycle_emits|].
  intros e d _. unfold on_error, log, sleep.
  apply emits_at_emit_bind; [apply P_log|].
  apply emits_at_bind; [apply send_telegram_alert_emits|]. intros _ d' _.
  apply emits_at_emit. apply P_pause.
Qed.

Lemma main_emits (n : nat) h :
  emits_at P h (main rt E cfg get_price cancel_all_orders get_balance place_order n).
Proof.
  revert h. induction n as [|n IH]; intros h; cbn [main].
  - apply emits_at_ret.
  - apply emits_at_bind; [apply main_iteration_emits|]. intros _ d _. apply IH.
Qed.

End Emits.

(** ** What each operation emits *)

Section EmitsHeader.

Variable P : list event -> event -> Prop.
Hypothesis P_log : forall h lvl msg, P h (Log lvl msg).

Variable rt : runtime.
Variable E : env.
Variable cfg : config.

Lemma gcbex_get_balance_emits (asset : string) h :
  (forall signature,
     GCBEX.sign rt cfg (stamp E h) "GET" "/sapi/v1/account" "" = Ok signature ->
     P h (Http (GCBEX.account_request cfg (stamp E h) signature))) ->
  emits_at P h (GCBEX.get_balance rt E cfg asset).
Proof.
  intros Hrq. unfold GCBEX.get_balance. apply emits_at_time_bind.
  apply emits_at_lift_bind. intros signature Hsig.
  apply balance_from_emits; [exact P_log | apply Hrq; exact Hsig].
Qed.

Lemma gcbex_place_order_emits (side : string) (price : float) h :
  (forall signature,
     GCBEX.sign rt cfg (stamp E h) "POST" "/sapi/v2/order"
       (json_dumps rt (GCBEX.order_body rt cfg side price)) = Ok signature ->
     P h (Http (GCBEX.order_request cfg (stamp E h) signature
                  (json_dumps rt (GCBEX.order_body rt cfg side price))))) ->
  emits_at P h (GCBEX.place_order rt E cfg side price).
Proof.
  intros Hrq. unfold GCBEX.place_order. apply emits_at_time_bind.
  apply emits_at_lift_bind. intros signature Hsig.
  apply emits_at_try.
  - apply emits_at_send_bind; [apply Hrq; exact Hsig|]. intros resp.
    apply emits_at_lift_bind. intros data _.
    apply emits_at_lift_bind. intros accepted _.
    destruct accepted; apply emits_at_emit; apply P_log.
  - intros e d _. apply emits_at_emit. apply P_log.
Qed.

Lemma gcbex_cancel_order_emits (order : pyval) h :
  (forall order_id signature,
     GCBEX.sign rt cfg (stamp E h) "POST" "/sapi/v2/cancel"
       (json_dumps rt (GCBEX.cancel_body cfg order_id)) = Ok signature ->
     P h (Http (GCBEX.cancel_request cfg (stamp E h) signature
                  (json_dumps rt (GCBEX.cancel_body cfg order_id))))) ->
  emits_at P h (GCBEX.cancel_order rt E cfg order).
Proof.
  intros Hrq. unfold GCBEX.cancel_order. apply emits_at_time_bind.
  apply emits_at_lift_bind. intros order_id _.
  apply emits_at_lift_bind. intros signature Hsig.
  apply emits_at_send_bind; [apply Hrq; exact Hsig|]. intros resp.
  apply emits_at_lift_bind. intros cancel_result _.
  apply emits_at_lift_bind. intros has_status _.
  apply emits_at_bind.
  { destruct has_status; [|apply emits_at_ret].
    apply emits_at_lift_bind. intros status _. apply emits_at_ret. }
  intros canceled d _. destruct canceled; apply emits_at_emit; apply P_log.
Qed.

Lemma gcbex_cancel_all_emits h :
  (forall signature,
     GCBEX.sign rt cfg (stamp E h) "GET" "/sapi/v2/openOrders" "" = Ok signature ->
     P h (Http (GCBEX.open_orders_request cfg (stamp E h) signature))) ->
  (forall h' order_id signature,
     GCBEX.sign rt cfg (stamp E h') "POST" "/sapi/v2/cancel"
       (json_dumps rt (GCBEX.cancel_body cfg order_id)) = Ok signature ->
     P h' (Http (GCBEX.cancel_request cfg (stamp E h') signature
                   (json_dumps rt (GCBEX.cancel_body cfg order_id))))) ->
  emits_at P h (GCBEX.cancel_all_orders rt E cfg).
Proof.
  intros Hlist Hcancel. unfold GCBEX.cancel_all_orders. apply emits_at_try.
  - apply emits_at_time_bind. apply emits_at_lift_bind. intros signature Hsig.
    apply emits_at_send_bind; [apply Hlist; exact Hsig|]. intros resp.
    apply emits_at_lift_bind. intros orders _.
    destruct orders; try (apply emits_at_emit; apply P_log).
    + apply emits_at_for_each. intros order h' _.
      apply gcbex_cancel_order_emits. apply Hcancel.
    + destruct (PyDict.mem d "code"); apply emits_at_emit; apply P_log.
  - intros e d _. apply emits_at_emit. apply P_log.
Qed.

End EmitsHeader.

Section EmitsQuery.

Variable P : list event -> event -> Prop.
Hypothesis P_log : forall h lvl msg, P h (Log lvl msg).

Variable rt : runtime.
Variable E : env.
Variable cfg : config.

Lemma mexc_get_balance_emits (asset : string) h :
  (forall params,
     MEXC.signed rt cfg [("timestamp", PInt (clock_ms E h))] = Ok params ->
     P h (Http (MEXC.account_request cfg params))) ->
  emits_at P h (MEXC.get_balance rt E cfg asset).
Proof.
  intros Hrq. unfold MEXC.get_balance. apply emits_at_time_bind.
  apply emits_at_lift_bind. intros params Hsig.
  apply balance_from_emits; [exact P_log | apply Hrq; exact Hsig].
Qed.

Lemma mexc_place_order_emits (side : string) (price : float) h :
  (forall params,
     MEXC.signed rt cfg (MEXC.order_params rt cfg side price (clock_ms E h)) = Ok params ->
     P h (Http (MEXC.order_request cfg POST params))) ->
  emits_at P h (MEXC.place_order rt E cfg side price).
Proof.
  intros Hrq. unfold MEXC.place_order. apply emits_at_time_bind.
  apply emits_at_lift_bind. intros params Hsig.
  apply emits_at_try.
  - apply emits_at_send_bind; [apply Hrq; exact Hsig|]. intros resp.
    apply emits_at_lift_bind. intros data _.
    apply emits_at_lift_bind. intros accepted _.
    destruct accepted; apply emits_at_emit; apply P_log.
  - intros e d _. apply emits_at_emit. apply P_log.
Qed.

Lemma mexc_cancel_order_emits (order : pyval) h :
  (forall order_id params,
     MEXC.signed rt cfg [("symbol", env_val (SYMBOL cfg));
                         ("orderId", order_id);
                         ("timestamp", PInt (clock_ms E h))] = Ok params ->
     P h (Http (MEXC.order_request cfg DELETE params))) ->
  emits_at P h (MEXC.cancel_order rt E cfg order).
Proof.
  intros Hrq. unfold MEXC.cancel_order.
  apply emits_at_lift_bind. intros order_id _.
  apply emits_at_time_bind.
  apply emits_at_lift_bind. intros params Hsig.
  apply emits_at_send_bind; [apply (Hrq order_id); exact Hsig|]. intros resp.
  apply emits_at_lift_bind. intros order_id' _.
  apply emits_at_lift_bind. intros side _.
  apply emits_at_emit. apply P_log.
Qed.

Lemma mexc_cancel_all_emits h :
  (forall params,
     MEXC.signed rt cfg [("symbol", env_val (SYMBOL cfg)); ("timestamp", PInt (clock_ms E h))]
     = Ok params ->
     P h (Http (MEXC.open_orders_request cfg params))) ->
  (forall h' order_id params,
     MEXC.signed rt cfg [("symbol", env_val (SYMBOL cfg));
                         ("orderId", order_id);
                         ("timestamp", PInt (clock_ms E h'))] = Ok params ->
     P h' (Http (MEXC.order_request cfg DELETE params))) ->
  emits_at P h (MEXC.cancel_all_orders rt E cfg).
Proof.
  intros Hlist Hcancel. unfold MEXC.cancel_all_orders.
  apply emits_at_time_bind. apply emits_at_lift_bind. intros params Hsig.
  apply emits_at_try.
  - apply emits_at_send_bind; [apply Hlist; exact Hsig|]. intros resp.
    apply emits_at_lift_bind. intros orders _.
    destruct orders; try (apply emits_at_emit; apply P_log).
    + apply emits_at_for_each. intros order h' _.
      apply mexc_cancel_order_emits. apply Hcancel.
    + destruct (PyDict.mem d "code"); apply emits_at_emit; apply P_log.
  - intros e d _. apply emits_at_emit. apply P_log.
Qed.

End EmitsQuery.

(** ** Everything the loop emits *)

(** X5: whatever the exchange answers and however many turns the loop of
    the header variant runs, each event is a log line, a pause of ten
    seconds, an alert to a configured subscriber, the request for the
    price, or a request to an authenticated endpoint that carries the
    clock read just before it is sent and the signature of that timestamp,
    its method, its path and the very body it sends; the only orders are
    BUY at the bid and SELL at the ask of the configured quote. *)
Theorem gcbex_main_footprint (rt : runtime) (E : env) (cfg : config) (n : nat)
  (h : list event) :
  each_event (gcbex_event rt E cfg) h (snd (GCBEX.main rt E cfg n h)).
Proof.
  assert (L : forall h' lvl msg, gcbex_event rt E cfg h' (Log lvl msg))
    by (intros; constructor).
  assert (A : forall h' user_id message,
             In user_id (TELEGRAM_USER_IDS cfg) ->
             gcbex_event rt E cfg h' (Http (alert_request cfg user_id message)))
    by (intros; constructor; assumption).
  apply (main_emits (gcbex_event rt E cfg) L E cfg A rt).
  - intros h'. constructor.
  - intros h'. apply price_from_emits; try assumption. constructor.
  - intros h'. apply gcbex_cancel_all_emits; try assumption.
    + intros sg Hsg. constructor. exact Hsg.
    + intros h2 order_id sg Hsg. constructor. exact Hsg.
  - intros asset h'. apply gcbex_get_balance_emits; try assumption.
    intros sg Hsg. constructor. exact Hsg.
  - intros h'. apply gcbex_place_order_emits; try assumption.
    intros sg Hsg. apply gcbex_buys. exact Hsg.
  - intros h'. apply gcbex_place_order_emits; try assumption.
    intros sg Hsg. apply gcbex_sells. exact Hsg.
Qed.

(** X6: the same for the query variant: each request to an authenticated
    endpoint carries its parameters, with the clock read just before it is
    sent, and the signature of exactly these parameters; the only orders
    are BUY at the bid and SELL at the ask of the configured quote. *)
Theorem mexc_main_footprint (rt : runtime) (E : env) (cfg : config) (n : nat)
  (h : list event) :
  each_event (mexc_event rt E cfg) h (snd (MEXC.main rt E cfg n h)).
Proof.
  assert (L : forall h' lvl msg, mexc_event rt E cfg h' (Log lvl msg))
    by (intros; constructor).
  assert (A : forall h' user_id message,
             In user_id (TELEGRAM_USER_IDS cfg) ->
             mexc_event rt E cfg h' (Http (alert_request cfg user_id message)))
    by (intros; constructor; assumption).
  apply (main_emits (mexc_event rt E cfg) L E cfg A rt).
  - intros h'. constructor.
  - intros h'. apply price_from_emits; try assumption. constructor.
  - intros h'. apply mexc_cancel_all_emits; try assumption.
    + intros ps Hps. constructor. exact Hps.
    + intros h2 order_id ps Hps. apply (mexc_cancels rt E cfg h2 order_id). exact Hps.
  - intros asset h'. apply mexc_get_balance_emits; try assumption.
    intros ps Hps. constructor. exact Hps.
  - intros h'. apply mexc_place_order_emits; try assumption.
    intros ps Hps. apply mexc_buys. exact Hps.
  - intros h'. apply mexc_place_order_emits; try assumption.
    intros ps Hps. apply mexc_sells. exact Hps.
Qed.

Lemma sign_without_secret (rt : runtime) (cfg : config) :
  API_SECRET cfg = None ->
  (forall t m p b s, GCBEX.sign rt cfg t m p b <> Ok s) /\
  (forall params ps, MEXC.signed rt cfg params <> Ok ps).
Proof.
  intros Hn. split.
  - intros t m p b s. unfold GCBEX.sign. rewrite Hn. discriminate.
  - intros params ps. unfold MEXC.signed, MEXC.sign. rewrite mexc_query_ok.
    cbn [rbind]. rewrite Hn. discriminate.
Qed.

(** X7: without the secret, no request reaches an authenticated endpoint,
    in any number of turns of either variant: everything sent is the
    request for the price or an alert. *)
Theorem no_secret_no_authenticated_request (rt : runtime) (E : env) (cfg : config)
  (n : nat) (h : list event) :
  API_SECRET cfg = None ->
  each_event (public_event cfg (GCBEX.ticker_request cfg)) h (snd (GCBEX.main rt E cfg n h)) /\
  each_event (public_event cfg (MEXC.ticker_request cfg)) h (snd (MEXC.main rt E cfg n h)).
Proof.
  intros Hn. destruct (sign_without_secret rt cfg Hn) as [Hg Hm].
  split.
  - assert (L : forall h' lvl msg,
               public_event cfg (GCBEX.ticker_request cfg) h' (Log lvl msg)) by (intros; exact I).
    assert (A : forall h' user_id message,
               In user_id (TELEGRAM_USER_IDS cfg) ->
               public_event cfg (GCBEX.ticker_request cfg) h'
                 (Http (alert_request cfg user_id message)))
      by (intros; right; eexists _, _; reflexivity).
    apply (main_emits _ L E cfg A rt).
    + intros h'. exact I.
    + intros h'. apply price_from_emits; try assumption. left. reflexivity.
    + intros h'. apply gcbex_cancel_all_emits; try assumption.
      * intros sg Hsg. destruct (Hg _ _ _ _ _ Hsg).
      * intros h2 order_id sg Hsg. destruct (Hg _ _ _ _ _ Hsg).
    + intros asset h'. apply gcbex_get_balance_emits; try assumption.
      intros sg Hsg. destruct (Hg _ _ _ _ _ Hsg).
    + intros h'. apply gcbex_place_order_emits; try assumption.
      intros sg Hsg. destruct (Hg _ _ _ _ _ Hsg).
    + intros h'. apply gcbex_place_order_emits; try assumption.
      intros sg Hsg. destruct (Hg _ _ _ _ _ Hsg).
  - assert (L : forall h' lvl msg,
               public_event cfg (MEXC.ticker_request cfg) h' (Log lvl msg)) by (intros; exact I).
    assert (A : forall h' user_id message,
               In user_id (TELEGRAM_USER_IDS cfg) ->
               public_event cfg (MEXC.ticker_request cfg) h'
                 (Http (alert_request cfg user_id message)))
      by (intros; right; eexists _, _; reflexivity).
    apply (main_emits _ L E cfg A rt).
    + intros h'. exact I.
    + intros h'. apply price_from_emits; try assumption. left. reflexivity.
    + intros h'. apply mexc_cancel_all_emits; try assumption.
      * intros ps Hps. destruct (Hm _ _ Hps).
      * intros h2 order_id ps Hps. destruct (Hm _ _ Hps).
    + intros asset h'. apply mexc_get_balance_emits; try assumption.
      intros ps Hps. destruct (Hm _ _ Hps).
    + intros h'. apply mexc_place_order_emits; try assumption.
      intros ps Hps. destruct (Hm _ _ Hps).
    + intros h'. apply mexc_place_order_emits; try assumption.
      intros ps Hps. destruct (Hm _ _ Hps).
Qed.

Lemma no_secret_no_authenticated_request_witness :
  each_event (public_event (without_secret Sample.cfg)
                (GCBEX.ticker_request (without_secret Sample.cfg))) []
    (snd (GCBEX.main Sample.rt (Sample.exchange Sample.rejected)
            (without_secret Sample.cfg) 2 [])) /\
  map rq_url (requests_of (snd (GCBEX.main Sample.rt (Sample.exchange Sample.rejected)
                                  (without_secret Sample.cfg) 1 [])))
  = ["https://exchange.test/sapi/v2/ticker";
     "https://api.telegram.org/bottoken/sendMessage";
     "https://api.telegram.org/bottoken/sendMessage"].
Proof.
  split.
  - exact (proj1 (no_secret_no_authenticated_request Sample.rt (Sample.exchange Sample.rejected)
                    (without_secret Sample.cfg) 2 [] eq_refl)).
  - vm_compute. reflexivity.
Defined.

(** ** The time a turn takes *)

Lemma slept_app (d1 d2 : list event) : slept (d1 ++ d2)%list = (slept d1 + slept d2)%Z.
Proof.
  induction d1 as [|[rq|l m|n] d1 IH]; cbn [slept app]; rewrite ?IH; lia.
Qed.

Lemma quiet_slept (h d : list event) : each_event not_a_pause h d -> slept d = 0%Z.
Proof.
  revert h. induction d as [|[rq|l m|n] d IH]; intros h; cbn [each_event slept].
  - reflexivity.
  - intros [_ H]. exact (IH _ H).
  - intros [_ H]. exact (IH _ H).
  - intros [[] _].
Qed.

Lemma spends_quiet {A} (m : M A) :
  (forall h, emits_at not_a_pause h m) -> spends 0 0 m.
Proof.
  intros Hq h. rewrite (quiet_slept h _ (Hq h)). destruct (fst (m h)); lia.
Qed.

Lemma spends_sleep (secs : Z) : spends secs 0 (sleep secs).
Proof. intros h. cbn. lia. Qed.

Lemma spends_bind {A B} (m : M A) (k : A -> M B) (n1 f1 n2 f2 : Z) :
  (0 <= n1)%Z ->
  spends n1 f1 m -> (forall a, spends n2 f2 (k a)) ->
  spends (n1 + n2) (Z.max f1 (n1 + f2)) (bind m k).
Proof.
  intros Hn Hm Hk h. specialize (Hm h). unfold bind.
  destruct (m h) as [[a|e] d1]; cbn [fst snd] in *.
  - specialize (Hk a (h ++ d1)%list).
    destruct (k a (h ++ d1)%list) as [[b|e] d2]; cbn [fst snd] in *;
      rewrite slept_app; lia.
  - lia.
Qed.

Lemma spends_eq {A} (m : M A) (n f n' f' : Z) :
  spends n f m -> n = n' -> f = f' -> spends n' f' m.
Proof. intros H <- <-. exact H. Qed.

Section Pauses.

Variable rt : runtime.
Variable E : env.
Variable cfg : config.
Variable get_price : M float.
Variable cancel_all_orders : M unit.
Variable get_balance : string -> M float.
Variable place_order : string -> float -> M unit.

Hypothesis get_price_quiet : forall h, emits_at not_a_pause h get_price.
Hypothesis cancel_quiet : forall h, emits_at not_a_pause h cancel_all_orders.
Hypothesis get_balance_quiet : forall asset h, emits_at not_a_pause h (get_balance asset).
Hypothesis place_order_quiet : forall side price h, emits_at not_a_pause h (place_order side price).

Let body : M unit := cycle rt E cfg get_price cancel_all_orders get_balance place_order.
Let turn : M unit := main_iteration rt E cfg get_price cancel_all_orders get_balance place_order.

Lemma alert_quiet (message : string) h :
  emits_at not_a_pause h (send_telegram_alert E cfg message).
Proof. apply send_telegram_alert_emits; intros; exact I. Qed.

Lemma evaluate_buy_quiet quote_asset quote_balance bid_price :
  spends 0 0 (evaluate_buy rt E cfg place_order quote_asset quote_balance bid_price).
Proof.
  apply spends_quiet. intros h. unfold evaluate_buy.
  destruct (PyFloat.ge _ _); [apply place_order_quiet|].
  apply emits_at_emit_bind; [exact I|]. apply alert_quiet.
Qed.

Lemma evaluate_sell_quiet base_asset base_balance ask_price :
  spends 0 0 (evaluate_sell rt E cfg place_order base_asset base_balance ask_price).
Proof.
  apply spends_quiet. intros h. unfold evaluate_sell.
  destruct (PyFloat.ge _ _); [apply place_order_quiet|].
  apply emits_at_emit_bind; [exact I|]. apply alert_quiet.
Qed.

(** A cycle that returns has paused sixty seconds; one that raises has
    paused fifty at most. *)
Lemma cycle_spends : spends 60 50 body.
Proof.
  unfold body, cycle.
  eapply spends_eq.
  - eapply spends_bind; [| apply spends_quiet; exact get_price_quiet | intros current_price].
    2: eapply spends_bind; [| apply spends_sleep | intros _].
    3: eapply spends_bind; [| apply spends_quiet; intros h; apply emits_at_emit; exact I | intros _].
    4: eapply spends_bind; [| apply spends_quiet; exact cancel_quiet | intros _].
    5: eapply spends_bind; [| apply spends_sleep | intros _].
    6: eapply spends_bind; [| apply spends_quiet; intros h; apply emits_at_lift | intros assets].
    7: eapply spends_bind; [| apply spends_quiet; apply get_balance_quiet | intros base_balance].
    8: eapply spends_bind; [| apply spends_sleep | intros _].
    9: eapply spends_bind; [| apply spends_quiet; apply get_balance_quiet | intros quote_balance].
    10: eapply spends_bind; [| apply spends_sleep | intros _].
    11: eapply spends_bind; [| apply evaluate_buy_quiet | intros _].
    12: eapply spends_bind; [| apply spends_sleep | intros _].
    13: eapply spends_bind; [| apply evaluate_sell_quiet | intros _].
    14: apply spends_sleep.
    all: lia.
  - reflexivity.
  - reflexivity.
Qed.

(** The handler pauses ten seconds and returns. *)
Lemma on_error_spends (e : exn) h :
  fst (on_error E cfg e h) = Ok tt /\ slept (snd (on_error E cfg e h)) = 10%Z.
Proof.
  destruct (on_error_never_raises E cfg e h) as ([] & d & H).
  assert (S : spends (0 + (0 + 10)) (Z.max 0 (0 + Z.max 0 (0 + 0))) (on_error E cfg e)).
  { unfold on_error.
    apply spends_bind; [lia | apply spends_quiet; intros h'; apply emits_at_emit; exact I | intros _].
    apply spends_bind; [lia | apply spends_quiet; intros h'; apply alert_quiet | intros _].
    apply spends_sleep. }
  specialize (S h). rewrite H in S. rewrite H. cbn [fst snd] in *.
  split; [reflexivity | exact S].
Qed.

Lemma turn_spends h :
  (10 <= slept (snd (turn h)) <= 60)%Z /\
  (fst (body h) = Ok tt -> slept (snd (turn h)) = 60%Z).
Proof.
  pose proof (cycle_spends h) as Hc.
  unfold turn, main_iteration, try_except. fold body.
  destruct (body h) as [[[]|e] d] eqn:Hb; cbn [fst snd] in *.
  - split; [lia | intros _; exact Hc].
  - destruct (on_error_spends e (h ++ d)%list) as [_ Hs].
    destruct (on_error E cfg e (h ++ d)%list) as [r d']. cbn [fst snd] in *.
    rewrite slept_app. split; [lia | discriminate].
Qed.

End Pauses.

Lemma gcbex_operations_quiet (rt : runtime) (E : env) (cfg : config) :
  (forall h, emits_at not_a_pause h (GCBEX.get_price rt E cfg)) /\
  (forall h, emits_at not_a_pause h (GCBEX.cancel_all_orders rt E cfg)) /\
  (forall asset h, emits_at not_a_pause h (GCBEX.get_balance rt E cfg asset)) /\
  (forall side price h, emits_at not_a_pause h (GCBEX.place_order rt E cfg side price)).
Proof.
  repeat split; intros.
  - apply price_from_emits; intros; exact I.
  - apply gcbex_cancel_all_emits; intros; exact I.
  - apply gcbex_get_balance_emits; intros; exact I.
  - apply gcbex_place_order_emits; intros; exact I.
Qed.

Lemma mexc_operations_quiet (rt : runtime) (E : env) (cfg : config) :
  (forall h, emits_at not_a_pause h (MEXC.get_price rt E cfg)) /\
  (forall h, emits_at not_a_pause h (MEXC.cancel_all_orders rt E cfg)) /\
  (forall asset h, emits_at not_a_pause h (MEXC.get_balance rt E cfg asset)) /\
  (forall side price h, emits_at not_a_pause h (MEXC.place_order rt E cfg side price)).
Proof.
  repeat split; intros.
  - apply price_from_emits; intros; exact I.
  - apply mexc_cancel_all_emits; intros; exact I.
  - apply mexc_get_balance_emits; intros; exact I.
  - apply mexc_place_order_emits; intros; exact I.
Qed.

(** X8: a turn of the loop pauses sixty seconds when its cycle completes,
    and between ten and sixty seconds in every case, whatever the exchange
    answers: the client operations never pause, the cycle pauses ten
    seconds after each of its six steps, and the handler of a caught
    exception pauses ten seconds once. Both variants. *)
Theorem turn_pause_time (rt : runtime) (E : env) (cfg : config) (h : list event) :
  ((10 <= slept (snd (GCBEX.main_iteration rt E cfg h)) <= 60)%Z /\
   (fst (GCBEX.cycle rt E cfg h) = Ok tt ->
    slept (snd (GCBEX.main_iteration rt E cfg h)) = 60%Z)) /\
  ((10 <= slept (snd (MEXC.main_iteration rt E cfg h)) <= 60)%Z /\
   (fst (MEXC.cycle rt E cfg h) = Ok tt ->
    slept (snd (MEXC.main_iteration rt E cfg h)) = 60%Z)).
Proof.
  destruct (gcbex_operations_quiet rt E cfg) as (G1 & G2 & G3 & G4).
  destruct (mexc_operations_quiet rt E cfg) as (M1 & M2 & M3 & M4).
  split.
  - exact (turn_spends rt E cfg _ _ _ _ G1 G2 G3 G4 h).
  - exact (turn_spends rt E cfg _ _ _ _ M1 M2 M3 M4 h).
Qed.

Lemma turn_pause_time_witness :
  slept (snd (GCBEX.main_iteration Sample.rt (Sample.exchange Sample.rejected) Sample.cfg [])) = 60%Z /\
  slept (snd (MEXC.main_iteration Sample.rt (Sample.exchange Sample.rejected) Sample.cfg [])) = 60%Z.
Proof.
  destruct (turn_pause_time Sample.rt (Sample.exchange Sample.rejected) Sample.cfg [])
    as [[_ G] [_ M]].
  split; [apply G | apply M]; vm_compute; reflexivity.
Defined.

(** ** The notifier *)

Lemma deliver_run (E : env) (cfg : config) (message u : string) h :
  deliver E cfg u message h
  = (Ok tt, delivery cfg message u (respond E h (alert_request cfg u message))).
Proof.
  unfold deliver, delivery, try_except, bind, send, ret, log, emit.
  destruct (respond E h (alert_request cfg u message)) as [e|r]; reflexivity.
Qed.

Lemma delivery_traces (cfg : config) (message u : string) (r : reply) :
  requests_of (delivery cfg message u r) = [alert_request cfg u message] /\
  logged INFO (delivery cfg message u r) = [] /\
  logged WARNING (delivery cfg message u r) = [] /\
  slept (delivery cfg message u r) = 0%Z /\
  logged ERROR (delivery cfg message u r)
  = match r with Fails e => ["Telegram error: " ++ exn_str e] | Answers _ => [] end.
Proof. destruct r; repeat split; reflexivity. Qed.

(** X1: the notifier never raises and never pauses; it posts to each
    subscriber once, in the configured order, and calls nothing else; it
    logs nothing below the error level and at most one error per
    subscriber. A delivery that fails is logged and the next subscriber is
    still served: if every delivery fails, there is one error line per
    subscriber; if every one is answered, whatever the answer says,
    nothing is logged. *)
Theorem notifier_serves_every_subscriber (E : env) (cfg : config) (message : string)
  (h : list event) :
  exists d,
    send_telegram_alert E cfg message h = (Ok tt, d) /\
    requests_of d = map (fun u => alert_request cfg u message) (TELEGRAM_USER_IDS cfg) /\
    exchange_calls d = [] /\
    logged INFO d = [] /\ logged WARNING d = [] /\ slept d = 0%Z /\
    List.length (logged ERROR d) <= List.length (TELEGRAM_USER_IDS cfg) /\
    ((forall h' u, exists resp, respond E h' (alert_request cfg u message) = Answers resp) ->
     logged ERROR d = []) /\
    (forall e, (forall h' u, respond E h' (alert_request cfg u message) = Fails e) ->
               logged ERROR d
               = map (fun _ => "Telegram error: " ++ exn_str e) (TELEGRAM_USER_IDS cfg)).
Proof.
  unfold send_telegram_alert.
  assert (G : forall us h,
             exists d,
               for_each us (fun u => deliver E cfg u message) h = (Ok tt, d) /\
               requests_of d = map (fun u => alert_request cfg u message) us /\
               logged INFO d = [] /\ logged WARNING d = [] /\ slept d = 0%Z /\
               List.length (logged ERROR d) <= List.length us /\
               ((forall h' u, exists resp,
                    respond E h' (alert_request cfg u message) = Answers resp) ->
                logged ERROR d = []) /\
               (forall e, (forall h' u, respond E h' (alert_request cfg u message) = Fails e) ->
                          logged ERROR d
                          = map (fun _ => "Telegram error: " ++ exn_str e) us)).
  { induction us as [|u us IH]; intros h0.
    - exists []. repeat split; reflexivity.
    - set (r := respond E h0 (alert_request cfg u message)).
      destruct (delivery_traces cfg message u r) as (R1 & I1 & W1 & S1 & E1).
      destruct (IH (h0 ++ delivery cfg message u r)%list)
        as (d2 & H2 & R2 & I2 & W2 & S2 & L2 & A2 & F2).
      exists (delivery cfg message u r ++ d2)%list. split.
      + cbn [for_each].
        exact (bind_ok _ _ h0 tt _ (Ok tt) d2 (deliver_run E cfg message u h0) H2).
      + rewrite requests_of_app, !logged_app, slept_app, R1, R2, I1, I2, W1, W2, S1, S2, E1.
        repeat split; try reflexivity.
        * rewrite length_app. destruct r; cbn [List.length]; lia.
        * intros Hans. rewrite (A2 Hans). destruct (Hans h0 u) as [resp Hresp].
          fold r in Hresp. rewrite Hresp. reflexivity.
        * intros e Hf. rewrite (F2 e Hf). unfold r. rewrite (Hf h0 u). reflexivity. }
  destruct (G (TELEGRAM_USER_IDS cfg) h) as (d & Hd & R & I0 & W & S & L & A & F).
  exists d. repeat split; try assumption.
  unfold exchange_calls. rewrite R.
  exact (proj2 (alert_requests_are_alerts cfg message (TELEGRAM_USER_IDS cfg))).
Qed.

Lemma notifier_serves_every_subscriber_witness :
  exists d,
    send_telegram_alert Sample.offline Sample.cfg "down" [] = (Ok tt, d) /\
    logged ERROR d = ["Telegram error: connection refused"].
Proof.
  destruct (notifier_serves_every_subscriber Sample.offline Sample.cfg "down" [])
    as (d & Hd & _ & _ & _ & _ & _ & _ & _ & Hfail).
  exists d. split; [exact Hd|].
  exact (Hfail (RequestError "ConnectionError" "connection refused") (fun _ _ => eq_refl)).
Defined.

(** ** What fetching the price does *)

Lemma price_from_effects (rt : runtime) (E : env) (cfg : config) (rq : request)
  (field : string) h :
  rq_json rq = None ->
  price_effects rt E cfg rq field h (price_from rt E cfg rq field h).
Proof.
  intros Hrq.
  assert (Hna : is_alert rq = false) by (unfold is_alert; rewrite Hrq; reflexivity).
  assert (X : forall lvl msg, exchange_calls [Http rq; Log lvl msg] = [rq]).
  { intros. unfold exchange_calls. cbn [requests_of filter]. rewrite Hna. reflexivity. }
  unfold price_effects, price_from, try_except.
  unfold bind at 1, send.
  destruct (respond E h rq) as [e|[m|data]] eqn:Hr.
  - eexists _, _. split; [reflexivity|]. split; [apply X|]. right. split; [reflexivity|].
    split; [intros q (data & v & Hq & _); discriminate|].
    eexists _, _. split; [reflexivity | discriminate].
  - cbn [lift json_of bind]. eexists _, _. split; [reflexivity|]. split; [apply X|].
    right. split; [reflexivity|].
    split; [intros q (data & v & Hq & _); discriminate|].
    eexists _, _. split; [reflexivity | discriminate].
  - unfold bind at 1. cbn [lift json_of]. unfold bind at 1. cbn [lift].
    destruct (py_in field data) as [[|]|e] eqn:Hin.
    + unfold bind at 1. cbn [lift].
      destruct (py_getitem data field) as [v|e] eqn:Hg; cbn [rbind].
      * destruct (py_float rt v) as [q|e] eqn:Hf.
        -- match goal with
           | |- context [bind (send_telegram_alert E cfg ?msg) ?k ?hh] =>
               destruct (send_telegram_alert_requests E cfg msg hh) as (a & Ha & Ra & Wa & Ia);
               rewrite (bind_ok (send_telegram_alert E cfg msg) k hh tt a (Ok q) [] Ha eq_refl);
               pose proof (alert_requests_are_alerts cfg msg (TELEGRAM_USER_IDS cfg)) as [Al Ex]
           end.
           eexists _, _. split; [reflexivity|].
           cbn [app]. rewrite !app_nil_r.
           unfold exchange_calls, alerts. cbn [requests_of filter logged]. rewrite Hna, Ra.
           cbn [negb]. rewrite Al, Ex. split; [reflexivity|]. left.
           split; [exists data, v; auto|]. repeat split; assumption.
        -- eexists _, _. split; [reflexivity|]. split; [apply X|]. right.
           split; [reflexivity|]. split.
           ++ intros q' (data' & v' & Hq & Hg' & Hf'). inversion Hq; subst. congruence.
           ++ eexists _, _. split; [reflexivity | discriminate].
      * eexists _, _. split; [reflexivity|]. split; [apply X|]. right.
        split; [reflexivity|]. split.
        -- intros q' (data' & v' & Hq & Hg' & Hf'). inversion Hq; subst. congruence.
        -- eexists _, _. split; [reflexivity | discriminate].
    + unfold bind at 1. cbn [log emit ret]. eexists _, _. split; [reflexivity|].
      split; [apply X|]. right. split; [reflexivity|]. split.
      * intros q' (data' & v' & Hq & Hg' & Hf'). inversion Hq; subst.
        apply py_getitem_in in Hg'. congruence.
      * eexists _, _. split; [reflexivity | discriminate].
    + eexists _, _. split; [reflexivity|]. split; [apply X|]. right.
      split; [reflexivity|]. split.
      * intros q' (data' & v' & Hq & Hg' & Hf'). inversion Hq; subst.
        apply py_getitem_in in Hg'. congruence.
      * eexists _, _. split; [reflexivity | discriminate].
Qed.

(** X2: fetching the price calls the exchange once, with the request for
    the ticker, which is not signed. When the reply carries a price, that
    price is returned and announced to each subscriber; in every other
    case the target price is returned, nobody is alerted and one line is
    logged above the info level. Both variants. *)
Theorem get_price_announces_remote_price_only (rt : runtime) (E : env) (cfg : config)
  (h : list event) :
  price_effects rt E cfg (GCBEX.ticker_request cfg) "last" h (GCBEX.get_price rt E cfg h) /\
  price_effects rt E cfg (MEXC.ticker_request cfg) "price" h (MEXC.get_price rt E cfg h) /\
  rq_headers (GCBEX.ticker_request cfg) = [] /\
  rq_headers (MEXC.ticker_request cfg) = [].
Proof.
  repeat split; try reflexivity; apply price_from_effects; reflexivity.
Qed.

(** ** Which cycles complete *)




Lemma never_raises_lift_ok {A} (a : A) : never_raises (lift (Ok a)).
Proof. intros h. exists a, []. reflexivity. Qed.

Section Completes.

Variable rt : runtime.
Variable E : env.
Variable cfg : config.
Variable place_order : string -> float -> M unit.
Variable get_balance : string -> M float.

Hypothesis place_order_returns : forall side price, never_raises (place_order side price).
Hypothesis get_balance_returns : forall asset, never_raises (get_balance asset).




End Completes.









(** ** A listing without orders *)

Lemma listing_outcome_failed (listing : request) (r : reply) (msg : string) :
  (forall v, r <> Answers (Json v)) ->
  listing_outcome listing r (Ok tt, [Http listing; Log ERROR msg]).
Proof.
  intros Hr. split.
  - intros ->. destruct (Hr _ eq_refl).
  - intros _. exists ERROR, msg. split; [reflexivity|]. split; [discriminate|].
    split; [intros _; exact Hr | reflexivity].
Qed.

Lemma listing_outcome_unexpected (listing : request) (v : pyval) (msg : string) :
  (forall orders, v <> PList orders) ->
  listing_outcome listing (Answers (Json v)) (Ok tt, [Http listing; Log WARNING msg]).
Proof.
  intros Hv. split.
  - intros H. inversion H as [Hl]. destruct (Hv _ Hl).
  - intros _. exists WARNING, msg. split; [reflexivity|]. split; [discriminate|].
    split; [discriminate | intros H; destruct (H v eq_refl)].
Qed.

Lemma listing_outcome_empty (listing : request) (run : result unit * list event) :
  run = (Ok tt, [Http listing]) ->
  listing_outcome listing (Answers (Json (PList []))) run.
Proof.
  intros Hrun. split.
  - intros _. exact Hrun.
  - intros H. destruct (H [] eq_refl).
Qed.

Lemma listing_outcome_some (listing : request) (order : pyval) (orders : list pyval)
  (run : result unit * list event) :
  listing_outcome listing (Answers (Json (PList (order :: orders)))) run.
Proof.
  split.
  - intros H. discriminate H.
  - intros H. destruct (H _ eq_refl).
Qed.

(** X4: when the listing of the open orders holds no order, nothing is
    cancelled: the only request is the listing itself. On an empty list
    nothing is logged; on any reply that is not a list, one line is
    logged, an error when the reply is no JSON document (or no reply at
    all), a warning otherwise, and the operation returns. Both variants,
    for the listing request they build and sign at the time of the call. *)
Theorem cancel_all_orders_without_orders (rt : runtime) (E : env) (cfg : config)
  (h : list event) (signature : string) (params : PyDict.dict)
  (Hsignature : GCBEX.sign rt cfg (stamp E h) "GET" "/sapi/v2/openOrders" "" = Ok signature)
  (Hparams : MEXC.signed rt cfg [("symbol", env_val (SYMBOL cfg));
                                 ("timestamp", PInt (clock_ms E h))] = Ok params) :
  listing_outcome (GCBEX.open_orders_request cfg (stamp E h) signature)
    (respond E h (GCBEX.open_orders_request cfg (stamp E h) signature))
    (GCBEX.cancel_all_orders rt E cfg h) /\
  listing_outcome (MEXC.open_orders_request cfg params)
    (respond E h (MEXC.open_orders_request cfg params))
    (MEXC.cancel_all_orders rt E cfg h).
Proof.
  split.
  - unfold GCBEX.cancel_all_orders, try_except. rewrite bind_time.
    fold (stamp E h). rewrite Hsignature, bind_lift_ok.
    unfold bind at 1, send.
    destruct (respond E h (GCBEX.open_orders_request cfg (stamp E h) signature))
      as [e|[m|v]].
    + apply listing_outcome_failed. discriminate.
    + cbn [bind lift json_of]. apply listing_outcome_failed. discriminate.
    + unfold bind at 1. cbn [lift json_of].
      destruct v as [| | | | |l|d];
        try (apply listing_outcome_unexpected; discriminate).
      * destruct l as [|order l]; [|apply listing_outcome_some].
        apply listing_outcome_empty. reflexivity.
      * destruct (PyDict.mem d "code"); apply listing_outcome_unexpected; discriminate.
  - unfold MEXC.cancel_all_orders. rewrite bind_time, Hparams, bind_lift_ok.
    unfold try_except, bind at 1, send.
    destruct (respond E h (MEXC.open_orders_request cfg params)) as [e|[m|v]].
    + apply listing_outcome_failed. discriminate.
    + cbn [bind lift json_of]. apply listing_outcome_failed. discriminate.
    + unfold bind at 1. cbn [lift json_of].
      destruct v as [| | | | |l|d];
        try (apply listing_outcome_unexpected; discriminate).
      * destruct l as [|order l]; [|apply listing_outcome_some].
        apply listing_outcome_empty. reflexivity.
      * destruct (PyDict.mem d "code"); apply listing_outcome_unexpected; discriminate.
Qed.

Lemma cancel_all_orders_without_orders_witness :
  exists signature params,
    GCBEX.sign Sample.rt Sample.cfg (stamp Sample.offline []) "GET" "/sapi/v2/openOrders" ""
    = Ok signature /\
    MEXC.signed Sample.rt Sample.cfg
      [("symbol", env_val (SYMBOL Sample.cfg));
       ("timestamp", PInt (clock_ms Sample.offline []))] = Ok params /\
    listing_outcome (GCBEX.open_orders_request Sample.cfg (stamp Sample.offline []) signature)
      (respond Sample.offline [] (GCBEX.open_orders_request Sample.cfg (stamp Sample.offline []) signature))
      (GCBEX.cancel_all_orders Sample.rt Sample.offline Sample.cfg []) /\
    listing_outcome (MEXC.open_orders_request Sample.cfg params)
      (respond Sample.offline [] (MEXC.open_orders_request Sample.cfg params))
      (MEXC.cancel_all_orders Sample.rt Sample.offline Sample.cfg []).
Proof.
  eexists _, _. split; [reflexivity|]. split; [reflexivity|].
  apply cancel_all_orders_without_orders; reflexivity.
Defined.

(** ** What placing an order reports *)

Lemma order_outcome_of (rq : request) (r : reply) (lvl : level) (msg : string) :
  match r with
  | Answers (Json data) =>
      match py_in "orderId" data with
      | Ok true => lvl = INFO
      | Ok false => lvl = WARNING
      | Raise _ => lvl = ERROR
      end
  | _ => lvl = ERROR
  end ->
  order_outcome rq r (Ok tt, [Http rq; Log lvl msg]).
Proof.
  intros H. exists lvl, msg. split; [reflexivity|].
  destruct r as [e|[m|data]].
  - subst lvl. split; split; try discriminate; intros (data & Hd & _); discriminate Hd.
  - subst lvl. split; split; try discriminate; intros (data & Hd & _); discriminate Hd.
  - destruct (py_in "orderId" data) as [[|]|e] eqn:Hin; subst lvl; split; split;
      try discriminate; try (intros _; exists data; split; [reflexivity | exact Hin]);
      intros (data' & Hd & Hin'); inversion Hd; subst; congruence.
Qed.

(** X9: once signed, an order is sent in one request and reported in one
    log line, and the operation returns: nobody is alerted and no
    exception leaves it. The line says the order was placed exactly when
    the reply is a JSON document that contains [orderId]; a document
    without it is reported as a warning, a failed or undecodable reply as
    an error. Both variants. *)
Theorem place_order_reports_reply (rt : runtime) (E : env) (cfg : config)
  (side : string) (price : float) (h : list event)
  (signature : string) (params : PyDict.dict)
  (Hsignature : GCBEX.sign rt cfg (stamp E h) "POST" "/sapi/v2/order"
                  (json_dumps rt (GCBEX.order_body rt cfg side price)) = Ok signature)
  (Hparams : MEXC.signed rt cfg (MEXC.order_params rt cfg side price (clock_ms E h))
             = Ok params) :
  order_outcome
    (GCBEX.order_request cfg (stamp E h) signature
       (json_dumps rt (GCBEX.order_body rt cfg side price)))
    (respond E h (GCBEX.order_request cfg (stamp E h) signature
                    (json_dumps rt (GCBEX.order_body rt cfg side price))))
    (GCBEX.place_order rt E cfg side price h) /\
  order_outcome
    (MEXC.order_request cfg POST params)
    (respond E h (MEXC.order_request cfg POST params))
    (MEXC.place_order rt E cfg side price h).
Proof.
  split.
  - unfold GCBEX.place_order. rewrite bind_time. fold (stamp E h).
    rewrite Hsignature, bind_lift_ok.
    unfold try_except, bind at 1, send.
    match goal with
    | |- context [respond E h ?rq] => destruct (respond E h rq) as [e|[m|data]]
    end.
    + apply order_outcome_of. reflexivity.
    + cbn [bind lift json_of]. apply order_outcome_of. reflexivity.
    + unfold bind at 1. cbn [lift json_of]. unfold bind at 1. cbn [lift].
      destruct (py_in "orderId" data) as [[|]|e] eqn:Hin;
        apply order_outcome_of; rewrite Hin; reflexivity.
  - unfold MEXC.place_order. rewrite bind_time, Hparams, bind_lift_ok.
    unfold try_except, bind at 1, send.
    match goal with
    | |- context [respond E h ?rq] => destruct (respond E h rq) as [e|[m|data]]
    end.
    + apply order_outcome_of. reflexivity.
    + cbn [bind lift json_of]. apply order_outcome_of. reflexivity.
    + unfold bind at 1. cbn [lift json_of]. unfold bind at 1. cbn [lift].
      destruct (py_in "orderId" data) as [[|]|e] eqn:Hin;
        apply order_outcome_of; rewrite Hin; reflexivity.
Qed.

Lemma place_order_reports_reply_witness :
  exists signature params,
    order_outcome
      (GCBEX.order_request Sample.cfg (stamp (Sample.exchange Sample.rejected) []) signature
         (json_dumps Sample.rt (GCBEX.order_body Sample.rt Sample.cfg "BUY" 99)))
      Sample.rejected
      (GCBEX.place_order Sample.rt (Sample.exchange Sample.rejected) Sample.cfg "BUY" 99 []) /\
    order_outcome
      (MEXC.order_request Sample.cfg POST params)
      Sample.rejected
      (MEXC.place_order Sample.rt (Sample.exchange Sample.rejected) Sample.cfg "BUY" 99 []).
Proof.
  eexists _, _.
  refine (place_order_reports_reply Sample.rt (Sample.exchange Sample.rejected) Sample.cfg
            "BUY" 99 [] _ _ eq_refl eq_refl).
Defined.

(** ** What cancelling an order reports *)

(** X10: in the header variant, the cancel of an order that carries an
    [orderId], answered by a JSON object, sends one request, logs one
    line and returns; the line says the order was cancelled exactly when
    the answer holds the status CANCELED, and is a warning otherwise. *)
Theorem gcbex_cancel_reports_status (rt : runtime) (E : env) (cfg : config)
  (order order_id : pyval) (answer : PyDict.dict) (h : list event) (signature : string)
  (Hid : py_getitem order "orderId" = Ok order_id)
  (Hsignature : GCBEX.sign rt cfg (stamp E h) "POST" "/sapi/v2/cancel"
                  (json_dumps rt (GCBEX.cancel_body cfg order_id)) = Ok signature)
  (Hanswer : respond E h (GCBEX.cancel_request cfg (stamp E h) signature
                            (json_dumps rt (GCBEX.cancel_body cfg order_id)))
             = Answers (Json (PDict answer))) :
  exists lvl msg,
    GCBEX.cancel_order rt E cfg order h
    = (Ok tt, [Http (GCBEX.cancel_request cfg (stamp E h) signature
                       (json_dumps rt (GCBEX.cancel_body cfg order_id)));
               Log lvl msg]) /\
    (lvl = INFO \/ lvl = WARNING) /\
    (lvl = INFO <-> exists status, PyDict.get answer "status" = Some status /\
                                   py_eq_str status "CANCELED" = true).
Proof.
  unfold GCBEX.cancel_order. rewrite bind_time, Hid, bind_lift_ok. fold (stamp E h).
  rewrite Hsignature, bind_lift_ok.
  unfold bind at 1, send. rewrite Hanswer.
  unfold bind at 1. cbn [lift json_of]. unfold bind at 1. cbn [lift py_in].
  unfold PyDict.mem. unfold bind at 1.
  destruct (PyDict.get answer "status") as [st|] eqn:Hst.
  - unfold bind at 1. cbn [lift py_getitem]. rewrite Hst. cbn [ret].
    destruct (py_eq_str st "CANCELED") eqn:Heq; eexists _, _;
      (split; [reflexivity|]).
    + split; [left; reflexivity|]. split; [intros _; exists st; auto | reflexivity].
    + split; [right; reflexivity|]. split; [discriminate|].
      intros (st' & Hst' & Heq'). congruence.
  - cbn [ret]. eexists _, _. split; [reflexivity|].
    split; [right; reflexivity|]. split; [discriminate|].
    intros (st' & Hst' & _). discriminate Hst'.
Qed.

Lemma gcbex_cancel_reports_status_witness :
  exists signature lvl msg,
    GCBEX.cancel_order Sample.rt (Sample.exchange Sample.rejected) Sample.cfg
      (PDict [("orderId", PInt 1)]) []
    = (Ok tt, [Http (GCBEX.cancel_request Sample.cfg
                       (stamp (Sample.exchange Sample.rejected) []) signature
                       (json_dumps Sample.rt (GCBEX.cancel_body Sample.cfg (PInt 1))));
               Log lvl msg]) /\
    lvl = WARNING.
Proof.
  eexists.
  destruct (gcbex_cancel_reports_status Sample.rt (Sample.exchange Sample.rejected) Sample.cfg
              (PDict [("orderId", PInt 1)]) (PInt 1) _ [] _ eq_refl eq_refl eq_refl)
    as (lvl & msg & Hrun & [Hl|Hl] & Hiff).
  - exfalso. destruct (proj1 Hiff Hl) as (status & Hget & _). discriminate Hget.
  - exists lvl, msg. split; [exact Hrun | exact Hl].
Defined.

(** X11: in the query variant, the answer to a cancel is not examined:
    whatever the exchange answers, be it an error document or no JSON at
    all, the order is reported as cancelled at the info level. An order
    listed without a side is still cancelled on the exchange, and the
    KeyError of its log line leaves the operation after the request. *)
Theorem mexc_cancel_ignores_answer (rt : runtime) (E : env) (cfg : config)
  (order order_id : pyval) (answer : response) (h : list event) (params : PyDict.dict)
  (Hid : py_getitem order "orderId" = Ok order_id)
  (Hparams : MEXC.signed rt cfg [("symbol", env_val (SYMBOL cfg));
                                 ("orderId", order_id);
                                 ("timestamp", PInt (clock_ms E h))] = Ok params)
  (Hanswer : respond E h (MEXC.order_request cfg DELETE params) = Answers answer) :
  (forall side, py_getitem order "side" = Ok side ->
     MEXC.cancel_order rt E cfg order h
     = (Ok tt, [Http (MEXC.order_request cfg DELETE params);
                Log INFO ("Cancelled Order " ++ py_str rt order_id
                          ++ " [" ++ py_str rt side ++ "]")])) /\
  (forall e, py_getitem order "side" = Raise e ->
     MEXC.cancel_order rt E cfg order h
     = (Raise e, [Http (MEXC.order_request cfg DELETE params)])).
Proof.
  split.
  - intros side Hside. unfold MEXC.cancel_order.
    rewrite Hid, bind_lift_ok, bind_time, Hparams, bind_lift_ok.
    unfold bind at 1, send. rewrite Hanswer.
    rewrite bind_lift_ok, Hside, bind_lift_ok. reflexivity.
  - intros e Hside. unfold MEXC.cancel_order.
    rewrite Hid, bind_lift_ok, bind_time, Hparams, bind_lift_ok.
    unfold bind at 1, send. rewrite Hanswer.
    rewrite bind_lift_ok, Hside, bind_lift_raise. reflexivity.
Qed.

Lemma mexc_cancel_ignores_answer_witness :
  exists params,
    MEXC.cancel_order Sample.rt (Sample.exchange Sample.rejected) Sample.cfg
      (PDict [("orderId", PInt 1); ("side", PStr "BUY")]) []
    = (Ok tt, [Http (MEXC.order_request Sample.cfg DELETE params);
               Log INFO "Cancelled Order 1 [BUY]"]) /\
    MEXC.cancel_order Sample.rt (Sample.exchange Sample.rejected) Sample.cfg
      (PDict [("orderId", PInt 1)]) []
    = (Raise (KeyError "side"), [Http (MEXC.order_request Sample.cfg DELETE params)]).
Proof.
  eexists. split.
  - exact (proj1 (mexc_cancel_ignores_answer Sample.rt (Sample.exchange Sample.rejected)
                    Sample.cfg (PDict [("orderId", PInt 1); ("side", PStr "BUY")]) (PInt 1)
                    _ [] _ eq_refl eq_refl eq_refl) (PStr "BUY") eq_refl).
  - exact (proj2 (mexc_cancel_ignores_answer Sample.rt (Sample.exchange Sample.rejected)
                    Sample.cfg (PDict [("orderId", PInt 1)]) (PInt 1)
                    _ [] _ eq_refl eq_refl eq_refl) (KeyError "side") eq_refl).
Defined.

(** ** The two assets of the symbol *)

Lemma take_skip_from (inside : bool) (k : nat) (s : string) :
  PyStr.take_from inside k s ++ PyStr.skip_from inside k s = s.
Proof.
  revert inside k. induction s as [|c s IH]; intros inside k; [reflexivity|].
  cbn [PyStr.take_from PyStr.skip_from].
  destruct (inside && PyStr.is_cont c).
  - cbn [append]. rewrite IH. reflexivity.
  - destruct k as [|k]; [reflexivity|]. cbn [append]. rewrite IH. reflexivity.
Qed.

Lemma len_skip_from (inside : bool) (k : nat) (s : string) :
  PyStr.len_from false (PyStr.skip_from inside k s) = PyStr.len_from inside s - k.
Proof.
  revert inside k. induction s as [|c s IH]; intros inside k; [reflexivity|].
  cbn [PyStr.skip_from]. destruct (inside && PyStr.is_cont c) eqn:Hc.
  - rewrite IH. cbn [PyStr.len_from]. rewrite Hc. reflexivity.
  - destruct k as [|k].
    + cbn [PyStr.len_from]. rewrite Hc. cbn [andb]. lia.
    + rewrite IH. cbn [PyStr.len_from]. rewrite Hc. lia.
Qed.

Lemma len_take_from (inside : bool) (k : nat) (s : string) :
  PyStr.len_from inside (PyStr.take_from inside k s) = Nat.min k (PyStr.len_from inside s).
Proof.
  revert inside k. induction s as [|c s IH]; intros inside k.
  - cbn [PyStr.take_from PyStr.len_from]. lia.
  - cbn [PyStr.take_from]. destruct (inside && PyStr.is_cont c) eqn:Hc.
    + cbn [PyStr.len_from]. rewrite Hc. apply IH.
    + destruct k as [|k]; [reflexivity|].
      cbn [PyStr.len_from]. rewrite Hc, IH. lia.
Qed.

Lemma take_nothing (s : string) : PyStr.take 0 s = EmptyString.
Proof. destruct s; reflexivity. Qed.

(** X12: the two assets of a cycle partition the symbol: the base asset
    followed by the quote asset is the symbol again, the quote asset is
    its last four characters and the base asset all the characters before
    them; a symbol of four characters or fewer is all quote asset and
    leaves the base asset empty. *)
Theorem split_symbol_partitions (cfg : config) (base_asset quote_asset : string)
  (Hsplit : split_symbol cfg = Ok (base_asset, quote_asset)) :
  SYMBOL cfg = Some (base_asset ++ quote_asset) /\
  PyStr.len quote_asset = Nat.min 4 (PyStr.len (base_asset ++ quote_asset)) /\
  PyStr.len base_asset = PyStr.len (base_asset ++ quote_asset) - 4 /\
  (PyStr.len (base_asset ++ quote_asset) <= 4 -> base_asset = EmptyString).
Proof.
  unfold split_symbol in Hsplit. destruct (SYMBOL cfg) as [s|]; [|discriminate].
  inversion Hsplit as [[Hb Hq]]. clear Hsplit.
  assert (Hs : PyStr.drop_last 4 s ++ PyStr.take_last 4 s = s)
    by apply take_skip_from.
  rewrite Hs. split; [reflexivity|]. split; [|split].
  - unfold PyStr.take_last, PyStr.skip, PyStr.len. rewrite len_skip_from.
    fold (PyStr.len s). lia.
  - unfold PyStr.drop_last, PyStr.take, PyStr.len. rewrite len_take_from.
    fold (PyStr.len s). lia.
  - intros Hle. unfold PyStr.drop_last.
    replace (PyStr.len s - 4) with 0 by lia. apply take_nothing.
Qed.

Lemma split_symbol_partitions_witness :
  split_symbol (with_symbol Sample.cfg (Some "ETHUSD€")) = Ok ("ETH", "USD€") /\
  SYMBOL (with_symbol Sample.cfg (Some "ETHUSD€")) = Some ("ETH" ++ "USD€") /\
  PyStr.len "USD€" = Nat.min 4 (PyStr.len ("ETH" ++ "USD€")) /\
  PyStr.len "ETH" = PyStr.len ("ETH" ++ "USD€") - 4 /\
  (PyStr.len ("ETH" ++ "USD€") <= 4 -> "ETH" = EmptyString).
Proof.
  split; [reflexivity|].
  exact (split_symbol_partitions (with_symbol Sample.cfg (Some "ETHUSD€")) "ETH" "USD€" eq_refl).
Defined.

(** ** The query message does not depend on the order of insertion *)

Lemma str_le_cases (a b : string) :
  str_le a b <-> OrderedTypeEx.String_as_OT.lt a b \/ a = b.
Proof.
  unfold str_le, String.leb.
  pose proof (OrderedTypeEx.String_as_OT.cmp_lt a b) as Hlt.
  pose proof (OrderedTypeEx.String_as_OT.cmp_eq a b) as Heq.
  unfold OrderedTypeEx.String_as_OT.cmp in *.
  destruct (String.compare a b); split; intros H.
  - right. apply Heq. reflexivity.
  - reflexivity.
  - left. apply Hlt. reflexivity.
  - reflexivity.
  - discriminate H.
  - destruct H as [H|H]; [apply Hlt in H | apply Heq in H]; discriminate H.
Qed.

Lemma str_le_trans (a b c : string) : str_le a b -> str_le b c -> str_le a c.
Proof.
  rewrite !str_le_cases. intros [H1| ->] [H2| ->]; auto.
  left. exact (OrderedTypeEx.String_as_OT.lt_trans _ _ _ H1 H2).
Qed.

Lemma strongly_sorted_sorted (l : list string) : StronglySorted str_le (MEXC.sorted l).
Proof.
  apply Sorted_StronglySorted; [|apply sorted_sorted].
  intros a b c. apply str_le_trans.
Qed.

(** Two sorted lists with the same elements are the same list. *)
Lemma strongly_sorted_unique (l1 l2 : list string) :
  StronglySorted str_le l1 -> StronglySorted str_le l2 -> Permutation l1 l2 -> l1 = l2.
Proof.
  intros H1. revert l2. induction H1 as [|x l1 Hs1 IH Hx]; intros l2 H2 Hp.
  - apply Permutation_nil in Hp. subst. reflexivity.
  - destruct H2 as [|y l2 Hs2 Hy].
    + apply Permutation_sym, Permutation_nil in Hp. discriminate Hp.
    + assert (Hxy : x = y).
      { assert (Hxin : In x (y :: l2)) by (apply (Permutation_in _ Hp); left; reflexivity).
        assert (Hyin : In y (x :: l1))
          by (apply (Permutation_in _ (Permutation_sym Hp)); left; reflexivity).
        destruct Hxin as [->|Hxin]; [reflexivity|].
        destruct Hyin as [->|Hyin]; [reflexivity|].
        rewrite Forall_forall in Hx, Hy.
        apply String.leb_antisym; [apply (Hx _ Hyin) | apply (Hy _ Hxin)]. }
      subst y. f_equal. apply IH; [exact Hs2|].
      exact (Permutation_cons_inv Hp).
Qed.

Lemma sorted_permutation (l1 l2 : list string) :
  Permutation l1 l2 -> MEXC.sorted l1 = MEXC.sorted l2.
Proof.
  intros Hp. apply strongly_sorted_unique; try apply strongly_sorted_sorted.
  apply perm_trans with l1; [apply sorted_perm|].
  apply perm_trans with l2; [exact Hp | apply Permutation_sym, sorted_perm].
Qed.

Lemma get_of_entry (d : PyDict.dict) (k : string) (v : pyval) :
  NoDup (PyDict.keys d) -> In (k, v) d -> PyDict.get d k = Some v.
Proof.
  unfold PyDict.keys. induction d as [|[k' v'] r IH]; intros Hnd Hin; [destruct Hin|].
  cbn [map fst] in Hnd. inversion Hnd as [|k0 l0 Hnotin Hnd']; subst.
  cbn [PyDict.get]. destruct Hin as [Heq|Hin].
  - inversion Heq; subst. rewrite String.eqb_refl. reflexivity.
  - destruct (String.eqb_spec k' k) as [->|_]; [|apply IH; assumption].
    destruct Hnotin. apply (in_map fst) in Hin. exact Hin.
Qed.

Lemma entry_of_get (d : PyDict.dict) (k : string) (v : pyval) :
  PyDict.get d k = Some v -> In (k, v) d.
Proof.
  induction d as [|[k' v'] r IH]; cbn [PyDict.get]; [discriminate|].
  destruct (String.eqb_spec k' k) as [->|_].
  - intros H. inversion H; subst. left. reflexivity.
  - intros H. right. exact (IH H).
Qed.

Lemma value_at_permutation (d1 d2 : PyDict.dict) (k : string) :
  NoDup (PyDict.keys d1) -> Permutation d1 d2 -> value_at d1 k = value_at d2 k.
Proof.
  intros Hnd Hp.
  assert (Hnd2 : NoDup (PyDict.keys d2)).
  { apply (Permutation_NoDup (l := PyDict.keys d1)); [|exact Hnd].
    apply Permutation_map. exact Hp. }
  unfold value_at.
  destruct (PyDict.get d1 k) as [v1|] eqn:H1.
  - apply entry_of_get in H1. apply (Permutation_in _ Hp) in H1.
    rewrite (get_of_entry d2 k v1 Hnd2 H1). reflexivity.
  - destruct (PyDict.get d2 k) as [v2|] eqn:H2; [|reflexivity].
    apply entry_of_get in H2. apply (Permutation_in _ (Permutation_sym Hp)) in H2.
    rewrite (get_of_entry d1 k v2 Hnd H2) in H1. discriminate H1.
Qed.

(** X13: in the query variant the signed message, and with it the
    signature, does not depend on the order in which the parameters were
    put into the dictionary: two dictionaries with the same entries are
    signed alike. *)
Theorem mexc_sign_ignores_insertion_order (rt : runtime) (cfg : config)
  (params params' : PyDict.dict)
  (Hkeys : NoDup (PyDict.keys params))
  (Hsame : Permutation params params') :
  MEXC.query rt params = MEXC.query rt params' /\
  MEXC.sign rt cfg params = MEXC.sign rt cfg params'.
Proof.
  assert (Hq : MEXC.query rt params = MEXC.query rt params').
  { rewrite !mexc_query_ok. do 2 f_equal.
    rewrite (sorted_permutation (PyDict.keys params) (PyDict.keys params'))
      by (apply Permutation_map; exact Hsame).
    apply map_ext. intros k.
    rewrite (value_at_permutation params params' k Hkeys Hsame). reflexivity. }
  split; [exact Hq|]. unfold MEXC.sign. rewrite Hq. reflexivity.
Qed.

Lemma mexc_sign_ignores_insertion_order_witness :
  MEXC.query Sample.rt [("symbol", PStr "ETHUSDT"); ("timestamp", PInt 5)]
  = MEXC.query Sample.rt [("timestamp", PInt 5); ("symbol", PStr "ETHUSDT")] /\
  MEXC.sign Sample.rt Sample.cfg [("symbol", PStr "ETHUSDT"); ("timestamp", PInt 5)]
  = MEXC.sign Sample.rt Sample.cfg [("timestamp", PInt 5); ("symbol", PStr "ETHUSDT")].
Proof.
  apply mexc_sign_ignores_insertion_order.
  - constructor; [intros [C|[]]; discriminate C|].
    constructor; [intros []|]. constructor.
  - apply perm_swap.
Defined.

(** ** What fetching a balance logs *)

Lemma balance_from_effects (rt : runtime) (E : env) (rq : request) (asset : string) h :
  balance_effects rt asset rq (respond E h rq) (balance_from rt E rq asset h).
Proof.
  unfold balance_effects, balance_from. unfold bind at 1, try_except.
  unfold bind at 1, send.
  destruct (respond E h rq) as [e|[m|data]] eqn:Hr.
  - eexists _, _. split; [reflexivity|]. right. eexists _, _.
    split; [reflexivity|]. split; [discriminate | reflexivity].
  - cbn [lift json_of bind]. eexists _, _. split; [reflexivity|]. right. eexists _, _.
    split; [reflexivity|]. split; [discriminate | reflexivity].
  - unfold bind at 1. cbn [lift json_of]. unfold bind at 1. cbn [lift].
    destruct (py_in "balances" data) as [[|]|e] eqn:Hin.
    + unfold bind at 1. cbn [lift].
      destruct (py_getitem data "balances") as [v|e] eqn:Hg; cbn [rbind].
      * destruct (py_iter v) as [items|e] eqn:Hi.
        -- destruct (scan_balances rt asset items) as [found|e] eqn:Hs.
           ++ eexists _, _. split; [reflexivity|]. left. split; [reflexivity|].
              exists data, v, items, found. auto.
           ++ eexists _, _. split; [reflexivity|]. right. eexists _, _.
              split; [reflexivity|]. split; [discriminate | reflexivity].
        -- eexists _, _. split; [reflexivity|]. right. eexists _, _.
           split; [reflexivity|]. split; [discriminate | reflexivity].
      * eexists _, _. split; [reflexivity|]. right. eexists _, _.
        split; [reflexivity|]. split; [discriminate | reflexivity].
    + unfold bind at 1. cbn [log emit ret]. eexists _, _. split; [reflexivity|].
      right. eexists _, _. split; [reflexivity|]. split; [discriminate | reflexivity].
    + eexists _, _. split; [reflexivity|]. right. eexists _, _.
      split; [reflexivity|]. split; [discriminate | reflexivity].
Qed.

Lemma scan_balances_absent (rt : runtime) (asset : string) (items : list pyval) :
  Forall (other_asset asset) items -> scan_balances rt asset items = Ok None.
Proof.
  induction 1 as [|item items (a & Ha & Hne) _ IH]; cbn [scan_balances]; [reflexivity|].
  rewrite Ha. cbn [rbind]. rewrite Hne. exact IH.
Qed.

Lemma scan_balances_malformed (rt : runtime) (asset : string)
  (before : list pyval) (item : pyval) (after : list pyval) (e : exn) :
  Forall (other_asset asset) before ->
  py_getitem item "asset" = Raise e ->
  scan_balances rt asset (before ++ item :: after) = Raise e.
Proof.
  intros Hb He. induction Hb as [|i before (a & Ha & Hne) _ IH]; cbn [app scan_balances].
  - rewrite He. reflexivity.
  - rewrite Ha. cbn [rbind]. rewrite Hne. exact IH.
Qed.

(** X14: fetching a balance sends its one signed request and returns. A
    zero that comes with no log line means that the loop over the listed
    balances ended without finding the asset; every failure (no reply, no
    JSON, no list of balances, an item that cannot be read) returns zero
    with exactly one line logged above the info level. The loop reads the
    items in order: a list that names only other assets gives none, and an
    item without an asset name before the asset hides it. Both variants. *)
Theorem get_balance_logs_failures_only (rt : runtime) (E : env) (cfg : config)
  (asset : string) (h : list event) (signature : string) (params : PyDict.dict)
  (Hsignature : GCBEX.sign rt cfg (stamp E h) "GET" "/sapi/v1/account" "" = Ok signature)
  (Hparams : MEXC.signed rt cfg [("timestamp", PInt (clock_ms E h))] = Ok params) :
  balance_effects rt asset (GCBEX.account_request cfg (stamp E h) signature)
    (respond E h (GCBEX.account_request cfg (stamp E h) signature))
    (GCBEX.get_balance rt E cfg asset h) /\
  balance_effects rt asset (MEXC.account_request cfg params)
    (respond E h (MEXC.account_request cfg params))
    (MEXC.get_balance rt E cfg asset h) /\
  (forall items, Forall (other_asset asset) items ->
                 scan_balances rt asset items = Ok None) /\
  (forall before item after e,
     Forall (other_asset asset) before -> py_getitem item "asset" = Raise e ->
     scan_balances rt asset (before ++ item :: after) = Raise e).
Proof.
  split; [|split; [|split]].
  - unfold GCBEX.get_balance. rewrite bind_time. fold (stamp E h).
    rewrite Hsignature, bind_lift_ok. apply balance_from_effects.
  - unfold MEXC.get_balance. rewrite bind_time, Hparams, bind_lift_ok.
    apply balance_from_effects.
  - apply scan_balances_absent.
  - apply scan_balances_malformed.
Qed.

Lemma get_balance_logs_failures_only_witness :
  snd (GCBEX.get_balance Sample.rt (Sample.exchange Sample.rejected) Sample.cfg "BTC" [])
  = [Http (GCBEX.account_request Sample.cfg (stamp (Sample.exchange Sample.rejected) [])
             "7365637265742f313730303030303030303030304745542f736170692f76312f6163636f756e74")] /\
  fst (GCBEX.get_balance Sample.rt (Sample.exchange Sample.rejected) Sample.cfg "BTC" [])
  = Ok 0%float.
Proof.
  destruct (get_balance_logs_failures_only Sample.rt (Sample.exchange Sample.rejected)
              Sample.cfg "BTC" [] _ _ eq_refl eq_refl) as ((f & d & Hrun & Hd) & _).
  rewrite Hrun. cbn [fst snd]. destruct Hd as [(-> & data & v & items & found & Hr & Hg & Hi & Hs & ->)
                                               |(lvl & msg & -> & _ & ->)].
  - split; [reflexivity|].
    inversion Hr; subst data. inversion Hg; subst v. inversion Hi; subst items.
    vm_compute in Hs. inversion Hs. reflexivity.
  - exfalso. vm_compute in Hrun. discriminate Hrun.
Defined.

(** ** The loop under a complete configuration *)


Section Paced.

Variable rt : runtime.
Variable E : env.
Variable cfg : config.
Variable get_price : M float.
Variable cancel_all_orders : M unit.
Variable get_balance : string -> M float.
Variable place_order : string -> float -> M unit.

Hypothesis get_price_quiet : forall h, emits_at not_a_pause h get_price.
Hypothesis cancel_quiet : forall h, emits_at not_a_pause h cancel_all_orders.
Hypothesis get_balance_quiet : forall asset h, emits_at not_a_pause h (get_balance asset).
Hypothesis place_order_quiet : forall side price h, emits_at not_a_pause h (place_order side price).
Hypothesis cycle_completes :
  forall h, fst (cycle rt E cfg get_price cancel_all_orders get_balance place_order h) = Ok tt.


End Paced.


